(** * ADF4350 driver (drivers/ADF4350/ADF4350.c): frequency planner and
      register synchronisation

    A shallow embedding of the driver and the properties of its
    specification.  Machine integers are [Z] with their wrap-around
    written out; the two register arrays are lists read and updated by
    index; the serial transport is a parameter; loops that the C code
    does not bound take fuel, and a division or modulo by zero is a
    fault. *)

From Stdlib Require Import ZArith Znumtheory Bool Lia Sorted.
From stdpp Require Import base numbers option list.

Local Open Scope Z_scope.

(** ** Machine integers *)

Definition u8 (x : Z) : Z := x mod 2 ^ 8.
Definition u16 (x : Z) : Z := x mod 2 ^ 16.
Definition u32 (x : Z) : Z := x mod 2 ^ 32.
Definition u64 (x : Z) : Z := x mod 2 ^ 64.

(** Conversion to [int32_t]: the value modulo 2^32 in [-2^31, 2^31);
    and to [int64_t]. *)
Definition s32 (x : Z) : Z := (x + 2 ^ 31) mod 2 ^ 32 - 2 ^ 31.
Definition s64 (x : Z) : Z := (x + 2 ^ 63) mod 2 ^ 64 - 2 ^ 63.

(** ** Outcomes of a run *)

(** Where the C code divides by zero. *)
Inductive fault : Set :=
| DivByZero_tune      (* fpfd = ... / (r_cnt * ...) with r_cnt wrapped to 0 *)
| DivByZero_chspc     (* r1_mod = fpfd / chspc *)
| DivByZero_fpfd      (* tmp / fpfd *)
| DivByZero_mod       (* tmp % r1_mod, tmp / r1_mod *)
| ModByZero_gcd       (* x % tmp, y % tmp in gcd *)
| DivByZero_freq.     (* tmp / (r1_mod * (1 << r4_rf_div_sel)) *)

Inductive outcome (A : Type) : Type :=
| Done (a : A)
| Fault (f : fault)
| OutOfFuel.
Arguments Done {A} a.
Arguments Fault {A} f.
Arguments OutOfFuel {A}.

#[global] Instance outcome_ret : MRet outcome := fun A a => Done a.
#[global] Instance outcome_bind : MBind outcome := fun A B k m =>
  match m with
  | Done a => k a
  | Fault f => Fault f
  | OutOfFuel => OutOfFuel
  end.

(** ** The header ADF4350.h *)

(** The header that defines the limits of the device and the bit-field
    macros is not among the sources: its constants and macros are the
    fields of this class, and the driver is a function of them. *)
Class adf4350_h : Type := {
  ADF4350_MAX_OUT_FREQ : Z;
  ADF4350_MIN_OUT_FREQ : Z;
  ADF4350_MIN_VCO_FREQ : Z;
  ADF4350_MAX_FREQ_45_PRESC : Z;
  ADF4350_MAX_FREQ_PFD : Z;
  ADF4350_MAX_BANDSEL_CLK : Z;
  ADF4350_MAX_MODULUS : Z;
  ADF4350_MAX_R_CNT : Z;
  ADF4350_REG0_INT : Z -> Z;
  ADF4350_REG0_FRACT : Z -> Z;
  ADF4350_REG1_PHASE : Z -> Z;
  ADF4350_REG1_MOD : Z -> Z;
  ADF4350_REG1_PRESCALER : Z;
  ADF4350_REG2_10BIT_R_CNT : Z -> Z;
  ADF4350_REG2_DOUBLE_BUFF_EN : Z;
  ADF4350_REG2_RMULT2_EN : Z;
  ADF4350_REG2_RDIV2_EN : Z;
  ADF4350_REG2_PD_POLARITY_POS : Z;
  ADF4350_REG2_LDP_6ns : Z;
  ADF4350_REG2_LDF_INT_N : Z;
  ADF4350_REG2_CHARGE_PUMP_CURR_uA : Z -> Z;
  ADF4350_REG2_MUXOUT : Z -> Z;
  ADF4350_REG2_NOISE_MODE : Z -> Z;
  ADF4350_REG3_12BIT_CLKDIV : Z -> Z;
  ADF4350_REG3_12BIT_CLKDIV_MODE : Z -> Z;
  ADF4350_REG3_12BIT_CSR_EN : Z;
  ADF4350_REG4_FEEDBACK_FUND : Z;
  ADF4350_REG4_RF_DIV_SEL : Z -> Z;
  ADF4350_REG4_8BIT_BAND_SEL_CLKDIV : Z -> Z;
  ADF4350_REG4_RF_OUT_EN : Z;
  ADF4350_REG4_OUTPUT_PWR : Z -> Z;
  ADF4350_REG4_AUX_OUTPUT_PWR : Z -> Z;
  ADF4350_REG4_AUX_OUTPUT_EN : Z;
  ADF4350_REG4_AUX_OUTPUT_FUND : Z;
  ADF4350_REG4_MUTE_TILL_LOCK_EN : Z;
  ADF4350_REG5_LD_PIN_MODE_DIGITAL : Z
}.

(** Modelled from the spec: the register indices ADF4350_REG0 ..
    ADF4350_REG5 of the missing header.  The synchronisation goes through
    the indices from 5 down to 0, registers 1 and 4 are the
    double-buffered ones and register 0 latches them (spec 4.4). *)
Definition ADF4350_REG0 : nat := 0.
Definition ADF4350_REG1 : nat := 1.
Definition ADF4350_REG2 : nat := 2.
Definition ADF4350_REG3 : nat := 3.
Definition ADF4350_REG4 : nat := 4.
Definition ADF4350_REG5 : nat := 5.

(** ** The transport *)

(** What the driver is linked with: the state of the bus and the
    transfer of spi.h, which sends [txSize] bytes of [txBuf] to the slave
    [ssNo] at [baseAddress] and gives a status (negative on failure) and
    the next state of the bus; and the two file-scope variables that
    [adf4350_setup] sets. *)
Class spi_h : Type := {
  Bus : Type;
  SPI_TransferData :
    forall (baseAddress txSize : Z) (txBuf : list Z) (rxSize : Z) (ssNo : Z),
      Bus -> Z * Bus;
  spiBaseAddress : Z;
  spiSlaveSelect : Z
}.

(** ** Driver state *)

(** [struct adf4350_platform_data], read only by the driver.  The two
    enables are only tested for being non-zero. *)
Record adf4350_platform_data : Type := {
  pd_clkin : Z;
  channel_spacing : Z;
  power_up_frequency : Z;
  ref_div_factor : Z;          (* 16 bits; 0 means not set *)
  ref_doubler_en : bool;
  ref_div2_en : bool;
  r2_user_settings : Z;
  r3_user_settings : Z;
  r4_user_settings : Z
}.

(** [struct adf4350_state] *)
Record adf4350_state : Type := {
  pdata : adf4350_platform_data;
  clkin : Z;
  chspc : Z;
  fpfd : Z;
  min_out_freq : Z;
  r0_fract : Z;
  r0_int : Z;
  r1_mod : Z;
  r4_rf_div_sel : Z;
  regs : list Z;
  regs_hw : list Z;
  val : Z
}.

Definition set_fpfd (v : Z) (st : adf4350_state) : adf4350_state :=
  {| pdata := pdata st; clkin := clkin st; chspc := chspc st; fpfd := v;
     min_out_freq := min_out_freq st; r0_fract := r0_fract st;
     r0_int := r0_int st; r1_mod := r1_mod st;
     r4_rf_div_sel := r4_rf_div_sel st; regs := regs st;
     regs_hw := regs_hw st; val := val st |}.

Definition set_r0_fract (v : Z) (st : adf4350_state) : adf4350_state :=
  {| pdata := pdata st; clkin := clkin st; chspc := chspc st; fpfd := fpfd st;
     min_out_freq := min_out_freq st; r0_fract := v;
     r0_int := r0_int st; r1_mod := r1_mod st;
     r4_rf_div_sel := r4_rf_div_sel st; regs := regs st;
     regs_hw := regs_hw st; val := val st |}.

Definition set_r0_int (v : Z) (st : adf4350_state) : adf4350_state :=
  {| pdata := pdata st; clkin := clkin st; chspc := chspc st; fpfd := fpfd st;
     min_out_freq := min_out_freq st; r0_fract := r0_fract st;
     r0_int := v; r1_mod := r1_mod st;
     r4_rf_div_sel := r4_rf_div_sel st; regs := regs st;
     regs_hw := regs_hw st; val := val st |}.

Definition set_r1_mod (v : Z) (st : adf4350_state) : adf4350_state :=
  {| pdata := pdata st; clkin := clkin st; chspc := chspc st; fpfd := fpfd st;
     min_out_freq := min_out_freq st; r0_fract := r0_fract st;
     r0_int := r0_int st; r1_mod := v;
     r4_rf_div_sel := r4_rf_div_sel st; regs := regs st;
     regs_hw := regs_hw st; val := val st |}.

Definition set_r4_rf_div_sel (v : Z) (st : adf4350_state) : adf4350_state :=
  {| pdata := pdata st; clkin := clkin st; chspc := chspc st; fpfd := fpfd st;
     min_out_freq := min_out_freq st; r0_fract := r0_fract st;
     r0_int := r0_int st; r1_mod := r1_mod st;
     r4_rf_div_sel := v; regs := regs st;
     regs_hw := regs_hw st; val := val st |}.

Definition set_regs (v : list Z) (st : adf4350_state) : adf4350_state :=
  {| pdata := pdata st; clkin := clkin st; chspc := chspc st; fpfd := fpfd st;
     min_out_freq := min_out_freq st; r0_fract := r0_fract st;
     r0_int := r0_int st; r1_mod := r1_mod st;
     r4_rf_div_sel := r4_rf_div_sel st; regs := v;
     regs_hw := regs_hw st; val := val st |}.

Definition set_regs_hw (v : list Z) (st : adf4350_state) : adf4350_state :=
  {| pdata := pdata st; clkin := clkin st; chspc := chspc st; fpfd := fpfd st;
     min_out_freq := min_out_freq st; r0_fract := r0_fract st;
     r0_int := r0_int st; r1_mod := r1_mod st;
     r4_rf_div_sel := r4_rf_div_sel st; regs := regs st;
     regs_hw := v; val := val st |}.

Definition set_val (v : Z) (st : adf4350_state) : adf4350_state :=
  {| pdata := pdata st; clkin := clkin st; chspc := chspc st; fpfd := fpfd st;
     min_out_freq := min_out_freq st; r0_fract := r0_fract st;
     r0_int := r0_int st; r1_mod := r1_mod st;
     r4_rf_div_sel := r4_rf_div_sel st; regs := regs st;
     regs_hw := regs_hw st; val := v |}.

Definition set_clkin (v : Z) (st : adf4350_state) : adf4350_state :=
  {| pdata := pdata st; clkin := v; chspc := chspc st; fpfd := fpfd st;
     min_out_freq := min_out_freq st; r0_fract := r0_fract st;
     r0_int := r0_int st; r1_mod := r1_mod st;
     r4_rf_div_sel := r4_rf_div_sel st; regs := regs st;
     regs_hw := regs_hw st; val := val st |}.

Definition set_chspc (v : Z) (st : adf4350_state) : adf4350_state :=
  {| pdata := pdata st; clkin := clkin st; chspc := v; fpfd := fpfd st;
     min_out_freq := min_out_freq st; r0_fract := r0_fract st;
     r0_int := r0_int st; r1_mod := r1_mod st;
     r4_rf_div_sel := r4_rf_div_sel st; regs := regs st;
     regs_hw := regs_hw st; val := val st |}.

Definition set_pdata (v : adf4350_platform_data) (st : adf4350_state)
    : adf4350_state :=
  {| pdata := v; clkin := clkin st; chspc := chspc st; fpfd := fpfd st;
     min_out_freq := min_out_freq st; r0_fract := r0_fract st;
     r0_int := r0_int st; r1_mod := r1_mod st;
     r4_rf_div_sel := r4_rf_div_sel st; regs := regs st;
     regs_hw := regs_hw st; val := val st |}.

(** [INT32_MAX] of stdint.h: the value that makes a setter a query. *)
Definition INT32_MAX : Z := 2147483647.

(** One more macro of the header, used by the power-down only. *)
Class adf4350_h_powerdown : Type := {
  ADF4350_REG2_POWER_DOWN_EN : Z
}.

(** The header ADF4350_cfg.h is not among the sources either: it defines
    the platform data that [adf4350_setup] installs. *)
Class adf4350_cfg_h : Type := {
  adf4350_pdata_lpc : adf4350_platform_data
}.

(** The transport once the statics [spiBaseAddress] and [spiSlaveSelect]
    are assigned: the same bus and the same transfer, with the two values
    given. *)
Definition spi_select (P : spi_h) (base ss : Z) : spi_h := {|
  Bus := @Bus P;
  SPI_TransferData := @SPI_TransferData P;
  spiBaseAddress := base;
  spiSlaveSelect := ss
|}.

(** The header as the device's documentation gives it (ADF4350 data
    sheet: outputs from 137.5 MHz to 4.4 GHz, VCO from 2.2 GHz, PFD up to
    32 MHz, band-select clock up to 125 kHz, 12-bit modulus, 10-bit R
    counter).  It is used only to run the driver on concrete inputs. *)
Definition ADF4350_h_device : adf4350_h := {|
  ADF4350_MAX_OUT_FREQ := 4400000000;
  ADF4350_MIN_OUT_FREQ := 137500000;
  ADF4350_MIN_VCO_FREQ := 2200000000;
  ADF4350_MAX_FREQ_45_PRESC := 3000000000;
  ADF4350_MAX_FREQ_PFD := 32000000;
  ADF4350_MAX_BANDSEL_CLK := 125000;
  ADF4350_MAX_MODULUS := 4095;
  ADF4350_MAX_R_CNT := 1023;
  ADF4350_REG0_INT := fun x => Z.shiftl (Z.land x 0xFFFF) 15;
  ADF4350_REG0_FRACT := fun x => Z.shiftl (Z.land x 0xFFF) 3;
  ADF4350_REG1_PHASE := fun x => Z.shiftl (Z.land x 0xFFF) 15;
  ADF4350_REG1_MOD := fun x => Z.shiftl (Z.land x 0xFFF) 3;
  ADF4350_REG1_PRESCALER := Z.shiftl 1 27;
  ADF4350_REG2_10BIT_R_CNT := fun x => Z.shiftl x 14;
  ADF4350_REG2_DOUBLE_BUFF_EN := Z.shiftl 1 13;
  ADF4350_REG2_RMULT2_EN := Z.shiftl 1 25;
  ADF4350_REG2_RDIV2_EN := Z.shiftl 1 24;
  ADF4350_REG2_PD_POLARITY_POS := Z.shiftl 1 6;
  ADF4350_REG2_LDP_6ns := Z.shiftl 1 7;
  ADF4350_REG2_LDF_INT_N := Z.shiftl 1 8;
  ADF4350_REG2_CHARGE_PUMP_CURR_uA :=
    fun x => Z.shiftl (Z.land ((x - 312) / 312) 0xF) 9;
  ADF4350_REG2_MUXOUT := fun x => Z.shiftl x 26;
  ADF4350_REG2_NOISE_MODE := fun x => Z.shiftl x 29;
  ADF4350_REG3_12BIT_CLKDIV := fun x => Z.shiftl x 3;
  ADF4350_REG3_12BIT_CLKDIV_MODE := fun x => Z.shiftl x 16;
  ADF4350_REG3_12BIT_CSR_EN := Z.shiftl 1 18;
  ADF4350_REG4_FEEDBACK_FUND := Z.shiftl 1 23;
  ADF4350_REG4_RF_DIV_SEL := fun x => Z.shiftl x 20;
  ADF4350_REG4_8BIT_BAND_SEL_CLKDIV := fun x => Z.shiftl x 12;
  ADF4350_REG4_RF_OUT_EN := Z.shiftl 1 5;
  ADF4350_REG4_OUTPUT_PWR := fun x => Z.shiftl x 3;
  ADF4350_REG4_AUX_OUTPUT_PWR := fun x => Z.shiftl x 6;
  ADF4350_REG4_AUX_OUTPUT_EN := Z.shiftl 1 8;
  ADF4350_REG4_AUX_OUTPUT_FUND := Z.shiftl 1 9;
  ADF4350_REG4_MUTE_TILL_LOCK_EN := Z.shiftl 1 10;
  ADF4350_REG5_LD_PIN_MODE_DIGITAL := Z.shiftl 1 22
|}.

(** The power-down bit of register 2 on the device. *)
Definition ADF4350_h_powerdown_device : adf4350_h_powerdown := {|
  ADF4350_REG2_POWER_DOWN_EN := Z.shiftl 1 5
|}.

(** A platform with a 25 MHz reference and 10 kHz channel spacing, with
    neither doubler nor divider. *)
Definition pdata_lpc : adf4350_platform_data := {|
  pd_clkin := 25000000; channel_spacing := 10000;
  power_up_frequency := 2500000000; ref_div_factor := 0;
  ref_doubler_en := false; ref_div2_en := false;
  r2_user_settings := 0; r3_user_settings := 0; r4_user_settings := 0 |}.

(** A configuration whose power-up frequency, 5 GHz, is above the range
    of the device. *)
Definition ADF4350_cfg_h_overrange : adf4350_cfg_h := {|
  adf4350_pdata_lpc := {|
    pd_clkin := 25000000; channel_spacing := 10000;
    power_up_frequency := 5000000000; ref_div_factor := 0;
    ref_doubler_en := false; ref_div2_en := false;
    r2_user_settings := 0; r3_user_settings := 0; r4_user_settings := 0 |}
|}.

(** The state after [clkin] and [chspc] are set, nothing written yet. *)
Definition state_of (clk spacing : Z) : adf4350_state := {|
  pdata := pdata_lpc; clkin := clk; chspc := spacing; fpfd := 0;
  min_out_freq := 0; r0_fract := 0; r0_int := 0; r1_mod := 0;
  r4_rf_div_sel := 0; regs := [0; 0; 0; 0; 0; 0];
  regs_hw := [0; 0; 0; 0; 0; 0]; val := 0 |}.

(** A bus on which every transfer succeeds; its state is the list of the
    buffers sent. *)
Definition spi_ok : spi_h := {|
  Bus := list (list Z);
  SPI_TransferData := fun baseAddress txSize txBuf rxSize ssNo bus =>
    (0, bus ++ [txBuf]);
  spiBaseAddress := 0;
  spiSlaveSelect := 0
|}.

(** A bus on which the first [n] transfers succeed and every later one
    fails with the status -1; its state is the list of the buffers handed
    to it. *)
Definition spi_fail_after (n : nat) : spi_h := {|
  Bus := list (list Z);
  SPI_TransferData := fun baseAddress txSize txBuf rxSize ssNo bus =>
    (if (length bus <? n)%nat then 0 else -1, bus ++ [txBuf]);
  spiBaseAddress := 0;
  spiSlaveSelect := 0
|}.

(** A state whose shadow differs from the targets in register 4 only. *)
Definition st_reg4_changed : adf4350_state :=
  set_regs [3145728; 32776; 24576; 0; 9207840; 5767168]
    (set_regs_hw [3145728; 32776; 24576; 0; 9207808; 5767168]
       (state_of 25000000 10000)).

(** A state with the fraction 1500/2500. *)
Definition st_fraction : adf4350_state :=
  set_r0_fract 1500 (set_r1_mod 2500 (state_of 25000000 10000)).

(** A platform with the doubler on, and a state with a reference of 2^31
    Hz on it. *)
Definition pdata_doubler : adf4350_platform_data := {|
  pd_clkin := 2147483648; channel_spacing := 10000;
  power_up_frequency := 2500000000; ref_div_factor := 0;
  ref_doubler_en := true; ref_div2_en := false;
  r2_user_settings := 0; r3_user_settings := 0; r4_user_settings := 0 |}.

Definition st_doubler : adf4350_state := {|
  pdata := pdata_doubler; clkin := 2147483648; chspc := 10000; fpfd := 0;
  min_out_freq := 0; r0_fract := 0; r0_int := 0; r1_mod := 0;
  r4_rf_div_sel := 0; regs := [0; 0; 0; 0; 0; 0];
  regs_hw := [0; 0; 0; 0; 0; 0]; val := 0 |}.

(** ** The driver *)

Section Driver.

Context {H : adf4350_h} {P : spi_h}.

(** *** Serial writer *)

Definition adf4350_write (data : Z) (bus : Bus) : Z * Bus :=
  let txData :=
    [ Z.shiftr (Z.land data 0xFF000000) 24;
      Z.shiftr (Z.land data 0x00FF0000) 16;
      Z.shiftr (Z.land data 0x0000FF00) 8;
      Z.shiftr (Z.land data 0x000000FF) 0 ] in
  SPI_TransferData spiBaseAddress 4 txData 0 spiSlaveSelect bus.

(** *** Register synchronisation *)

(** A write issued by the synchronisation: the register index and the
    word handed to [adf4350_write]. *)
Definition write_event : Type := nat * Z.

(** The loop [for (i = ADF4350_REG5; i >= ADF4350_REG0; i--)], with
    [n = i + 1] registers left.  The result is the returned status, the
    state, the bus, and the writes issued so far, oldest first. *)
Fixpoint sync_loop (n : nat) (doublebuf : bool) (st : adf4350_state)
    (bus : Bus) (tr : list write_event)
    : Z * adf4350_state * Bus * list write_event :=
  match n with
  | O => (0, st, bus, tr)
  | S i =>
      if negb (regs_hw st !!! i =? regs st !!! i)
         || (Nat.eqb i ADF4350_REG0 && doublebuf)
      then
        let doublebuf' :=
          if Nat.eqb i ADF4350_REG1 || Nat.eqb i ADF4350_REG4
          then true else doublebuf in
        let st1 := set_val (u32 (Z.lor (regs st !!! i) (Z.of_nat i))) st in
        let '(ret, bus1) := adf4350_write (val st1) bus in
        let tr1 := tr ++ [(i, val st1)] in
        if ret <? 0 then (ret, st1, bus1, tr1)
        else
          sync_loop i doublebuf'
            (set_regs_hw (<[i := regs st1 !!! i]> (regs_hw st1)) st1)
            bus1 tr1
      else sync_loop i doublebuf st bus tr
  end.

Definition adf4350_sync_config (st : adf4350_state) (bus : Bus)
    : Z * adf4350_state * Bus * list write_event :=
  sync_loop 6 false st bus [].

(** *** Divider search *)

(** The PFD frequency that one pass of the loop stores for the counter
    value [r_cnt]: a 32-bit product divided by an [int]. *)
Definition tune_fpfd (st : adf4350_state) (r_cnt : Z) : Z :=
  u32 (clkin st * (if ref_doubler_en (pdata st) then 2 else 1))
  / (r_cnt * (if ref_div2_en (pdata st) then 2 else 1)).

(** [do { r_cnt++; st->fpfd = ...; } while (st->fpfd > ADF4350_MAX_FREQ_PFD)]
    on a 16-bit counter.  The result is the counter and the state. *)
Fixpoint adf4350_tune_r_cnt (fuel : nat) (st : adf4350_state) (r_cnt : Z)
    : outcome (Z * adf4350_state) :=
  match fuel with
  | O => OutOfFuel
  | S fuel' =>
      let r_cnt := u16 (r_cnt + 1) in
      if r_cnt * (if ref_div2_en (pdata st) then 2 else 1) =? 0
      then Fault DivByZero_tune
      else
        let st := set_fpfd (tune_fpfd st r_cnt) st in
        if fpfd st >? ADF4350_MAX_FREQ_PFD
        then adf4350_tune_r_cnt fuel' st r_cnt
        else mret (r_cnt, st)
  end.

(** *** Greatest common divisor *)

(** [while ((x % tmp) || (y % tmp)) tmp--;] with [tmp] an [int32_t]:
    the remainders are taken on its conversion to 32 bits unsigned, the
    decrement is the two's complement one. *)
Fixpoint gcd_loop (fuel : nat) (x y tmp : Z) : outcome Z :=
  match fuel with
  | O => OutOfFuel
  | S fuel' =>
      if u32 tmp =? 0 then Fault ModByZero_gcd
      else if negb (x mod u32 tmp =? 0) || negb (y mod u32 tmp =? 0)
      then gcd_loop fuel' x y (s32 (tmp - 1))
      else mret (u32 tmp)
  end.

Definition gcd (fuel : nat) (x y : Z) : outcome Z :=
  gcd_loop fuel x y (s32 (if y >? x then x else y)).

(** *** Frequency planner *)

(** [while (freq < ADF4350_MIN_VCO_FREQ) { freq <<= 1; st->r4_rf_div_sel++; }] *)
Fixpoint rf_div_loop (fuel : nat) (st : adf4350_state) (freq : Z)
    : outcome (adf4350_state * Z) :=
  match fuel with
  | O => OutOfFuel
  | S fuel' =>
      if freq <? ADF4350_MIN_VCO_FREQ
      then rf_div_loop fuel'
             (set_r4_rf_div_sel (u32 (r4_rf_div_sel st + 1)) st)
             (u64 (Z.shiftl freq 1))
      else mret (st, freq)
  end.

(** The locals that the three search loops share. *)
Record search_vars : Type := {
  sv_st : adf4350_state;
  sv_r_cnt : Z;      (* uint16_t r_cnt *)
  sv_chspc : Z       (* uint32_t chspc *)
}.

(** Body of the innermost loop (lines 221-228). *)
Definition search_body (n : nat) (v : search_vars) : outcome search_vars :=
  '(r_cnt, st) ← adf4350_tune_r_cnt n (sv_st v) (sv_r_cnt v);
  if sv_chspc v =? 0 then Fault DivByZero_chspc
  else
    let st := set_r1_mod (u32 (fpfd st / sv_chspc v)) st in
    if r_cnt >? ADF4350_MAX_R_CNT
    then mret {| sv_st := st; sv_r_cnt := 0; sv_chspc := u32 (sv_chspc v + 1) |}
    else mret {| sv_st := st; sv_r_cnt := r_cnt; sv_chspc := sv_chspc v |}.

(** [do { ... } while ((st->r1_mod > ADF4350_MAX_MODULUS) && r_cnt);] *)
Fixpoint search_inner (n fuel : nat) (v : search_vars) : outcome search_vars :=
  match fuel with
  | O => OutOfFuel
  | S fuel' =>
      v ← search_body n v;
      if (r1_mod (sv_st v) >? ADF4350_MAX_MODULUS) && negb (sv_r_cnt v =? 0)
      then search_inner n fuel' v
      else mret v
  end.

(** [do { ... } while (r_cnt == 0);] *)
Fixpoint search_middle (n fuel : nat) (v : search_vars) : outcome search_vars :=
  match fuel with
  | O => OutOfFuel
  | S fuel' =>
      v ← search_inner n n v;
      if sv_r_cnt v =? 0 then search_middle n fuel' v else mret v
  end.

(** Line 233 and 235: the divide ratio, [freq * r1_mod + (fpfd > 1)]
    in 64 bits, divided by [fpfd] (which is not zero). *)
Definition div_ratio (freq r1_mod fpfd : Z) : Z :=
  u64 (u64 (freq * r1_mod) + (if fpfd >? 1 then 1 else 0)) / fpfd.

(** [do { ... } while (mdiv > st->r0_int);] *)
Fixpoint search_outer (n fuel : nat) (freq mdiv : Z) (v : search_vars)
    : outcome search_vars :=
  match fuel with
  | O => OutOfFuel
  | S fuel' =>
      v ← search_middle n n v;
      let st := sv_st v in
      if fpfd st =? 0 then Fault DivByZero_fpfd
      else
        let tmp := div_ratio freq (r1_mod st) (fpfd st) in
        if r1_mod st =? 0 then Fault DivByZero_mod
        else
          let st := set_r0_fract (u32 (tmp mod r1_mod st)) st in
          let tmp := tmp / r1_mod st in
          let st := set_r0_int (u32 tmp) st in
          let v := {| sv_st := st; sv_r_cnt := sv_r_cnt v;
                      sv_chspc := sv_chspc v |} in
          if mdiv >? r0_int st then search_outer n fuel' freq mdiv v
          else mret v
  end.

(** Lines 243-245, stored in a [uint8_t]. *)
Definition band_sel_div (fpfd : Z) : Z :=
  u8 (if fpfd mod ADF4350_MAX_BANDSEL_CLK >? ADF4350_MAX_BANDSEL_CLK / 2
      then fpfd / ADF4350_MAX_BANDSEL_CLK + 1
      else fpfd / ADF4350_MAX_BANDSEL_CLK).

(** Lines 247-256: the fraction [r0_fract / r1_mod] in lowest terms. *)
Definition reduce_fraction (fuel : nat) (st : adf4350_state)
    : outcome adf4350_state :=
  if negb (r0_fract st =? 0) && negb (r1_mod st =? 0)
  then
    div_gcd ← gcd fuel (r1_mod st) (r0_fract st);
    let st := set_r1_mod (u32 (r1_mod st / div_gcd)) st in
    let st := set_r0_fract (u32 (r0_fract st / div_gcd)) st in
    mret st
  else mret (set_r1_mod 1 (set_r0_fract 0 st)).

(** Lines 258-292: the six target registers. *)
Definition pack_registers (prescaler r_cnt band_sel_div : Z)
    (st : adf4350_state) : adf4350_state :=
  let pd := pdata st in
  let st := set_regs (<[ADF4350_REG0 :=
      u32 (Z.lor (ADF4350_REG0_INT (r0_int st))
                 (ADF4350_REG0_FRACT (r0_fract st)))]> (regs st)) st in
  let st := set_regs (<[ADF4350_REG1 :=
      u32 (Z.lor (Z.lor (ADF4350_REG1_PHASE 1) (ADF4350_REG1_MOD (r1_mod st)))
                 prescaler)]> (regs st)) st in
  let st := set_regs (<[ADF4350_REG2 :=
      u32 (Z.lor (Z.lor (Z.lor (Z.lor
             (ADF4350_REG2_10BIT_R_CNT r_cnt)
             ADF4350_REG2_DOUBLE_BUFF_EN)
             (if ref_doubler_en pd then ADF4350_REG2_RMULT2_EN else 0))
             (if ref_div2_en pd then ADF4350_REG2_RDIV2_EN else 0))
             (Z.land (r2_user_settings pd)
                (Z.lor (Z.lor (Z.lor (Z.lor (Z.lor
                   ADF4350_REG2_PD_POLARITY_POS
                   ADF4350_REG2_LDP_6ns)
                   ADF4350_REG2_LDF_INT_N)
                   (ADF4350_REG2_CHARGE_PUMP_CURR_uA 5000))
                   (ADF4350_REG2_MUXOUT 0x7))
                   (ADF4350_REG2_NOISE_MODE 0x9))))]> (regs st)) st in
  let st := set_regs (<[ADF4350_REG3 :=
      u32 (Z.land (r3_user_settings pd)
             (Z.lor (Z.lor (ADF4350_REG3_12BIT_CLKDIV 0xFFF)
                           (ADF4350_REG3_12BIT_CLKDIV_MODE 0x3))
                    ADF4350_REG3_12BIT_CSR_EN))]> (regs st)) st in
  let st := set_regs (<[ADF4350_REG4 :=
      u32 (Z.lor (Z.lor (Z.lor (Z.lor
             ADF4350_REG4_FEEDBACK_FUND
             (ADF4350_REG4_RF_DIV_SEL (r4_rf_div_sel st)))
             (ADF4350_REG4_8BIT_BAND_SEL_CLKDIV band_sel_div))
             ADF4350_REG4_RF_OUT_EN)
             (Z.land (r4_user_settings pd)
                (Z.lor (Z.lor (Z.lor (Z.lor
                   (ADF4350_REG4_OUTPUT_PWR 0x3)
                   (ADF4350_REG4_AUX_OUTPUT_PWR 0x3))
                   ADF4350_REG4_AUX_OUTPUT_EN)
                   ADF4350_REG4_AUX_OUTPUT_FUND)
                   ADF4350_REG4_MUTE_TILL_LOCK_EN)))]> (regs st)) st in
  set_regs (<[ADF4350_REG5 :=
      u32 (Z.lor ADF4350_REG5_LD_PIN_MODE_DIGITAL 0x00180000)]> (regs st)) st.

(** Lines 300-301: the frequency that is returned, before the division.
    The sum [r0_int * r1_mod + r0_fract] is a 32-bit expression, converted
    to 64 bits after it is computed. *)
Definition achieved_num (st : adf4350_state) : Z :=
  u64 (u32 (u32 (r0_int st * r1_mod st) + r0_fract st) * fpfd st).

Definition achieved_den (st : adf4350_state) : Z :=
  u64 (r1_mod st * u64 (Z.shiftl 1 (r4_rf_div_sel st))).

(** Lines 294-303: the registers are written out and the achieved
    frequency is returned, or the status of the write that failed. *)
Definition sync_and_return (st : adf4350_state) (bus : Bus)
    : outcome (Z * adf4350_state * Bus * list write_event) :=
  let '(ret, st, bus, tr) := adf4350_sync_config st bus in
  if ret <? 0 then mret (ret, st, bus, tr)
  else if achieved_den st =? 0 then Fault DivByZero_freq
  else mret (s64 (achieved_num st / achieved_den st), st, bus, tr).

(** [adf4350_set_freq]: the returned value, the state, the bus, and the
    writes issued. *)
Definition adf4350_set_freq (fuel : nat) (st : adf4350_state) (freq : Z)
    (bus : Bus) : outcome (Z * adf4350_state * Bus * list write_event) :=
  if (freq >? ADF4350_MAX_OUT_FREQ) || (freq <? ADF4350_MIN_OUT_FREQ)
  then mret (-1, st, bus, [])
  else
    let '(prescaler, mdiv) :=
      if freq >? ADF4350_MAX_FREQ_45_PRESC
      then (ADF4350_REG1_PRESCALER, 75) else (0, 23) in
    let st := set_r4_rf_div_sel 0 st in
    '(st, freq) ← rf_div_loop fuel st freq;
    let r_cnt :=
      if ref_div_factor (pdata st) =? 0 then 0
      else u16 (ref_div_factor (pdata st) - 1) in
    v ← search_outer fuel fuel freq mdiv
          {| sv_st := st; sv_r_cnt := r_cnt; sv_chspc := chspc st |};
    let r_cnt := sv_r_cnt v in
    let band_sel := band_sel_div (fpfd (sv_st v)) in
    st ← reduce_fraction fuel (sv_st v);
    sync_and_return (pack_registers prescaler r_cnt band_sel st) bus.

(** *** The operations on the device state *)

(** [adf4350_out_altvoltage0_frequency]: the request is an [int64_t],
    handed to [adf4350_set_freq] as a [uint64_t]. *)
Definition adf4350_out_altvoltage0_frequency (fuel : nat) (Hz : Z)
    (st : adf4350_state) (bus : Bus)
    : outcome (Z * adf4350_state * Bus * list write_event) :=
  adf4350_set_freq fuel st (u64 Hz) bus.

(** [adf4350_out_altvoltage0_frequency_resolution]: an [int32_t] stored
    in the [uint32_t] channel spacing, which is returned as an
    [int32_t]. *)
Definition adf4350_out_altvoltage0_frequency_resolution (Hz : Z)
    (st : adf4350_state) : Z * adf4350_state :=
  let st := if Hz =? INT32_MAX then st else set_chspc (u32 Hz) st in
  (s32 (chspc st), st).

(** [adf4350_out_altvoltage0_refin_frequency]: an [int64_t] stored in the
    [uint32_t] reference frequency, which is returned as an [int64_t]. *)
Definition adf4350_out_altvoltage0_refin_frequency (Hz : Z)
    (st : adf4350_state) : Z * adf4350_state :=
  let st := if Hz =? INT32_MAX then st else set_clkin (u32 Hz) st in
  (clkin st, st).

(** [adf4350_out_altvoltage0_powerdown]: the status of the two
    synchronisations is dropped; the writes of both are listed. *)
Definition adf4350_out_altvoltage0_powerdown {HP : adf4350_h_powerdown}
    (pwd : Z) (st : adf4350_state) (bus : Bus)
    : Z * adf4350_state * Bus * list write_event :=
  let '(st, bus, tr) :=
    if pwd =? 1 then
      let st := set_regs (<[ADF4350_REG2 :=
          u32 (Z.lor (regs st !!! ADF4350_REG2) ADF4350_REG2_POWER_DOWN_EN)]>
          (regs st)) st in
      let '(_, st, bus, tr) := adf4350_sync_config st bus in
      (st, bus, tr)
    else (st, bus, []) in
  let '(st, bus, tr) :=
    if pwd =? 0 then
      let st := set_regs (<[ADF4350_REG2 :=
          u32 (Z.land (regs st !!! ADF4350_REG2)
                      (Z.lnot ADF4350_REG2_POWER_DOWN_EN))]>
          (regs st)) st in
      let '(_, st, bus, tr') := adf4350_sync_config st bus in
      (st, bus, tr ++ tr')
    else (st, bus, tr) in
  (s32 (Z.land (regs st !!! ADF4350_REG2) ADF4350_REG2_POWER_DOWN_EN),
   st, bus, tr).

(** *** Views of the state *)

(** What the platform and the setters fix. *)
Definition platform_of (st : adf4350_state) : adf4350_platform_data * Z * Z :=
  (pdata st, clkin st, chspc st).

(** What the planner computes. *)
Definition plan_of (st : adf4350_state) : Z * Z * Z * Z * Z :=
  (fpfd st, r0_fract st, r0_int st, r1_mod st, r4_rf_div_sel st).

(** What the search loops leave alone. *)
Definition search_frame (st : adf4350_state)
    : adf4350_platform_data * Z * Z * Z * Z * list Z * list Z * Z :=
  (pdata st, clkin st, chspc st, min_out_freq st, r4_rf_div_sel st,
   regs st, regs_hw st, val st).

(** What a pass of the divider search reads: its counter, the spacing it
    tries, and the platform. *)
Definition search_inputs (v : search_vars)
    : Z * Z * (adf4350_platform_data * Z * Z) :=
  (sv_r_cnt v, sv_chspc v, platform_of (sv_st v)).

(** What the synchronisation and the packing do not compute. *)
Definition bookkeeping_of (st : adf4350_state) : Z * list Z * Z :=
  (min_out_freq st, regs_hw st, val st).

(** *** The formulas of the specification *)

(** The PFD frequency for the counter value [count], over the integers:
    the reference, doubled when the doubler is on, divided by the counter,
    doubled when the divider by 2 is on. *)
Definition pfd_of (st : adf4350_state) (count : Z) : Z :=
  (clkin st * (if ref_doubler_en (pdata st) then 2 else 1))
  / (count * (if ref_div2_en (pdata st) then 2 else 1)).

(** [n / d] rounded to the nearest integer, a tie going up: the
    [(n + d/2) / d] of the comment at line 235, exact for odd [d] too. *)
Definition div_round_half_up (n d : Z) : Z := (2 * n + d) / (2 * d).

(** The achieved frequency over the integers (spec 4.3, step 10). *)
Definition achieved_freq_of (st : adf4350_state) : Z :=
  ((r0_int st * r1_mod st + r0_fract st) * fpfd st)
  / (r1_mod st * 2 ^ r4_rf_div_sel st).

End Driver.

(** ** Initialisation *)

Section Setup.

Context {H : adf4350_h} {P : spi_h} {C : adf4350_cfg_h}.

(** [adf4350_setup]: the two statics of the transport are assigned, the
    platform data of the configuration is installed, and the reference,
    the channel spacing and the power-up frequency are handed to the three
    operations, each converted to the type of the parameter; what the
    operations return is dropped, and 0 is returned. *)
Definition adf4350_setup (fuel : nat)
    (spiBaseAddr ssNo : Z) (st : adf4350_state) (bus : Bus)
    : outcome (Z * adf4350_state * Bus * list write_event) :=
  let st := set_pdata adf4350_pdata_lpc st in
  let '(_, st) :=
    adf4350_out_altvoltage0_refin_frequency (s64 (pd_clkin (pdata st))) st in
  let '(_, st) :=
    adf4350_out_altvoltage0_frequency_resolution
      (s32 (channel_spacing (pdata st))) st in
  '(_, st, bus, tr) ←
    adf4350_out_altvoltage0_frequency (P := spi_select P spiBaseAddr ssNo)
      fuel (s64 (power_up_frequency (pdata st))) st bus;
  mret (0, st, bus, tr).

End Setup.

(** ** Runs on the device *)

(** The driver with the header of the device, on the bus on which every
    transfer succeeds, from an empty log. *)
Definition run_sync_config (st : adf4350_state)
    : Z * adf4350_state * list (list Z) * list write_event :=
  adf4350_sync_config (P := spi_ok) st [].

Definition run_set_freq (fuel : nat) (st : adf4350_state) (freq : Z)
    : outcome (Z * adf4350_state * list (list Z) * list write_event) :=
  adf4350_set_freq (H := ADF4350_h_device) (P := spi_ok) fuel st freq [].

(** What a run of the planner returns, and the state that it leaves. *)
Definition returned {B : Type}
    (o : outcome (Z * adf4350_state * B * list write_event)) : option Z :=
  match o with Done (ret, _, _, _) => Some ret | _ => None end.

Definition final_state {B : Type}
    (o : outcome (Z * adf4350_state * B * list write_event))
    : option adf4350_state :=
  match o with Done (_, st, _, _) => Some st | _ => None end.

(** The PFD frequency, the modulus, the integer division and the
    numerator that the search leaves, before the reduction. *)
Definition search_result (o : outcome search_vars) : option (Z * Z * Z * Z) :=
  match o with
  | Done v =>
      Some (fpfd (sv_st v), r1_mod (sv_st v),
            r0_int (sv_st v), r0_fract (sv_st v))
  | _ => None
  end.

(** * Properties *)

Section Properties.

Set Default Proof Using "Type".

Context {H : adf4350_h} {P : spi_h}.

(** ** Properties of the register synchronisation *)

(** One pass of the loop body, by cases on the comparison with the shadow
    and on the status of the write. *)
Ltac sync_cases Hrun :=
  cbn [sync_loop] in Hrun;
  unfold ADF4350_REG0, ADF4350_REG1, ADF4350_REG4 in Hrun;
  repeat match type of Hrun with
    | context [adf4350_write ?d ?b] =>
        let ret := fresh "ret1" in
        let bus := fresh "bus1" in
        destruct (adf4350_write d b) as [ret bus] eqn:?
    | context [if negb ?c || ?d then _ else _] =>
        destruct (negb c || d) eqn:?
    | context [if ?r <? 0 then _ else _] => destruct (Z.ltb_spec r 0)
    end.

(** The synchronisation changes the shadow and [val] only. *)
Lemma sync_loop_frame n db st bus tr ret st' bus' tr' :
  sync_loop n db st bus tr = (ret, st', bus', tr') ->
  regs st' = regs st /\ r0_fract st' = r0_fract st /\ r1_mod st' = r1_mod st.
Proof.
  revert db st bus tr.
  induction n as [|i IH]; intros db st bus tr Hrun.
  - cbn in Hrun. by inversion Hrun.
  - sync_cases Hrun.
    + by inversion Hrun.
    + by apply IH in Hrun.
    + by apply IH in Hrun.
Qed.

Lemma sync_config_frame st bus ret st' bus' tr :
  adf4350_sync_config st bus = (ret, st', bus', tr) ->
  regs st' = regs st /\ r0_fract st' = r0_fract st /\ r1_mod st' = r1_mod st.
Proof. apply sync_loop_frame. Qed.

(** A run that is not aborted returns 0. *)
Lemma sync_loop_status n db st bus tr ret st' bus' tr' :
  sync_loop n db st bus tr = (ret, st', bus', tr') -> ret < 0 \/ ret = 0.
Proof.
  revert db st bus tr.
  induction n as [|i IH]; intros db st bus tr Hrun.
  - cbn in Hrun. inversion Hrun. by right.
  - sync_cases Hrun; [inversion Hrun; subst; by left | eauto | eauto].
Qed.

(** Once a double-buffered register is to be written or has been
    written, a run that succeeds ends with the write of register 0. *)
Lemma sync_loop_latch n db st bus tr ret st' bus' tr' :
  sync_loop n db st bus tr = (ret, st', bus', tr') ->
  0 <= ret ->
  (0 < n)%nat ->
  db = true
  \/ ((ADF4350_REG1 < n)%nat
      /\ regs_hw st !!! ADF4350_REG1 <> regs st !!! ADF4350_REG1)
  \/ ((ADF4350_REG4 < n)%nat
      /\ regs_hw st !!! ADF4350_REG4 <> regs st !!! ADF4350_REG4) ->
  last tr' = Some (ADF4350_REG0, u32 (Z.lor (regs st !!! ADF4350_REG0) 0)).
Proof.
  unfold ADF4350_REG0, ADF4350_REG1, ADF4350_REG4.
  revert db st bus tr.
  induction n as [|i IH]; intros db st bus tr Hrun Hret Hn Hpend; [lia|].
  sync_cases Hrun.
  - inversion Hrun; subst. lia.
  - destruct i as [|i'].
    + cbn in Hrun. inversion Hrun; subst. cbn. apply last_snoc.
    + refine (IH _ _ _ _ Hrun Hret _ _); [lia|].
      cbn [regs regs_hw set_regs_hw set_val].
      destruct (Nat.eqb_spec (S i') 1) as [Heq1|]; [by left|].
      destruct (Nat.eqb_spec (S i') 4) as [Heq4|]; [by left|].
      cbn [orb].
      destruct Hpend as [->|[[? Hne]|[? Hne]]]; [by left | right; left | right; right].
      * split; [lia|]. by rewrite list_lookup_total_insert_ne by lia.
      * split; [lia|]. by rewrite list_lookup_total_insert_ne by lia.
  - apply orb_false_iff in Heqb as [Hsame Hdb].
    apply negb_false_iff, Z.eqb_eq in Hsame.
    destruct i as [|i'].
    + destruct Hpend as [->|[[? _]|[? _]]]; [|lia..].
      cbn in Hdb. discriminate.
    + refine (IH _ _ _ _ Hrun Hret _ _); [lia|].
      destruct Hpend as [->|[[? Hne]|[? Hne]]]; [by left | right; left | right; right].
      * split; [|done].
        destruct (decide (S i' = 1)%nat) as [Heq|]; [|lia].
        rewrite Heq in Hsame. done.
      * split; [|done].
        destruct (decide (S i' = 4)%nat) as [Heq|]; [|lia].
        rewrite Heq in Hsame. done.
Qed.

(** After a run that succeeds, the shadow of every register that the
    loop went through equals its target. *)
Lemma sync_loop_shadow n db st bus tr ret st' bus' tr' :
  sync_loop n db st bus tr = (ret, st', bus', tr') ->
  0 <= ret ->
  (n <= length (regs_hw st))%nat ->
  forall j, (j < n)%nat -> regs_hw st' !!! j = regs st' !!! j.
Proof.
  revert db st bus tr.
  induction n as [|i IH]; intros db st bus tr Hrun Hret Hlen j Hj; [lia|].
  pose proof (sync_loop_frame _ _ _ _ _ _ _ _ _ Hrun) as (Hregs & _).
  assert (Hkeep : forall m d s b t,
    sync_loop m d s b t = (ret, st', bus', tr') ->
    forall k, (m <= k)%nat -> regs_hw st' !!! k = regs_hw s !!! k).
  { clear. induction m as [|m IHm]; intros d s b t Hm k Hk.
    - cbn in Hm. by inversion Hm.
    - sync_cases Hm.
      + inversion Hm; subst. done.
      + erewrite IHm by (first [exact Hm | lia]).
        cbn [regs_hw set_regs_hw set_val].
        by rewrite list_lookup_total_insert_ne by lia.
      + eapply IHm; [exact Hm | lia]. }
  sync_cases Hrun.
  - inversion Hrun; subst. lia.
  - destruct (decide (j = i)) as [->|].
    + rewrite (Hkeep _ _ _ _ _ Hrun) by lia.
      cbn [regs regs_hw set_regs_hw set_val].
      rewrite list_lookup_total_insert_eq by lia. by rewrite Hregs.
    + eapply IH; [exact Hrun | lia | | lia].
      cbn [regs_hw set_regs_hw set_val]. rewrite length_insert. lia.
  - apply orb_false_iff in Heqb as [Hsame _].
    apply negb_false_iff, Z.eqb_eq in Hsame.
    destruct (decide (j = i)) as [->|].
    + rewrite (Hkeep _ _ _ _ _ Hrun) by lia. by rewrite Hregs.
    + eapply IH; [exact Hrun | lia | lia | lia].
Qed.

(** With the shadow equal to the targets, the loop writes nothing. *)
Lemma sync_loop_noop n st bus tr :
  (forall j, (j < n)%nat -> regs_hw st !!! j = regs st !!! j) ->
  sync_loop n false st bus tr = (0, st, bus, tr).
Proof.
  induction n as [|i IH]; intros Hsame; [done|].
  cbn [sync_loop]. rewrite (Hsame i) by lia.
  rewrite Z.eqb_refl, andb_false_r. cbn [negb orb].
  apply IH. intros j Hj. apply Hsame. lia.
Qed.

(** C1: when register 1 or register 4 differs from its shadow, a run of
    [adf4350_sync_config] that succeeds writes register 0, whether or not
    register 0 itself differs from its shadow: the last write of the run
    is the one of register 0, with the word [regs[0] | 0]. *)
Theorem sync_config_latches_reg0 st bus ret st' bus' tr :
  regs_hw st !!! ADF4350_REG1 <> regs st !!! ADF4350_REG1
  \/ regs_hw st !!! ADF4350_REG4 <> regs st !!! ADF4350_REG4 ->
  adf4350_sync_config st bus = (ret, st', bus', tr) ->
  0 <= ret ->
  last tr = Some (ADF4350_REG0, u32 (Z.lor (regs st !!! ADF4350_REG0) 0)).
Proof.
  intros Hdiff Hrun Hret.
  eapply sync_loop_latch; [exact Hrun | done | lia |].
  unfold ADF4350_REG1, ADF4350_REG4.
  destruct Hdiff; [right; left | right; right]; (split; [lia | done]).
Qed.

(** C9: after a run of [adf4350_sync_config] that succeeds, a second run
    on the same targets issues no transfer: it returns 0 with the state
    and the bus as they were and an empty list of writes. *)
Theorem sync_config_idempotent st bus ret st1 bus1 tr1 :
  length (regs_hw st) = 6%nat ->
  adf4350_sync_config st bus = (ret, st1, bus1, tr1) ->
  0 <= ret ->
  regs st1 = regs st
  /\ adf4350_sync_config st1 bus1 = (0, st1, bus1, []).
Proof.
  intros Hlen Hrun Hret. split.
  - by apply sync_loop_frame in Hrun as (? & _).
  - apply sync_loop_noop. intros j Hj.
    eapply sync_loop_shadow; [exact Hrun | done | lia | done].
Qed.

(** ** Machine integers *)

(** Linear arithmetic with quotients and remainders by constants; the
    transport plays no part in it. *)
Ltac div_mod_lia := try clear P; Z.div_mod_to_equations; lia.

Lemma u32_range x : 0 <= u32 x < 2 ^ 32.
Proof. unfold u32. apply Z.mod_pos_bound. lia. Qed.

Lemma u32_small x : 0 <= x < 2 ^ 32 -> u32 x = x.
Proof. unfold u32. apply Z.mod_small. Qed.

Lemma u32_s32 x : u32 (s32 x) = u32 x.
Proof.
  unfold u32, s32.
  change (2 ^ 32) with 4294967296. change (2 ^ 31) with 2147483648.
  div_mod_lia.
Qed.

Lemma u32_pred tmp : 1 <= u32 tmp -> u32 (tmp - 1) = u32 tmp - 1.
Proof.
  unfold u32. change (2 ^ 32) with 4294967296.
  div_mod_lia.
Qed.

(** ** Properties of the greatest common divisor *)

(** The loop goes on past [tmp] only when [tmp] is at least 2. *)
Lemma gcd_test_one x y t :
  1 <= t ->
  negb (x mod t =? 0) || negb (y mod t =? 0) = true -> 2 <= t.
Proof.
  intros Ht Htest. destruct (decide (t = 1)) as [->|]; [|lia].
  rewrite !Z.mod_1_r in Htest. discriminate.
Qed.

(** From a non-zero [tmp] the loop never takes a remainder by zero. *)
Lemma gcd_loop_no_fault fuel x y tmp f :
  1 <= u32 tmp -> gcd_loop fuel x y tmp <> Fault f.
Proof.
  revert tmp. induction fuel as [|fuel IH]; intros tmp Ht; [done|].
  cbn [gcd_loop]. destruct (Z.eqb_spec (u32 tmp) 0); [lia|].
  destruct (negb _ || negb _) eqn:Htest; [|done].
  apply IH. rewrite u32_s32, u32_pred by done.
  apply gcd_test_one in Htest; lia.
Qed.

(** What the loop returns divides both numbers. *)
Lemma gcd_loop_divides fuel x y tmp g :
  gcd_loop fuel x y tmp = Done g ->
  0 < g < 2 ^ 32 /\ x mod g = 0 /\ y mod g = 0.
Proof.
  revert tmp. induction fuel as [|fuel IH]; intros tmp Hrun; [done|].
  cbn [gcd_loop] in Hrun. destruct (Z.eqb_spec (u32 tmp) 0); [done|].
  destruct (negb _ || negb _) eqn:Htest; [by eapply IH|].
  inversion Hrun; subst.
  apply orb_false_iff in Htest as [Hx Hy].
  apply negb_false_iff, Z.eqb_eq in Hx, Hy.
  pose proof (u32_range tmp). split; [lia|done].
Qed.

(** Counting down from [tmp], with no common divisor above it, the loop
    reaches the greatest common divisor, given fuel for every value from
    [tmp] down to 1. *)
Lemma gcd_loop_greatest fuel x y tmp :
  0 < x -> 0 < y ->
  1 <= u32 tmp ->
  (forall d, u32 tmp < d -> (d | x) -> (d | y) -> False) ->
  (Z.to_nat (u32 tmp) <= fuel)%nat ->
  gcd_loop fuel x y tmp = Done (Z.gcd x y).
Proof.
  intros Hx Hy. revert tmp.
  induction fuel as [|fuel IH]; intros tmp Ht Habove Hfuel; [lia|].
  cbn [gcd_loop]. destruct (Z.eqb_spec (u32 tmp) 0); [lia|].
  destruct (negb _ || negb _) eqn:Htest.
  - pose proof (gcd_test_one _ _ _ Ht Htest).
    apply IH; rewrite u32_s32, u32_pred by done; [lia | | lia].
    intros d Hd Hdx Hdy.
    destruct (decide (d = u32 tmp)) as [->|]; [|apply (Habove d); [lia|done..]].
    apply Z.mod_divide in Hdx, Hdy; [|lia..].
    rewrite Hdx, Hdy in Htest. discriminate.
  - apply orb_false_iff in Htest as [Htx Hty].
    apply negb_false_iff, Z.eqb_eq, Z.mod_divide in Htx, Hty; [|lia..].
    cbn. f_equal.
    pose proof (Z.gcd_nonneg x y).
    assert (Z.gcd x y <> 0) by (rewrite Z.gcd_eq_0; lia).
    assert (u32 tmp <= Z.gcd x y).
    { apply Z.divide_pos_le; [lia|]. by apply Z.gcd_greatest. }
    destruct (decide (u32 tmp = Z.gcd x y)); [done|].
    exfalso. apply (Habove (Z.gcd x y)); [lia|..].
    + apply Z.gcd_divide_l.
    + apply Z.gcd_divide_r.
Qed.

(** [gcd] on two positive 32-bit numbers: the start of the countdown. *)
Lemma gcd_start x y :
  0 < x < 2 ^ 32 -> 0 < y < 2 ^ 32 ->
  u32 (s32 (if y >? x then x else y)) = Z.min x y.
Proof.
  intros Hx Hy. rewrite u32_s32.
  destruct (Z.gtb_spec y x); rewrite u32_small; lia.
Qed.

Lemma gcd_correct fuel x y :
  0 < x < 2 ^ 32 -> 0 < y < 2 ^ 32 ->
  (Z.to_nat (Z.min x y) <= fuel)%nat ->
  gcd fuel x y = Done (Z.gcd x y).
Proof.
  intros Hx Hy Hfuel. unfold gcd.
  apply gcd_loop_greatest; rewrite ?gcd_start by done; [lia..| |done].
  intros d Hd Hdx Hdy.
  apply Z.divide_pos_le in Hdx, Hdy; lia.
Qed.

Lemma gcd_no_fault fuel x y f :
  0 < x < 2 ^ 32 -> 0 < y < 2 ^ 32 -> gcd fuel x y <> Fault f.
Proof.
  intros Hx Hy. apply gcd_loop_no_fault. rewrite gcd_start by done. lia.
Qed.

(** Dividing by a common divisor keeps the order of the two numbers. *)
Lemma div_common_lt a b g :
  0 < g -> 0 < a < b -> a mod g = 0 -> b mod g = 0 ->
  0 < a / g < b / g.
Proof.
  intros Hg Hab Ha Hb.
  apply Z.mod_divide in Ha as [a' ->], Hb as [b' ->]; [|lia..].
  rewrite !Z.div_mul by lia. nia.
Qed.

(** C5: on a fraction of two positive 32-bit numbers, and with fuel for
    the countdown from the smaller one, [gcd] returns their greatest
    common divisor and the reduction returns the numerator and the
    denominator divided by it: they are coprime and in the same ratio.
    With a zero numerator the reduction returns 0/1 whatever the
    denominator. *)
Theorem reduce_fraction_lowest_terms fuel st :
  0 <= r0_fract st < 2 ^ 32 ->
  0 <= r1_mod st < 2 ^ 32 ->
  (Z.to_nat (Z.min (r1_mod st) (r0_fract st)) <= fuel)%nat ->
  exists st',
    reduce_fraction fuel st = Done st'
    /\ (r0_fract st = 0 -> r0_fract st' = 0 /\ r1_mod st' = 1)
    /\ (0 < r0_fract st -> 0 < r1_mod st ->
        gcd fuel (r1_mod st) (r0_fract st)
          = Done (Z.gcd (r1_mod st) (r0_fract st))
        /\ r0_fract st' = r0_fract st / Z.gcd (r1_mod st) (r0_fract st)
        /\ r1_mod st' = r1_mod st / Z.gcd (r1_mod st) (r0_fract st)
        /\ Z.gcd (r0_fract st') (r1_mod st') = 1
        /\ r0_fract st' * r1_mod st = r0_fract st * r1_mod st').
Proof.
  intros Ha Hb Hfuel. unfold reduce_fraction.
  destruct (Z.eqb_spec (r0_fract st) 0) as [Ha0|Ha0]; cbn [negb andb].
  { eexists. split; [done|]. split; [done|]. lia. }
  destruct (Z.eqb_spec (r1_mod st) 0) as [Hb0|Hb0]; cbn [negb andb].
  { eexists. split; [done|]. split; [done|]. lia. }
  rewrite gcd_correct by (first [lia | done]).
  set (a := r0_fract st) in *. set (b := r1_mod st) in *.
  set (g := Z.gcd b a).
  assert (Hg : 0 < g).
  { pose proof (Z.gcd_nonneg b a).
    assert (g <> 0) by (unfold g; rewrite Z.gcd_eq_0; lia). lia. }
  destruct (Z.gcd_divide_l b a) as [b' Hb'].
  destruct (Z.gcd_divide_r b a) as [a' Ha'].
  fold g in Hb', Ha'.
  assert (Hqa : a / g = a') by (rewrite Ha'; by apply Z.div_mul, Z.neq_sym, Z.lt_neq).
  assert (Hqb : b / g = b') by (rewrite Hb'; by apply Z.div_mul, Z.neq_sym, Z.lt_neq).
  assert (0 < a' <= a) by nia.
  assert (0 < b' <= b) by nia.
  eexists. split; [done|]. cbn.
  change (r0_fract st) with a. change (r1_mod st) with b.
  rewrite Hqa, Hqb, !u32_small by lia.
  split; [lia|]. intros _ _.
  repeat split; [done..| |nia].
  rewrite <- Hqa, <- Hqb, Z.gcd_comm. apply Z.gcd_div_gcd; [lia|done].
Qed.

(** ** Properties of the divider search *)

(** While the product fits 32 bits, the loop stores the PFD frequency of
    the specification. *)
Lemma tune_fpfd_exact st c :
  0 <= clkin st * (if ref_doubler_en (pdata st) then 2 else 1) < 2 ^ 32 ->
  tune_fpfd st c = pfd_of st c.
Proof. intros Hfit. unfold tune_fpfd, pfd_of. by rewrite u32_small. Qed.

(** The search stops at the first counter value above [start] whose PFD
    frequency is within the limit, when there is one below 2^16. *)
Lemma tune_r_cnt_first fuel st start c0 :
  0 <= start < c0 -> c0 <= 65535 ->
  tune_fpfd st c0 <= ADF4350_MAX_FREQ_PFD ->
  (Z.to_nat (c0 - start) <= fuel)%nat ->
  exists c,
    adf4350_tune_r_cnt fuel st start = Done (c, set_fpfd (tune_fpfd st c) st)
    /\ start < c <= c0
    /\ tune_fpfd st c <= ADF4350_MAX_FREQ_PFD
    /\ forall c', start < c' < c -> ADF4350_MAX_FREQ_PFD < tune_fpfd st c'.
Proof.
  revert st start.
  induction fuel as [|fuel IH]; intros st start Hstart Hc0 Hok Hfuel; [lia|].
  cbn [adf4350_tune_r_cnt].
  assert (Hu : u16 (start + 1) = start + 1).
  { unfold u16. apply Z.mod_small. change (2 ^ 16) with 65536. lia. }
  rewrite Hu.
  destruct (Z.eqb_spec ((start + 1) * (if ref_div2_en (pdata st) then 2 else 1)) 0)
    as [Hz|_]; [destruct (ref_div2_en (pdata st)); lia|].
  cbn [fpfd set_fpfd].
  destruct (Z.gtb_spec (tune_fpfd st (start + 1)) ADF4350_MAX_FREQ_PFD) as [Hgt|Hle].
  - assert (start + 1 < c0).
    { destruct (decide (start + 1 = c0)) as [Heq|]; [|lia].
      rewrite Heq in Hgt. lia. }
    destruct (IH (set_fpfd (tune_fpfd st (start + 1)) st) (start + 1))
      as (c & Hrun & Hc & Hcok & Hmin); [lia | lia | done | lia |].
    exists c. split; [exact Hrun|]. split; [lia|]. split; [exact Hcok|].
    intros c' Hc'. destruct (decide (c' = start + 1)) as [->|]; [lia|].
    apply Hmin. lia.
  - exists (start + 1). split; [done|]. split; [lia|]. split; [done|]. lia.
Qed.

(** With a PFD limit of at least 65537 Hz, every start below 65535 has
    such a counter value: 65535 itself. *)
Lemma tune_fpfd_65535 st :
  65537 <= ADF4350_MAX_FREQ_PFD ->
  tune_fpfd st 65535 <= ADF4350_MAX_FREQ_PFD.
Proof.
  intros Hmax. unfold tune_fpfd.
  set (n := u32 _). assert (0 <= n < 2 ^ 32) by apply u32_range.
  change (2 ^ 32) with 4294967296 in *.
  destruct (ref_div2_en (pdata st)); div_mod_lia.
Qed.

(** With a PFD limit of at least 65537 Hz the search terminates from
    every start below 65535. *)
Lemma tune_r_cnt_terminates fuel st start :
  65537 <= ADF4350_MAX_FREQ_PFD ->
  0 <= start < 65535 ->
  (Z.to_nat (65535 - start) <= fuel)%nat ->
  exists c,
    adf4350_tune_r_cnt fuel st start = Done (c, set_fpfd (tune_fpfd st c) st)
    /\ start < c <= 65535
    /\ tune_fpfd st c <= ADF4350_MAX_FREQ_PFD
    /\ forall c', start < c' < c -> ADF4350_MAX_FREQ_PFD < tune_fpfd st c'.
Proof.
  intros Hmax Hstart Hfuel.
  apply tune_r_cnt_first; [lia | lia | by apply tune_fpfd_65535 | done].
Qed.

(** C7, as amended: for a reference whose (doubled) frequency fits 32
    bits and a start that has, below 2^16, a counter value with a PFD
    frequency within the limit, the search terminates, given fuel for the
    values up to that one, and returns the smallest counter value above
    the start whose PFD frequency, computed over the integers, is within
    the limit; the state holds that frequency. *)
Theorem tune_r_cnt_smallest fuel st start c0 :
  0 <= clkin st * (if ref_doubler_en (pdata st) then 2 else 1) < 2 ^ 32 ->
  0 <= start < c0 -> c0 <= 65535 ->
  pfd_of st c0 <= ADF4350_MAX_FREQ_PFD ->
  (Z.to_nat (c0 - start) <= fuel)%nat ->
  exists c,
    adf4350_tune_r_cnt fuel st start = Done (c, set_fpfd (pfd_of st c) st)
    /\ start < c <= c0
    /\ pfd_of st c <= ADF4350_MAX_FREQ_PFD
    /\ forall c', start < c' < c -> ADF4350_MAX_FREQ_PFD < pfd_of st c'.
Proof.
  intros Hfit Hstart Hc0 Hok Hfuel.
  rewrite <- tune_fpfd_exact in Hok by done.
  destruct (tune_r_cnt_first fuel st start c0) as (c & Hrun & Hc & Hcok & Hmin);
    [done..|].
  exists c. rewrite <- !tune_fpfd_exact by done.
  split; [done|]. split; [done|]. split; [done|].
  intros c' Hc'. rewrite <- tune_fpfd_exact by done. by apply Hmin.
Qed.

(** ** Properties of the band-select divider *)

(** C2, as amended: while the result fits the 8 bits of [band_sel_div]
    (a PFD frequency of at most 255.5 times ADF4350_MAX_BANDSEL_CLK), the
    divider is the quotient of the PFD frequency by
    ADF4350_MAX_BANDSEL_CLK plus 1 exactly when twice the remainder
    exceeds ADF4350_MAX_BANDSEL_CLK; it is a nearest integer to the ratio,
    and when the remainder is exactly half of ADF4350_MAX_BANDSEL_CLK it
    is the truncated quotient, without the 1: the tie goes down. *)
Theorem band_sel_div_nearest_tie_down pfd :
  0 < ADF4350_MAX_BANDSEL_CLK ->
  0 <= pfd ->
  2 * pfd <= 511 * ADF4350_MAX_BANDSEL_CLK ->
  band_sel_div pfd
    = pfd / ADF4350_MAX_BANDSEL_CLK
      + (if 2 * (pfd mod ADF4350_MAX_BANDSEL_CLK) >? ADF4350_MAX_BANDSEL_CLK
         then 1 else 0)
  /\ 2 * Z.abs (band_sel_div pfd * ADF4350_MAX_BANDSEL_CLK - pfd)
       <= ADF4350_MAX_BANDSEL_CLK
  /\ (pfd mod ADF4350_MAX_BANDSEL_CLK = ADF4350_MAX_BANDSEL_CLK / 2 ->
      band_sel_div pfd = pfd / ADF4350_MAX_BANDSEL_CLK).
Proof.
  intros HM Hpfd Hfit. unfold band_sel_div.
  set (M := ADF4350_MAX_BANDSEL_CLK) in *.
  pose proof (Z.div_pos pfd M Hpfd HM) as Hq.
  pose proof (Z.mod_pos_bound pfd M HM) as Hr.
  pose proof (Z.div_mod pfd M ltac:(lia)) as Hpm.
  assert (Hhalf : 2 * (M / 2) <= M < 2 * (M / 2) + 2) by div_mod_lia.
  assert (Hu8 : forall x, 0 <= x < 256 -> u8 x = x)
    by (intros x Hx; apply Z.mod_small; exact Hx).
  assert (Hq255 : pfd / M <= 255) by nia.
  destruct (Z.gtb_spec (pfd mod M) (M / 2)) as [Hgt|Hle];
    destruct (Z.gtb_spec (2 * (pfd mod M)) M) as [Hgt2|Hle2]; try lia.
  - assert (pfd / M <= 254) by nia.
    rewrite Hu8 by lia. split; [lia|]. split; [nia|lia].
  - rewrite Hu8 by lia. split; [lia|]. split; [nia|lia].
Qed.

(** ** Properties of the frequency planner *)

(** A run step by step: the result of the first computation of a
    sequence, by cases. *)
Ltac run_cases m :=
  let E := fresh "Erun" in
  destruct m eqn:E; cbn [mbind outcome_bind mret outcome_ret] in *.

(** A sequence returns when its first computation returns and the rest
    returns from there. *)
Lemma bind_Done_inv {A B : Type} (m : outcome A) (k : A -> outcome B) b :
  m ≫= k = Done b -> exists a, m = Done a /\ k a = Done b.
Proof.
  destruct m as [a| |]; cbn; intros Hk; try discriminate Hk.
  exists a. by split.
Qed.

Lemma bind_Fault_inv {A B : Type} (m : outcome A) (k : A -> outcome B) f :
  m ≫= k = Fault f -> m = Fault f \/ exists a, m = Done a /\ k a = Fault f.
Proof.
  destruct m as [a| |]; cbn; intros Hk; try discriminate Hk.
  - right. exists a. by split.
  - left. by inversion Hk.
Qed.

(** *** Where the planner can divide by zero *)

Lemma tune_r_cnt_fault fuel st r_cnt f :
  adf4350_tune_r_cnt fuel st r_cnt = Fault f -> f = DivByZero_tune.
Proof.
  revert st r_cnt. induction fuel as [|fuel IH]; intros st r_cnt Hrun; [done|].
  cbn [adf4350_tune_r_cnt] in Hrun.
  destruct (_ =? 0); [by inversion Hrun|].
  destruct (_ >? _); [by eapply IH | done].
Qed.

Lemma rf_div_loop_fault fuel st freq f : rf_div_loop fuel st freq <> Fault f.
Proof.
  revert st freq. induction fuel as [|fuel IH]; intros st freq; [done|].
  cbn [rf_div_loop]. destruct (_ <? _); [apply IH | done].
Qed.

Lemma search_body_fault n v f :
  search_body n v = Fault f -> f <> ModByZero_gcd.
Proof.
  unfold search_body. intros Hrun.
  run_cases (adf4350_tune_r_cnt n (sv_st v) (sv_r_cnt v)); cbn in Hrun.
  - destruct a as [r_cnt st]. destruct (_ =? 0); [by inversion Hrun|].
    by destruct (_ >? _).
  - inversion Hrun; subst. by apply tune_r_cnt_fault in Erun as ->.
  - done.
Qed.

Lemma search_inner_fault n fuel v f :
  search_inner n fuel v = Fault f -> f <> ModByZero_gcd.
Proof.
  revert v. induction fuel as [|fuel IH]; intros v Hrun; [done|].
  cbn [search_inner] in Hrun.
  run_cases (search_body n v); cbn in Hrun.
  - destruct (_ && _); [by eapply IH | done].
  - inversion Hrun; subst. by eapply search_body_fault.
  - done.
Qed.

Lemma search_middle_fault n fuel v f :
  search_middle n fuel v = Fault f -> f <> ModByZero_gcd.
Proof.
  revert v. induction fuel as [|fuel IH]; intros v Hrun; [done|].
  cbn [search_middle] in Hrun.
  run_cases (search_inner n n v); cbn in Hrun.
  - destruct (_ =? 0); [by eapply IH | done].
  - inversion Hrun; subst. by eapply search_inner_fault.
  - done.
Qed.

Lemma search_outer_fault n fuel freq mdiv v f :
  search_outer n fuel freq mdiv v = Fault f -> f <> ModByZero_gcd.
Proof.
  revert v. induction fuel as [|fuel IH]; intros v Hrun; [done|].
  cbn [search_outer] in Hrun.
  run_cases (search_middle n n v); cbn in Hrun.
  - destruct (fpfd _ =? 0); [by inversion Hrun|].
    destruct (r1_mod _ =? 0); [by inversion Hrun|].
    destruct (_ >? _); [by eapply IH | done].
  - inversion Hrun; subst. by eapply search_middle_fault.
  - done.
Qed.

(** *** The fraction that the search leaves *)

Lemma search_body_mod n v v' :
  search_body n v = Done v' -> 0 <= r1_mod (sv_st v') < 2 ^ 32.
Proof.
  unfold search_body. intros Hrun.
  run_cases (adf4350_tune_r_cnt n (sv_st v) (sv_r_cnt v)); cbn in Hrun; [|done..].
  destruct a as [r_cnt st]. destruct (_ =? 0); [done|].
  destruct (_ >? _); inversion Hrun; subst; cbn; apply u32_range.
Qed.

Lemma search_inner_mod n fuel v v' :
  search_inner n fuel v = Done v' -> 0 <= r1_mod (sv_st v') < 2 ^ 32.
Proof.
  revert v. induction fuel as [|fuel IH]; intros v Hrun; [done|].
  cbn [search_inner] in Hrun.
  run_cases (search_body n v); cbn in Hrun; [|done..].
  destruct (_ && _); [by eapply IH|].
  inversion Hrun; subst. by eapply search_body_mod.
Qed.

Lemma search_middle_mod n fuel v v' :
  search_middle n fuel v = Done v' -> 0 <= r1_mod (sv_st v') < 2 ^ 32.
Proof.
  revert v. induction fuel as [|fuel IH]; intros v Hrun; [done|].
  cbn [search_middle] in Hrun.
  run_cases (search_inner n n v); cbn in Hrun; [|done..].
  destruct (_ =? 0); [by eapply IH|].
  inversion Hrun; subst. by eapply search_inner_mod.
Qed.

(** When the search returns, the numerator is a remainder by the modulus. *)
Lemma search_outer_fraction n fuel freq mdiv v v' :
  search_outer n fuel freq mdiv v = Done v' ->
  0 <= r0_fract (sv_st v') < r1_mod (sv_st v')
  /\ r1_mod (sv_st v') < 2 ^ 32.
Proof.
  revert v. induction fuel as [|fuel IH]; intros v Hrun; [done|].
  cbn [search_outer] in Hrun.
  run_cases (search_middle n n v); cbn in Hrun; [|done..].
  apply search_middle_mod in Erun.
  destruct (fpfd _ =? 0); [done|].
  destruct (Z.eqb_spec (r1_mod (sv_st a)) 0); [done|].
  destruct (_ >? _); [by eapply IH|].
  inversion Hrun; subst. cbn.
  set (t := div_ratio _ _ _).
  pose proof (Z.mod_pos_bound t (r1_mod (sv_st a)) ltac:(lia)).
  rewrite u32_small by lia. lia.
Qed.

(** The reduction keeps a proper fraction proper. *)
Lemma reduce_fraction_proper fuel st st' :
  0 <= r0_fract st < r1_mod st -> r1_mod st < 2 ^ 32 ->
  reduce_fraction fuel st = Done st' ->
  1 <= r1_mod st'
  /\ 0 <= r0_fract st' < r1_mod st'
  /\ (r0_fract st' = 0 -> r1_mod st' = 1).
Proof.
  intros Hfr Hmod. unfold reduce_fraction.
  destruct (Z.eqb_spec (r0_fract st) 0) as [Ha0|Ha0]; cbn [negb andb].
  { intros Hrun. inversion Hrun; subst. cbn. lia. }
  destruct (Z.eqb_spec (r1_mod st) 0) as [Hb0|Hb0]; cbn [negb andb].
  { intros Hrun. inversion Hrun; subst. cbn. lia. }
  run_cases (gcd fuel (r1_mod st) (r0_fract st)); [|done..].
  intros Hrun. inversion Hrun; subst. cbn.
  apply gcd_loop_divides in Erun as (Hg & Hdm & Hdf).
  pose proof (div_common_lt (r0_fract st) (r1_mod st) a
                ltac:(lia) ltac:(lia) Hdf Hdm) as Hlt.
  assert (r1_mod st / a <= r1_mod st)
    by (apply Z.div_le_upper_bound; nia).
  rewrite !u32_small by lia. lia.
Qed.

Lemma reduce_fraction_fault fuel st f :
  0 <= r0_fract st < 2 ^ 32 -> 0 <= r1_mod st < 2 ^ 32 ->
  reduce_fraction fuel st <> Fault f.
Proof.
  intros Hfr Hmod. unfold reduce_fraction.
  destruct (Z.eqb_spec (r0_fract st) 0) as [Ha0|Ha0]; cbn [negb andb]; [done|].
  destruct (Z.eqb_spec (r1_mod st) 0) as [Hb0|Hb0]; cbn [negb andb]; [done|].
  run_cases (gcd fuel (r1_mod st) (r0_fract st)); [done| |done].
  exfalso. revert Erun. apply gcd_no_fault; lia.
Qed.

(** The packing writes the targets only. *)
Lemma pack_registers_frame prescaler r_cnt bsd st :
  r0_fract (pack_registers prescaler r_cnt bsd st) = r0_fract st
  /\ r1_mod (pack_registers prescaler r_cnt bsd st) = r1_mod st.
Proof. done. Qed.

(** The last stage leaves the fraction as it is, and divides by zero
    nowhere but in the achieved frequency. *)
Lemma sync_and_return_frame st bus ret st' bus' tr :
  sync_and_return st bus = Done (ret, st', bus', tr) ->
  r0_fract st' = r0_fract st /\ r1_mod st' = r1_mod st.
Proof.
  unfold sync_and_return. intros Hrun.
  destruct (adf4350_sync_config st bus) as [[[ret1 st3] bus3] tr3] eqn:Esync.
  apply sync_config_frame in Esync as (_ & Hf & Hm).
  destruct (_ <? 0); [by inversion Hrun; subst|].
  destruct (_ =? 0); [done|]. by inversion Hrun; subst.
Qed.

Lemma sync_and_return_fault st bus f :
  sync_and_return st bus = Fault f -> f = DivByZero_freq.
Proof.
  unfold sync_and_return.
  destruct (adf4350_sync_config st bus) as [[[ret1 st3] bus3] tr3].
  destruct (_ <? 0); [done|].
  destruct (_ =? 0); [|done]. by inversion 1.
Qed.

(** While the sum [r0_int * r1_mod + r0_fract] fits 32 bits, and with a
    PFD frequency below 2^31 Hz and fewer than 32 divider stages, the
    value that is returned is the achieved frequency of the
    specification. *)
Lemma achieved_freq_exact st :
  0 <= r0_int st -> 0 <= r0_fract st -> 1 <= r1_mod st < 2 ^ 32 ->
  r0_int st * r1_mod st + r0_fract st < 2 ^ 32 ->
  0 <= fpfd st < 2 ^ 31 ->
  0 <= r4_rf_div_sel st < 32 ->
  achieved_den st <> 0
  /\ s64 (achieved_num st / achieved_den st) = achieved_freq_of st.
Proof.
  intros Hint Hfr Hmod Hsum Hpfd Hsel.
  unfold achieved_num, achieved_den, achieved_freq_of.
  rewrite Z.shiftl_1_l.
  assert (Hpow : 1 <= 2 ^ r4_rf_div_sel st <= 2 ^ 31).
  { split.
    - apply (Z.pow_le_mono_r 2 0); lia.
    - apply Z.pow_le_mono_r; lia. }
  change (2 ^ 32) with 4294967296 in *.
  change (2 ^ 31) with 2147483648 in *.
  assert (Hsmall64 : forall x, 0 <= x < 2 ^ 64 -> u64 x = x)
    by (intros x Hx; apply Z.mod_small; exact Hx).
  change (2 ^ 64) with 18446744073709551616 in Hsmall64.
  assert (0 <= r0_int st * r1_mod st) by nia.
  rewrite (u32_small (r0_int st * r1_mod st))
    by (change (2 ^ 32) with 4294967296; lia).
  rewrite (u32_small (r0_int st * r1_mod st + r0_fract st))
    by (change (2 ^ 32) with 4294967296; lia).
  rewrite (Hsmall64 (2 ^ r4_rf_div_sel st)) by lia.
  rewrite (Hsmall64 (r1_mod st * 2 ^ r4_rf_div_sel st)) by nia.
  rewrite Hsmall64 by nia.
  split; [nia|].
  set (n := (r0_int st * r1_mod st + r0_fract st) * fpfd st).
  set (d := r1_mod st * 2 ^ r4_rf_div_sel st).
  assert (0 <= n < 9223372036854775808) by (unfold n; nia).
  assert (0 < d) by (unfold d; nia).
  assert (0 <= n / d <= n).
  { split; [apply Z.div_pos; lia|]. apply Z.div_le_upper_bound; nia. }
  unfold s64. change (2 ^ 63) with 9223372036854775808.
  change (2 ^ 64) with 18446744073709551616.
  rewrite Z.mod_small by lia. lia.
Qed.

(** C8: a request above ADF4350_MAX_OUT_FREQ or below
    ADF4350_MIN_OUT_FREQ is refused: [adf4350_set_freq] returns -1, with
    the state and the bus as they were and no write issued, whatever the
    fuel. *)
Theorem set_freq_out_of_range fuel st freq bus :
  freq > ADF4350_MAX_OUT_FREQ \/ freq < ADF4350_MIN_OUT_FREQ ->
  adf4350_set_freq fuel st freq bus = Done (-1, st, bus, []).
Proof.
  intros Hout. unfold adf4350_set_freq.
  destruct (Z.gtb_spec freq ADF4350_MAX_OUT_FREQ) as [_|Hle]; [reflexivity|].
  destruct (Z.ltb_spec freq ADF4350_MIN_OUT_FREQ) as [_|Hge]; [reflexivity|].
  exfalso. lia.
Qed.

(** C6: after a call of [adf4350_set_freq] that returns a frequency (a
    value that is not negative), the modulus of the state is at least 1
    and the fractional numerator is at least 0 and below the modulus; a
    numerator of 0 comes with the modulus 1. *)
Theorem set_freq_fraction_invariant fuel st freq bus ret st' bus' tr :
  adf4350_set_freq fuel st freq bus = Done (ret, st', bus', tr) ->
  0 <= ret ->
  1 <= r1_mod st'
  /\ 0 <= r0_fract st' < r1_mod st'
  /\ (r0_fract st' = 0 -> r1_mod st' = 1).
Proof.
  unfold adf4350_set_freq. intros Hrun Hret.
  destruct (_ || _); [exfalso; inversion Hrun; lia|].
  destruct (if freq >? _ then _ else _) as [prescaler mdiv].
  apply bind_Done_inv in Hrun as ([st1 freq1] & _ & Hrun).
  apply bind_Done_inv in Hrun as (v & Hsearch & Hrun).
  apply bind_Done_inv in Hrun as (st2 & Hreduce & Hrun).
  apply search_outer_fraction in Hsearch as [Hfr Hmod].
  apply reduce_fraction_proper in Hreduce; [|done..].
  apply sync_and_return_frame in Hrun as [Hf Hm].
  rewrite (proj1 (pack_registers_frame _ _ _ _)) in Hf.
  rewrite (proj2 (pack_registers_frame _ _ _ _)) in Hm.
  rewrite Hf, Hm. exact Hreduce.
Qed.

(** C10: on a zero argument [gcd] takes a remainder by zero at its first
    test, so that it never returns; and no run of [adf4350_set_freq]
    reaches that remainder by zero: the planner calls [gcd] on a non-zero
    numerator and a non-zero modulus only. *)
Theorem gcd_zero_unreachable :
  (forall fuel y, gcd (S fuel) 0 (u32 y) = Fault ModByZero_gcd)
  /\ (forall fuel x, gcd (S fuel) (u32 x) 0 = Fault ModByZero_gcd)
  /\ (forall fuel st freq bus,
        adf4350_set_freq fuel st freq bus <> Fault ModByZero_gcd).
Proof.
  split; [|split].
  - intros fuel y. unfold gcd. pose proof (u32_range y).
    destruct (Z.gtb_spec (u32 y) 0).
    + done.
    + replace (u32 y) with 0 by lia. done.
  - intros fuel x. unfold gcd. pose proof (u32_range x).
    destruct (Z.gtb_spec 0 (u32 x)); [lia|]. done.
  - intros fuel st freq bus. unfold adf4350_set_freq.
    destruct (_ || _); [done|].
    destruct (if freq >? _ then _ else _) as [prescaler mdiv].
    intros Hrun.
    apply bind_Fault_inv in Hrun as [Hrun|([st1 freq1] & _ & Hrun)];
      [by apply rf_div_loop_fault in Hrun|].
    apply bind_Fault_inv in Hrun as [Hrun|(v & Hsearch & Hrun)];
      [by apply search_outer_fault in Hrun|].
    apply search_outer_fraction in Hsearch as [Hfr Hmod].
    apply bind_Fault_inv in Hrun as [Hrun|(st2 & _ & Hrun)].
    + revert Hrun. apply reduce_fraction_fault; lia.
    + by apply sync_and_return_fault in Hrun.
Qed.

(** ** Further properties of the register synchronisation *)

(** The writes that the loop adds: each of a register below [n], with
    the word [regs[i] | i], in decreasing order of the indices. *)
Lemma sync_loop_events n db st bus tr ret st' bus' tr' :
  sync_loop n db st bus tr = (ret, st', bus', tr') ->
  exists ev,
    tr' = tr ++ ev
    /\ Forall (fun e : write_event =>
                 (e.1 < n)%nat
                 /\ e.2 = u32 (Z.lor (regs st !!! e.1) (Z.of_nat e.1))) ev
    /\ StronglySorted (fun a b : write_event => (b.1 < a.1)%nat) ev.
Proof.
  revert db st bus tr.
  induction n as [|i IH]; intros db st bus tr Hrun.
  - cbn in Hrun. inversion Hrun; subst. exists []. rewrite app_nil_r.
    split; [done|]. split; constructor.
  - sync_cases Hrun.
    + inversion Hrun; subst. eexists. split; [done|].
      split; [|by repeat constructor].
      constructor; [|constructor]. cbn. split; [lia|done].
    + apply IH in Hrun as (ev & -> & Hall & Hsort).
      cbn [regs set_regs_hw set_val] in Hall.
      eexists. split; [by rewrite <- app_assoc|].
      split.
      * constructor; [cbn; split; [lia|done]|].
        eapply Forall_impl; [exact Hall|]. intros e [? ?]. split; [lia|done].
      * constructor; [done|].
        eapply Forall_impl; [exact Hall|]. intros e [? ?]. cbn. lia.
    + apply IH in Hrun as (ev & -> & Hall & Hsort).
      exists ev. split; [done|]. split; [|done].
      eapply Forall_impl; [exact Hall|]. intros e [? ?]. split; [lia|done].
Qed.

(** X1: The order of the writes: [adf4350_sync_config] writes registers of
    indices below 6, each at most once, from the highest index to the
    lowest, and each word is the target with the index in its low bits,
    [regs[i] | i]; this whether the run succeeds or is aborted. *)
Theorem sync_config_write_order st bus :
  StronglySorted (fun a b : write_event => (b.1 < a.1)%nat)
    (adf4350_sync_config st bus).2
  /\ Forall (fun e : write_event =>
               (e.1 < 6)%nat
               /\ e.2 = u32 (Z.lor (regs st !!! e.1) (Z.of_nat e.1)))
       (adf4350_sync_config st bus).2.
Proof.
  destruct (adf4350_sync_config st bus) as [[[ret st'] bus'] tr] eqn:Hrun.
  apply sync_loop_events in Hrun as (ev & Htr & Hall & Hsort).
  cbn in Htr. subst ev. by split.
Qed.

(** The registers that a run that succeeds writes, among those that the
    loop has left: the ones that differ from their shadow, and register 0
    when a double-buffered register was or is to be written. *)
Lemma sync_loop_written n db st bus tr ret st' bus' tr' :
  sync_loop n db st bus tr = (ret, st', bus', tr') ->
  0 <= ret ->
  exists ev,
    tr' = tr ++ ev
    /\ forall i,
         i ∈ ev.*1 <->
         (i < n)%nat
         /\ (regs_hw st !!! i <> regs st !!! i
             \/ (i = 0%nat
                 /\ (db = true
                     \/ ((1 < n)%nat /\ regs_hw st !!! 1%nat <> regs st !!! 1%nat)
                     \/ ((4 < n)%nat /\ regs_hw st !!! 4%nat <> regs st !!! 4%nat)))).
Proof.
  revert db st bus tr.
  induction n as [|k IH]; intros db st bus tr Hrun Hret.
  - cbn in Hrun. inversion Hrun; subst. exists []. rewrite app_nil_r.
    split; [done|]. intros i. cbn. rewrite elem_of_nil. split; [done|lia].
  - sync_cases Hrun.
    + inversion Hrun; subst. lia.
    + apply IH in Hrun as (ev & -> & Hev); [|done].
      eexists (_ :: ev). split; [by rewrite <- app_assoc|].
      intros i. rewrite fmap_cons, elem_of_cons, Hev. cbn [fst].
      cbn [regs regs_hw set_regs_hw set_val].
      apply orb_true_iff in Heqb as [Hd|Hd].
      * apply negb_true_iff, Z.eqb_neq in Hd.
        destruct (decide (i = k)) as [->|Hik]; [split; [intros _; split; [lia|by left]|by left]|].
        split.
        -- intros [?|[Hlt Hi]]; [done|]. split; [lia|].
           rewrite list_lookup_total_insert_ne in Hi by lia.
           destruct Hi as [?|[-> Hi]]; [by left|right]. split; [done|].
           destruct (Nat.eqb_spec k 1) as [->|]; [right; left; split; [lia|done]|].
           destruct (Nat.eqb_spec k 4) as [->|]; [right; right; split; [lia|done]|].
           cbn [orb] in Hi.
           destruct Hi as [?|[[? Hi]|[? Hi]]]; [by left|right; left|right; right];
             (split; [lia|]); by rewrite list_lookup_total_insert_ne in Hi by lia.
        -- intros [Hlt Hi]. right. split; [lia|].
           rewrite list_lookup_total_insert_ne by lia.
           destruct Hi as [?|[-> Hi]]; [by left|right]. split; [done|].
           destruct (Nat.eqb_spec k 1) as [->|]; [by left|].
           destruct (Nat.eqb_spec k 4) as [->|]; [by left|].
           cbn [orb].
           destruct Hi as [?|[[? Hi]|[? Hi]]]; [by left|right; left|right; right];
             (split; [lia|]); by rewrite list_lookup_total_insert_ne by lia.
      * apply andb_true_iff in Hd as [Hk ->]. apply Nat.eqb_eq in Hk. subst k.
        split.
        -- intros [->|[Hlt _]]; [|lia]. split; [lia|]. right. split; [done|by left].
        -- intros [Hlt _]. left. lia.
    + apply orb_false_iff in Heqb as [Hsame Hdb].
      apply negb_false_iff, Z.eqb_eq in Hsame.
      apply IH in Hrun as (ev & -> & Hev); [|done].
      exists ev. split; [done|]. intros i. rewrite Hev.
      split.
      * intros [Hlt Hi]. split; [lia|].
        destruct Hi as [?|[-> Hi]]; [by left|right]. split; [done|].
        destruct Hi as [?|[[? Hi]|[? Hi]]]; [by left|right; left|right; right];
          (split; [lia|done]).
      * intros [Hlt Hi].
        destruct (decide (i = k)) as [->|Hik].
        -- destruct Hi as [?|[-> Hi]]; [done|].
           cbn in Hdb.
           destruct Hi as [->|[[? _]|[? _]]]; [discriminate|lia..].
        -- split; [lia|].
           destruct Hi as [?|[-> Hi]]; [by left|right]. split; [done|].
           destruct Hi as [?|[[? Hi]|[? Hi]]]; [by left|right; left|right; right];
             (split; [|done]).
           ++ destruct (decide (k = 1%nat)) as [->|]; [done|lia].
           ++ destruct (decide (k = 4%nat)) as [->|]; [done|lia].
Qed.

(** X2: The registers written on success: a run of [adf4350_sync_config]
    that succeeds writes a register exactly when its target differs from
    its shadow, or when it is register 0 and register 1 or register 4
    differs from its shadow; an unchanged register is never written
    otherwise. *)
Theorem sync_config_writes_exactly st bus ret st' bus' tr i :
  adf4350_sync_config st bus = (ret, st', bus', tr) ->
  0 <= ret ->
  i ∈ tr.*1 <->
  (i < 6)%nat
  /\ (regs_hw st !!! i <> regs st !!! i
      \/ (i = ADF4350_REG0
          /\ (regs_hw st !!! ADF4350_REG1 <> regs st !!! ADF4350_REG1
              \/ regs_hw st !!! ADF4350_REG4 <> regs st !!! ADF4350_REG4))).
Proof.
  intros Hrun Hret.
  apply sync_loop_written in Hrun as (ev & Htr & Hev); [|done].
  cbn in Htr. subst ev. rewrite Hev.
  unfold ADF4350_REG0, ADF4350_REG1, ADF4350_REG4.
  split; intros [Hlt Hi]; (split; [done|]).
  - destruct Hi as [?|[-> Hi]]; [by left|right]. split; [done|].
    destruct Hi as [?|[[_ ?]|[_ ?]]]; [done|by left|by right].
  - destruct Hi as [?|[-> Hi]]; [by left|right]. split; [done|].
    destruct Hi as [?|?]; [right; left|right; right]; (split; [lia|done]).
Qed.




(** ** Properties of the serial writer *)

(** The byte of a 32-bit word at bit [k], as the code takes it: masked
    in place, then shifted down. *)
Lemma masked_byte data k :
  0 <= k ->
  Z.shiftr (Z.land data (Z.shiftl 255 k)) k = (data / 2 ^ k) mod 256.
Proof.
  intros Hk.
  rewrite Z.shiftr_land, Z.shiftr_shiftl_l, Z.sub_diag, Z.shiftl_0_r by lia.
  change 255 with (Z.ones 8).
  rewrite Z.land_ones, Z.shiftr_div_pow2 by lia. done.
Qed.

(** X4: The bytes on the bus: [adf4350_write] makes one transfer of 4 bytes
    to the slave, with no byte read back; the bytes are the four bytes of
    the 32-bit word, the most significant first, so that the word is read
    back from them. *)
Theorem adf4350_write_big_endian data bus :
  0 <= data < 2 ^ 32 ->
  exists b0 b1 b2 b3,
    adf4350_write data bus
      = SPI_TransferData spiBaseAddress 4 [b0; b1; b2; b3] 0 spiSlaveSelect bus
    /\ 0 <= b0 < 256 /\ 0 <= b1 < 256 /\ 0 <= b2 < 256 /\ 0 <= b3 < 256
    /\ data = b0 * 2 ^ 24 + b1 * 2 ^ 16 + b2 * 2 ^ 8 + b3.
Proof.
  intros Hdata.
  exists ((data / 2 ^ 24) mod 256), ((data / 2 ^ 16) mod 256),
         ((data / 2 ^ 8) mod 256), ((data / 2 ^ 0) mod 256).
  split.
  - unfold adf4350_write.
    change 0xFF000000 with (Z.shiftl 255 24).
    change 0x00FF0000 with (Z.shiftl 255 16).
    change 0x0000FF00 with (Z.shiftl 255 8).
    change 0x000000FF with (Z.shiftl 255 0).
    by rewrite !masked_byte by lia.
  - change (2 ^ 32) with 4294967296 in Hdata.
    change (2 ^ 24) with 16777216. change (2 ^ 16) with 65536.
    change (2 ^ 8) with 256. change (2 ^ 0) with 1.
    repeat split; try (apply Z.mod_pos_bound; lia).
    clear P bus. Z.div_mod_to_equations. lia.
Qed.

(** ** Properties of the output divider *)

(** The loop doubles the frequency until it reaches the minimum of the
    VCO: with [d] doublings enough for that, what it returns is the
    frequency doubled [k <= d] times, with [k] added to the divider
    selection, and [k] is the first count that reaches the minimum. *)
Lemma rf_div_loop_first fuel st r freq d st1 f1 :
  0 < freq -> ADF4350_MIN_VCO_FREQ <= 2 ^ 63 ->
  0 <= d -> ADF4350_MIN_VCO_FREQ <= freq * 2 ^ d ->
  0 <= r -> r + d < 2 ^ 32 ->
  rf_div_loop fuel (set_r4_rf_div_sel r st) freq = Done (st1, f1) ->
  exists k,
    0 <= k <= d
    /\ st1 = set_r4_rf_div_sel (r + k) st
    /\ f1 = freq * 2 ^ k
    /\ ADF4350_MIN_VCO_FREQ <= freq * 2 ^ k
    /\ forall j, 0 <= j < k -> freq * 2 ^ j < ADF4350_MIN_VCO_FREQ.
Proof.
  intros Hfreq Hmin. revert r freq d Hfreq.
  induction fuel as [|fuel IH]; intros r freq d Hfreq Hd Hreach Hr Hrd Hrun;
    [done|].
  cbn [rf_div_loop] in Hrun.
  destruct (Z.ltb_spec freq ADF4350_MIN_VCO_FREQ) as [Hlt|Hge].
  - assert (1 <= d).
    { destruct (decide (d = 0)) as [->|]; [|lia]. cbn in Hreach. lia. }
    cbn [r4_rf_div_sel set_r4_rf_div_sel] in Hrun.
    rewrite u32_small in Hrun by lia.
    rewrite Z.shiftl_mul_pow2 in Hrun by lia.
    assert (Hu : u64 (freq * 2 ^ 1) = freq * 2).
    { unfold u64. apply Z.mod_small.
      change (2 ^ 63) with 9223372036854775808 in Hmin.
      change (2 ^ 64) with 18446744073709551616. lia. }
    rewrite Hu in Hrun.
    assert (Hpow : 2 ^ d = 2 * 2 ^ (d - 1)).
    { rewrite <- Z.pow_succ_r by lia. f_equal. lia. }
    apply (IH (r + 1) (freq * 2) (d - 1)) in Hrun
      as (k & Hk & -> & -> & Hk1 & Hk2); [|lia|lia|nia|lia|lia].
    assert (Hpowk : 2 ^ (k + 1) = 2 * 2 ^ k).
    { rewrite Z.pow_add_r by lia. lia. }
    exists (k + 1). split; [lia|].
    split; [f_equal; lia|]. split; [lia|]. split; [nia|].
    intros j Hj. destruct (decide (j = 0)) as [->|]; [cbn; lia|].
    specialize (Hk2 (j - 1) ltac:(lia)).
    replace (2 ^ j) with (2 * 2 ^ (j - 1)); [lia|].
    rewrite <- Z.pow_succ_r by lia. f_equal. lia.
  - inversion Hrun; subst. exists 0.
    rewrite Z.add_0_r, Z.pow_0_r, Z.mul_1_r.
    split; [lia|]. split; [done|]. split; [done|]. split; [done|]. lia.
Qed.

(** The loop returns within [d + 1] tests. *)
Lemma rf_div_loop_returns fuel st freq d :
  0 < freq -> ADF4350_MIN_VCO_FREQ <= 2 ^ 63 ->
  0 <= d -> ADF4350_MIN_VCO_FREQ <= freq * 2 ^ d ->
  (Z.to_nat d < fuel)%nat ->
  exists res, rf_div_loop fuel st freq = Done res.
Proof.
  intros Hfreq Hmin. revert st freq d Hfreq.
  induction fuel as [|fuel IH]; intros st freq d Hfreq Hd Hreach Hfuel; [lia|].
  cbn [rf_div_loop].
  destruct (Z.ltb_spec freq ADF4350_MIN_VCO_FREQ) as [Hlt|Hge]; [|by eexists].
  assert (1 <= d).
  { destruct (decide (d = 0)) as [->|]; [|lia]. cbn in Hreach. lia. }
  rewrite Z.shiftl_mul_pow2 by lia.
  assert (Hu : u64 (freq * 2 ^ 1) = freq * 2).
  { unfold u64. apply Z.mod_small.
    change (2 ^ 63) with 9223372036854775808 in Hmin.
    change (2 ^ 64) with 18446744073709551616. lia. }
  rewrite Hu.
  assert (Hpow : 2 ^ d = 2 * 2 ^ (d - 1)).
  { rewrite <- Z.pow_succ_r by lia. f_equal. lia. }
  apply (IH _ (freq * 2) (d - 1)); [lia|lia|nia|lia].
Qed.

(** X5: The output divider: for a request of at least 1 Hz and a VCO minimum
    of at most 2^63 Hz, from a divider selection of 0 and with fuel for 64
    tests, the loop returns the request doubled [k] times and the
    selection [k], where [k <= 63] is the smallest count of doublings that
    brings the request to the VCO minimum or above. *)
Theorem rf_div_loop_smallest fuel st freq :
  0 < freq ->
  ADF4350_MIN_VCO_FREQ <= 2 ^ 63 ->
  (64 <= fuel)%nat ->
  exists k,
    0 <= k <= 63
    /\ rf_div_loop fuel (set_r4_rf_div_sel 0 st) freq
       = Done (set_r4_rf_div_sel k st, freq * 2 ^ k)
    /\ ADF4350_MIN_VCO_FREQ <= freq * 2 ^ k
    /\ forall j, 0 <= j < k -> freq * 2 ^ j < ADF4350_MIN_VCO_FREQ.
Proof.
  intros Hfreq Hmin Hfuel.
  assert (Hreach : ADF4350_MIN_VCO_FREQ <= freq * 2 ^ 63) by nia.
  destruct (rf_div_loop_returns fuel (set_r4_rf_div_sel 0 st) freq 63)
    as ([st1 f1] & Hrun); [done|done|lia|done|lia|].
  pose proof Hrun as Hrun'.
  apply (rf_div_loop_first fuel st 0 freq 63) in Hrun'
    as (k & Hk & -> & -> & Hk1 & Hk2); [|done|done|lia|done|lia|lia].
  exists k. split; [done|]. split; [exact Hrun|]. done.
Qed.

(** ** Further properties of the search *)

(** What the divider search returns: a counter of 16 bits that is not 0,
    and the state with the PFD frequency of that counter, within the
    limit. *)
Lemma tune_r_cnt_inv fuel st r_cnt c st' :
  adf4350_tune_r_cnt fuel st r_cnt = Done (c, st') ->
  1 <= c <= 65535
  /\ st' = set_fpfd (tune_fpfd st c) st
  /\ 0 <= tune_fpfd st c <= ADF4350_MAX_FREQ_PFD.
Proof.
  revert st r_cnt. induction fuel as [|fuel IH]; intros st r_cnt Hrun; [done|].
  cbn [adf4350_tune_r_cnt] in Hrun.
  assert (Hu : 0 <= u16 (r_cnt + 1) < 65536)
    by (apply Z.mod_pos_bound; done).
  destruct (Z.eqb_spec (u16 (r_cnt + 1) * (if ref_div2_en (pdata st) then 2 else 1)) 0)
    as [|Hnz]; [done|].
  destruct (Z.gtb_spec (fpfd (set_fpfd (tune_fpfd st (u16 (r_cnt + 1))) st))
              ADF4350_MAX_FREQ_PFD) as [Hgt|Hle].
  - apply IH in Hrun as (Hc & -> & Hok). done.
  - inversion Hrun; subst. cbn [fpfd set_fpfd] in Hle.
    split; [destruct (ref_div2_en (pdata st)); lia|]. split; [done|].
    split; [|done]. unfold tune_fpfd.
    apply Z.div_pos; [apply u32_range|]. destruct (ref_div2_en (pdata st)); lia.
Qed.

(** One pass of the innermost loop. *)
Lemma search_body_inv n v v' :
  search_body n v = Done v' ->
  search_frame (sv_st v') = search_frame (sv_st v)
  /\ 0 <= fpfd (sv_st v') <= ADF4350_MAX_FREQ_PFD
  /\ 0 <= r1_mod (sv_st v') < 2 ^ 32
  /\ (sv_r_cnt v' = 0
      \/ (1 <= sv_r_cnt v' <= ADF4350_MAX_R_CNT
          /\ fpfd (sv_st v') = tune_fpfd (sv_st v) (sv_r_cnt v'))).
Proof.
  unfold search_body. intros Hrun.
  apply bind_Done_inv in Hrun as ([c st1] & Htune & Hrun).
  apply tune_r_cnt_inv in Htune as (Hc & -> & Hok).
  destruct (sv_chspc v =? 0); [done|].
  destruct (Z.gtb_spec c ADF4350_MAX_R_CNT); inversion Hrun; subst; cbn;
    (split; [done|]); (split; [done|]); (split; [apply u32_range|]).
  - by left.
  - right. split; [lia|done].
Qed.

(** The search frame decides the PFD frequency of a counter. *)
Lemma tune_fpfd_frame st st' c :
  search_frame st' = search_frame st -> tune_fpfd st' c = tune_fpfd st c.
Proof.
  unfold search_frame, tune_fpfd. intros Hfr. inversion Hfr as [[Hp Hc]].
  by rewrite Hp, Hc.
Qed.

Lemma search_inner_inv n fuel v v' :
  search_inner n fuel v = Done v' ->
  search_frame (sv_st v') = search_frame (sv_st v)
  /\ 0 <= fpfd (sv_st v') <= ADF4350_MAX_FREQ_PFD
  /\ 0 <= r1_mod (sv_st v') < 2 ^ 32
  /\ (sv_r_cnt v' = 0
      \/ (1 <= sv_r_cnt v' <= ADF4350_MAX_R_CNT
          /\ r1_mod (sv_st v') <= ADF4350_MAX_MODULUS
          /\ fpfd (sv_st v') = tune_fpfd (sv_st v) (sv_r_cnt v'))).
Proof.
  revert v. induction fuel as [|fuel IH]; intros v Hrun; [done|].
  cbn [search_inner] in Hrun.
  apply bind_Done_inv in Hrun as (v1 & Hbody & Hrun).
  apply search_body_inv in Hbody as (Hfr & Hpfd & Hmod & Hcnt).
  destruct (Z.gtb_spec (r1_mod (sv_st v1)) ADF4350_MAX_MODULUS) as [Hgt|Hle];
    destruct (Z.eqb_spec (sv_r_cnt v1) 0) as [Hz|Hnz]; cbn [negb andb] in Hrun.
  - inversion Hrun; subst. split; [done|]. split; [done|]. split; [done|]. by left.
  - apply IH in Hrun as (Hfr' & Hpfd' & Hmod' & Hcnt').
    split; [by rewrite Hfr'|]. split; [done|]. split; [done|].
    destruct Hcnt' as [?|(? & ? & ->)]; [by left|right].
    split; [done|]. split; [done|]. by apply tune_fpfd_frame.
  - inversion Hrun; subst. split; [done|]. split; [done|]. split; [done|]. by left.
  - inversion Hrun; subst. split; [done|]. split; [done|]. split; [done|].
    destruct Hcnt as [?|[? ?]]; [done|right]. done.
Qed.

Lemma search_middle_inv n fuel v v' :
  search_middle n fuel v = Done v' ->
  search_frame (sv_st v') = search_frame (sv_st v)
  /\ 0 <= fpfd (sv_st v') <= ADF4350_MAX_FREQ_PFD
  /\ 0 <= r1_mod (sv_st v') <= ADF4350_MAX_MODULUS
  /\ r1_mod (sv_st v') < 2 ^ 32
  /\ 1 <= sv_r_cnt v' <= ADF4350_MAX_R_CNT
  /\ fpfd (sv_st v') = tune_fpfd (sv_st v) (sv_r_cnt v').
Proof.
  revert v. induction fuel as [|fuel IH]; intros v Hrun; [done|].
  cbn [search_middle] in Hrun.
  apply bind_Done_inv in Hrun as (v1 & Hinner & Hrun).
  apply search_inner_inv in Hinner as (Hfr & Hpfd & Hmod & Hcnt).
  destruct (Z.eqb_spec (sv_r_cnt v1) 0) as [Hz|Hnz].
  - apply IH in Hrun as (Hfr' & Hpfd' & Hmod' & Hlt' & Hcnt' & Htune').
    split; [by rewrite Hfr'|]. split; [done|]. split; [done|]. split; [done|].
    split; [done|]. rewrite Htune'. by apply tune_fpfd_frame.
  - inversion Hrun; subst. destruct Hcnt as [?|(? & ? & ?)]; [done|].
    split; [done|]. split; [done|]. split; [lia|]. split; [lia|]. done.
Qed.

(** What the three loops return: the state differs from the one given
    in the four planned fields only; the counter is between 1 and
    ADF4350_MAX_R_CNT and the PFD frequency is the one of that counter,
    between 1 and ADF4350_MAX_FREQ_PFD; the modulus is between 1 and
    ADF4350_MAX_MODULUS; the integer division is at least [mdiv]; and the
    numerator and the integer division are the remainder and the quotient
    of the divide ratio by the modulus. *)
Lemma search_outer_inv n fuel freq mdiv v v' :
  search_outer n fuel freq mdiv v = Done v' ->
  search_frame (sv_st v') = search_frame (sv_st v)
  /\ 1 <= sv_r_cnt v' <= ADF4350_MAX_R_CNT
  /\ fpfd (sv_st v') = tune_fpfd (sv_st v) (sv_r_cnt v')
  /\ 1 <= fpfd (sv_st v') <= ADF4350_MAX_FREQ_PFD
  /\ 1 <= r1_mod (sv_st v') <= ADF4350_MAX_MODULUS
  /\ r1_mod (sv_st v') < 2 ^ 32
  /\ mdiv <= r0_int (sv_st v')
  /\ r0_fract (sv_st v')
     = div_ratio freq (r1_mod (sv_st v')) (fpfd (sv_st v'))
       mod r1_mod (sv_st v')
  /\ r0_int (sv_st v')
     = u32 (div_ratio freq (r1_mod (sv_st v')) (fpfd (sv_st v'))
            / r1_mod (sv_st v')).
Proof.
  revert v. induction fuel as [|fuel IH]; intros v Hrun; [done|].
  cbn [search_outer] in Hrun.
  apply bind_Done_inv in Hrun as (v1 & Hmid & Hrun).
  apply search_middle_inv in Hmid as (Hfr & Hpfd & Hmod & Hlt & Hcnt & Htune).
  destruct (Z.eqb_spec (fpfd (sv_st v1)) 0) as [|Hpnz]; [done|].
  destruct (Z.eqb_spec (r1_mod (sv_st v1)) 0) as [|Hmnz]; [done|].
  match type of Hrun with context [if ?g >? ?i then _ else _] =>
    destruct (Z.gtb_spec g i) as [Hgt|Hle] end.
  - apply IH in Hrun as (Hfr' & Hcnt' & Htune' & Hrest).
    cbn [sv_st sv_r_cnt] in Hfr', Htune'.
    split; [by rewrite Hfr'|]. split; [done|].
    split; [rewrite Htune'; by apply tune_fpfd_frame|]. done.
  - inversion Hrun; subst. cbn in *.
    split; [done|]. split; [done|]. split; [done|].
    split; [lia|]. split; [lia|]. split; [done|]. split; [done|].
    split; [|done].
    set (t := div_ratio _ _ _).
    pose proof (Z.mod_pos_bound t (r1_mod (sv_st v1)) ltac:(lia)).
    apply u32_small. lia.
Qed.

(** ** Further properties of the frequency planner *)

(** The divider loop changes the divider selection only, and keeps it
    within 32 bits. *)
Lemma rf_div_loop_inv fuel st r freq st1 f1 :
  0 <= r < 2 ^ 32 ->
  rf_div_loop fuel (set_r4_rf_div_sel r st) freq = Done (st1, f1) ->
  exists k, 0 <= k < 2 ^ 32 /\ st1 = set_r4_rf_div_sel k st.
Proof.
  revert r freq. induction fuel as [|fuel IH]; intros r freq Hr Hrun; [done|].
  cbn [rf_div_loop] in Hrun. destruct (freq <? _).
  - cbn [r4_rf_div_sel set_r4_rf_div_sel] in Hrun.
    apply (IH (u32 (r + 1))) in Hrun; [done|apply u32_range].
  - inversion Hrun; subst. by exists r.
Qed.

(** The reduction changes the numerator and the modulus only; it keeps
    the ratio of the two, and does not raise the modulus. *)
Lemma reduce_fraction_inv fuel st st' :
  0 <= r0_fract st < r1_mod st -> r1_mod st < 2 ^ 32 ->
  reduce_fraction fuel st = Done st' ->
  search_frame st' = search_frame st
  /\ fpfd st' = fpfd st /\ r0_int st' = r0_int st
  /\ 1 <= r1_mod st' <= r1_mod st
  /\ 0 <= r0_fract st'
  /\ r0_fract st' * r1_mod st = r0_fract st * r1_mod st'.
Proof.
  intros Hfr Hmod. unfold reduce_fraction.
  destruct (Z.eqb_spec (r0_fract st) 0) as [Ha0|Ha0]; cbn [negb andb].
  { intros Hrun. inversion Hrun; subst. cbn. rewrite Ha0.
    split; [done|]. split; [done|]. split; [done|]. lia. }
  destruct (Z.eqb_spec (r1_mod st) 0) as [Hb0|Hb0]; cbn [negb andb]; [lia|].
  intros Hrun. apply bind_Done_inv in Hrun as (g & Hgcd & Hrun).
  inversion Hrun; subst. cbn.
  apply gcd_loop_divides in Hgcd as (Hg & Hdm & Hdf).
  pose proof (div_common_lt (r0_fract st) (r1_mod st) g
                ltac:(lia) ltac:(lia) Hdf Hdm) as Hlt.
  apply Z.mod_divide in Hdm as [m' Hm'], Hdf as [f' Hf']; [|lia..].
  rewrite Hm', Hf' in *. rewrite !Z.div_mul in * by lia.
  assert (m' <= m' * g) by nia. assert (f' <= f' * g) by nia.
  rewrite !u32_small by lia.
  split; [done|]. split; [done|]. split; [done|]. split; [lia|].
  split; [lia|]. lia.
Qed.

(** The packing writes the six targets and nothing else; on an array of
    six targets, it does not depend on what the array held. *)
Lemma pack_registers_inv prescaler r_cnt bsd st :
  plan_of (pack_registers prescaler r_cnt bsd st) = plan_of st
  /\ platform_of (pack_registers prescaler r_cnt bsd st) = platform_of st
  /\ regs_hw (pack_registers prescaler r_cnt bsd st) = regs_hw st
  /\ length (regs (pack_registers prescaler r_cnt bsd st)) = length (regs st).
Proof.
  split; [done|]. split; [done|]. split; [done|].
  unfold pack_registers. cbn [regs set_regs]. by rewrite !length_insert.
Qed.

(** The synchronisation keeps the plan, the platform and the targets,
    and the length of the shadow. *)
Lemma sync_loop_plan n db st bus tr ret st' bus' tr' :
  sync_loop n db st bus tr = (ret, st', bus', tr') ->
  plan_of st' = plan_of st /\ platform_of st' = platform_of st
  /\ regs st' = regs st /\ length (regs_hw st') = length (regs_hw st).
Proof.
  revert db st bus tr.
  induction n as [|i IH]; intros db st bus tr Hrun.
  - cbn in Hrun. by inversion Hrun.
  - sync_cases Hrun.
    + by inversion Hrun.
    + apply IH in Hrun as (? & ? & ? & Hlen). split; [done|]. split; [done|].
      split; [done|]. rewrite Hlen. cbn [regs_hw set_regs_hw set_val].
      by rewrite length_insert.
    + by apply IH in Hrun.
Qed.

Lemma sync_config_plan st bus ret st' bus' tr :
  adf4350_sync_config st bus = (ret, st', bus', tr) ->
  plan_of st' = plan_of st /\ platform_of st' = platform_of st
  /\ regs st' = regs st /\ length (regs_hw st') = length (regs_hw st).
Proof. apply sync_loop_plan. Qed.

Lemma sync_config_status st bus ret st' bus' tr :
  adf4350_sync_config st bus = (ret, st', bus', tr) -> ret < 0 \/ ret = 0.
Proof. apply sync_loop_status. Qed.

Lemma sync_config_shadow st bus ret st' bus' tr :
  adf4350_sync_config st bus = (ret, st', bus', tr) ->
  0 <= ret ->
  (6 <= length (regs_hw st))%nat ->
  forall j, (j < 6)%nat -> regs_hw st' !!! j = regs st' !!! j.
Proof. apply sync_loop_shadow. Qed.

(** The last stage, when it returns a value that is not negative: the
    synchronisation succeeded, and the value is the quotient of lines
    300-301. *)
Lemma sync_and_return_inv st bus ret st' bus' tr :
  sync_and_return st bus = Done (ret, st', bus', tr) ->
  0 <= ret ->
  adf4350_sync_config st bus = (0, st', bus', tr)
  /\ achieved_den st' <> 0
  /\ ret = s64 (achieved_num st' / achieved_den st').
Proof.
  unfold sync_and_return. intros Hrun Hret.
  destruct (adf4350_sync_config st bus) as [[[ret1 st3] bus3] tr3] eqn:Esync.
  apply sync_config_status in Esync as Hst.
  destruct (Z.ltb_spec ret1 0); [inversion Hrun; lia|].
  destruct (Z.eqb_spec (achieved_den st3) 0); [done|].
  inversion Hrun; subst. destruct Hst as [? | ->]; [lia|]. done.
Qed.

(** The stages of a call of [adf4350_set_freq] that returns a value that
    is not negative. *)
Lemma set_freq_stages fuel st freq bus ret st' bus' tr :
  adf4350_set_freq fuel st freq bus = Done (ret, st', bus', tr) ->
  0 <= ret ->
  exists k freq1 v st2,
    0 <= k < 2 ^ 32
    /\ rf_div_loop fuel (set_r4_rf_div_sel 0 st) freq
       = Done (set_r4_rf_div_sel k st, freq1)
    /\ search_outer fuel fuel freq1
         (if freq >? ADF4350_MAX_FREQ_45_PRESC then 75 else 23)
         {| sv_st := set_r4_rf_div_sel k st;
            sv_r_cnt := if ref_div_factor (pdata st) =? 0 then 0
                        else u16 (ref_div_factor (pdata st) - 1);
            sv_chspc := chspc st |} = Done v
    /\ reduce_fraction fuel (sv_st v) = Done st2
    /\ adf4350_sync_config
         (pack_registers
            (if freq >? ADF4350_MAX_FREQ_45_PRESC
             then ADF4350_REG1_PRESCALER else 0)
            (sv_r_cnt v) (band_sel_div (fpfd (sv_st v))) st2) bus
       = (0, st', bus', tr)
    /\ achieved_den st' <> 0
    /\ ret = s64 (achieved_num st' / achieved_den st').
Proof.
  unfold adf4350_set_freq. intros Hrun Hret.
  destruct (_ || _); [exfalso; inversion Hrun; lia|].
  destruct (freq >? ADF4350_MAX_FREQ_45_PRESC).
  - apply bind_Done_inv in Hrun as ([st1 freq1] & Hrf & Hrun).
    pose proof Hrf as Hrf'.
    apply rf_div_loop_inv in Hrf' as (k & Hk & ->); [|done].
    apply bind_Done_inv in Hrun as (v & Hsearch & Hrun).
    apply bind_Done_inv in Hrun as (st2 & Hreduce & Hrun).
    apply sync_and_return_inv in Hrun as (Hsync & Hden & Hval); [|done].
    by exists k, freq1, v, st2.
  - apply bind_Done_inv in Hrun as ([st1 freq1] & Hrf & Hrun).
    pose proof Hrf as Hrf'.
    apply rf_div_loop_inv in Hrf' as (k & Hk & ->); [|done].
    apply bind_Done_inv in Hrun as (v & Hsearch & Hrun).
    apply bind_Done_inv in Hrun as (st2 & Hreduce & Hrun).
    apply sync_and_return_inv in Hrun as (Hsync & Hden & Hval); [|done].
    by exists k, freq1, v, st2.
Qed.

(** Two arrays of the same length with the same entries are equal. *)
Lemma list_eq_total (l1 l2 : list Z) n :
  length l1 = n -> length l2 = n ->
  (forall j, (j < n)%nat -> l1 !!! j = l2 !!! j) -> l1 = l2.
Proof.
  intros H1 H2 Hsame. apply (list_eq_same_length _ _ n); [done..|].
  intros j x y Hj Hx Hy.
  apply list_lookup_total_correct in Hx, Hy. rewrite <- Hx, <- Hy.
  by apply Hsame.
Qed.

(** The fields of the views. *)
Lemma plan_of_eq st st' :
  plan_of st' = plan_of st ->
  fpfd st' = fpfd st /\ r0_fract st' = r0_fract st /\ r0_int st' = r0_int st
  /\ r1_mod st' = r1_mod st /\ r4_rf_div_sel st' = r4_rf_div_sel st.
Proof. unfold plan_of. intros Heq. by inversion Heq. Qed.

Lemma search_frame_eq st st' :
  search_frame st' = search_frame st ->
  platform_of st' = platform_of st
  /\ r4_rf_div_sel st' = r4_rf_div_sel st
  /\ regs st' = regs st /\ regs_hw st' = regs_hw st.
Proof.
  unfold search_frame, platform_of. intros Heq. inversion Heq as [[Hp Hc Hs]].
  by rewrite Hp, Hc, Hs.
Qed.

(** The state that the search and the reduction leave, in a call that
    returns a value that is not negative: the final state has the plan of
    the reduced state, the search frame of the first state but for the
    divider selection, and the targets are six when they were. *)
Lemma set_freq_final fuel st freq bus ret st' bus' tr :
  adf4350_set_freq fuel st freq bus = Done (ret, st', bus', tr) ->
  0 <= ret ->
  exists k freq1 v st2,
    0 <= k < 2 ^ 32
    /\ rf_div_loop fuel (set_r4_rf_div_sel 0 st) freq
       = Done (set_r4_rf_div_sel k st, freq1)
    /\ search_outer fuel fuel freq1
         (if freq >? ADF4350_MAX_FREQ_45_PRESC then 75 else 23)
         {| sv_st := set_r4_rf_div_sel k st;
            sv_r_cnt := if ref_div_factor (pdata st) =? 0 then 0
                        else u16 (ref_div_factor (pdata st) - 1);
            sv_chspc := chspc st |} = Done v
    /\ reduce_fraction fuel (sv_st v) = Done st2
    /\ search_frame (sv_st v) = search_frame (set_r4_rf_div_sel k st)
    /\ 0 <= r0_fract (sv_st v) < r1_mod (sv_st v)
    /\ search_frame st2 = search_frame (sv_st v)
    /\ plan_of st' = plan_of st2
    /\ platform_of st' = platform_of st
    /\ achieved_den st' <> 0
    /\ ret = s64 (achieved_num st' / achieved_den st')
    /\ adf4350_sync_config
         (pack_registers
            (if freq >? ADF4350_MAX_FREQ_45_PRESC
             then ADF4350_REG1_PRESCALER else 0)
            (sv_r_cnt v) (band_sel_div (fpfd (sv_st v))) st2) bus
       = (0, st', bus', tr).
Proof.
  intros Hrun Hret.
  apply set_freq_stages in Hrun
    as (k & freq1 & v & st2 & Hk & Hrf & Hsearch & Hreduce & Hsync & Hden & Hval);
    [|done].
  exists k, freq1, v, st2.
  pose proof (search_outer_inv _ _ _ _ _ _ Hsearch)
    as (Hfr & _ & _ & _ & Hmod & Hmod32 & _ & Hfract & _).
  assert (Hfrac : 0 <= r0_fract (sv_st v) < r1_mod (sv_st v)).
  { rewrite Hfract. apply Z.mod_pos_bound. lia. }
  pose proof (reduce_fraction_inv _ _ _ Hfrac Hmod32 Hreduce) as (Hfr2 & _).
  pose proof (sync_config_plan _ _ _ _ _ _ Hsync) as (Hplan & Hplat & _).
  rewrite (proj1 (pack_registers_inv _ _ _ _)) in Hplan.
  rewrite (proj1 (proj2 (pack_registers_inv _ _ _ _))) in Hplat.
  apply search_frame_eq in Hfr2 as Hfr2'. destruct Hfr2' as (Hplat2 & _).
  apply search_frame_eq in Hfr as Hfr'. destruct Hfr' as (Hplat1 & _).
  cbn [sv_st] in Hplat1.
  split; [done|]. split; [done|]. split; [done|]. split; [done|].
  split; [done|]. split; [done|]. split; [done|]. split; [done|].
  split; [|done]. by rewrite Hplat, Hplat2, Hplat1.
Qed.

(** X6: The plan of a successful call: when [adf4350_set_freq] returns a
    value that is not negative, the reference, the channel spacing and
    the platform data are as they were; the PFD frequency is the one of a
    reference counter between 1 and ADF4350_MAX_R_CNT and lies between 1
    and ADF4350_MAX_FREQ_PFD; the integer division is at least the
    minimum of the prescaler chosen (75 above ADF4350_MAX_FREQ_45_PRESC,
    23 otherwise); and the modulus is between 1 and
    ADF4350_MAX_MODULUS. *)
Theorem set_freq_plan_bounds fuel st freq bus ret st' bus' tr :
  adf4350_set_freq fuel st freq bus = Done (ret, st', bus', tr) ->
  0 <= ret ->
  platform_of st' = platform_of st
  /\ (exists r_cnt,
        1 <= r_cnt <= ADF4350_MAX_R_CNT /\ fpfd st' = tune_fpfd st r_cnt)
  /\ 1 <= fpfd st' <= ADF4350_MAX_FREQ_PFD
  /\ (if freq >? ADF4350_MAX_FREQ_45_PRESC then 75 else 23) <= r0_int st'
  /\ 1 <= r1_mod st' <= ADF4350_MAX_MODULUS.
Proof.
  intros Hrun Hret.
  apply set_freq_final in Hrun
    as (k & freq1 & v & st2 & Hk & Hrf & Hsearch & Hreduce & Hfr & Hfrac
        & Hfr2 & Hplan & Hplat & _); [|done].
  apply search_outer_inv in Hsearch
    as (_ & Hcnt & Htune & Hpfd & Hmod & Hmod32 & Hint & _).
  apply reduce_fraction_inv in Hreduce as (_ & Hpfd2 & Hint2 & Hmod2 & _);
    [|done..].
  apply plan_of_eq in Hplan as (-> & _ & -> & -> & _).
  rewrite Hpfd2, Hint2.
  split; [done|]. split; [by exists (sv_r_cnt v)|]. split; [done|].
  split; [done|]. lia.
Qed.

(** X7: The output divider of a successful call: for a request of at least
    1 Hz and a VCO minimum of at most 2^63 Hz, when [adf4350_set_freq]
    returns a value that is not negative the divider selection of the
    state is the smallest number of doublings that brings the request to
    ADF4350_MIN_VCO_FREQ or above, and it is at most 63. *)
Theorem set_freq_rf_divider fuel st freq bus ret st' bus' tr :
  0 < freq ->
  ADF4350_MIN_VCO_FREQ <= 2 ^ 63 ->
  adf4350_set_freq fuel st freq bus = Done (ret, st', bus', tr) ->
  0 <= ret ->
  0 <= r4_rf_div_sel st' <= 63
  /\ ADF4350_MIN_VCO_FREQ <= freq * 2 ^ r4_rf_div_sel st'
  /\ forall j, 0 <= j < r4_rf_div_sel st' ->
               freq * 2 ^ j < ADF4350_MIN_VCO_FREQ.
Proof.
  intros Hfreq Hmin Hrun Hret.
  apply set_freq_final in Hrun
    as (k & freq1 & v & st2 & Hk & Hrf & Hsearch & Hreduce & Hfr & Hfrac
        & Hfr2 & Hplan & Hplat & _); [|done].
  apply plan_of_eq in Hplan as (_ & _ & _ & _ & ->).
  apply search_frame_eq in Hfr2 as (_ & -> & _).
  apply search_frame_eq in Hfr as (_ & -> & _).
  cbn [r4_rf_div_sel set_r4_rf_div_sel].
  assert (Hreach : ADF4350_MIN_VCO_FREQ <= freq * 2 ^ 63) by nia.
  apply (rf_div_loop_first fuel st 0 freq 63) in Hrf
    as (k' & Hk' & Hst & _ & Hk1 & Hk2); [|done|done|lia|done|lia|lia].
  apply (f_equal r4_rf_div_sel) in Hst. cbn in Hst. subst k. done.
Qed.

(** X8: The shadow after a successful call: with six targets and six shadow
    entries, when [adf4350_set_freq] returns a value that is not negative
    the shadow is equal to the targets, and there are still six of
    each. *)
Theorem set_freq_shadow_in_sync fuel st freq bus ret st' bus' tr :
  length (regs st) = 6%nat ->
  length (regs_hw st) = 6%nat ->
  adf4350_set_freq fuel st freq bus = Done (ret, st', bus', tr) ->
  0 <= ret ->
  regs_hw st' = regs st' /\ length (regs st') = 6%nat.
Proof.
  intros Hlr Hlh Hrun Hret.
  apply set_freq_final in Hrun
    as (k & freq1 & v & st2 & _ & _ & _ & _ & Hfr & _ & Hfr2 & _ & _ & _ & _
        & Hsync); [|done].
  apply search_frame_eq in Hfr2 as (_ & _ & Hr2 & Hh2).
  apply search_frame_eq in Hfr as (_ & _ & Hr1 & Hh1).
  cbn [sv_st regs regs_hw set_r4_rf_div_sel] in Hr1, Hh1.
  pose proof (pack_registers_inv
                (if freq >? ADF4350_MAX_FREQ_45_PRESC
                 then ADF4350_REG1_PRESCALER else 0)
                (sv_r_cnt v) (band_sel_div (fpfd (sv_st v))) st2)
    as (_ & _ & Hph & Hpl).
  pose proof (sync_config_plan _ _ _ _ _ _ Hsync) as (_ & _ & Hregs & Hlen).
  assert (Hl' : length (regs st') = 6%nat).
  { by rewrite Hregs, Hpl, Hr2, Hr1. }
  assert (Hh' : length (regs_hw st') = 6%nat).
  { by rewrite Hlen, Hph, Hh2, Hh1. }
  split; [|done].
  apply (list_eq_total _ _ 6); [done..|].
  apply (sync_config_shadow _ _ _ _ _ _ Hsync); [lia|].
  rewrite Hph, Hh2, Hh1. lia.
Qed.


(** X9: The value returned by a successful call: when the 32-bit sum
    [r0_int * r1_mod + r0_fract] of line 300 does not wrap, the divider
    selection is below 32 and ADF4350_MAX_FREQ_PFD is below 2^31, a value
    that is not negative returned by [adf4350_set_freq] is
    [((INT * MOD + FRACT) * fpfd) / (MOD * 2^rf_div_sel)] over the
    integers, on the fields of the final state. *)
Theorem set_freq_returns_achieved fuel st freq bus ret st' bus' tr :
  ADF4350_MAX_FREQ_PFD < 2 ^ 31 ->
  adf4350_set_freq fuel st freq bus = Done (ret, st', bus', tr) ->
  0 <= ret ->
  r4_rf_div_sel st' < 32 ->
  r0_int st' * r1_mod st' + r0_fract st' < 2 ^ 32 ->
  ret = achieved_freq_of st'.
Proof.
  intros Hmax Hrun Hret Hsel Hsum.
  apply set_freq_final in Hrun
    as (k & freq1 & v & st2 & Hk & Hrf & Hsearch & Hreduce & Hfr & Hfrac
        & Hfr2 & Hplan & Hplat & Hden & -> & _); [|done].
  apply search_outer_inv in Hsearch
    as (_ & _ & _ & Hpfd & Hmod & Hmod32 & Hint & _).
  apply reduce_fraction_inv in Hreduce
    as (_ & Hpfd2 & Hint2 & Hmod2 & Hfr0 & _); [|done..].
  pose proof (plan_of_eq _ _ Hplan) as (Ef & Er & Ei & Em & Es).
  apply search_frame_eq in Hfr2 as (_ & Hs2 & _).
  apply search_frame_eq in Hfr as (_ & Hs1 & _).
  cbn [sv_st r4_rf_div_sel set_r4_rf_div_sel] in Hs1.
  apply achieved_freq_exact.
  - rewrite Ei, Hint2. destruct (freq >? ADF4350_MAX_FREQ_45_PRESC); lia.
  - by rewrite Er.
  - rewrite Em. lia.
  - done.
  - rewrite Ef, Hpfd2. lia.
  - rewrite Es, Hs2, Hs1. lia.
Qed.

(** The arithmetic of the plan: the truncated divide ratio, split in an
    integer and a fractional part whose fraction is then reduced, gives
    back a frequency at most 1 Hz above the request and less than one PFD
    step (and 1 Hz) below it. *)
Lemma plan_accuracy freq D M F M' fr' d ret :
  1 <= D -> 1 <= F -> 1 <= M' <= M -> 0 <= d <= 1 ->
  fr' * M = ((freq * D * M + d) / F) mod M * M' ->
  ret = ((((freq * D * M + d) / F / M) * M' + fr') * F) / (M' * D) ->
  ret <= freq + 1 /\ (freq - ret - 1) * (M' * D) < F.
Proof.
  intros HD HF HM Hd Hfr Hret.
  set (tmp := (freq * D * M + d) / F) in *.
  assert (Htmp : tmp * F <= freq * D * M + d < tmp * F + F).
  { unfold tmp. div_mod_lia. }
  set (I := tmp / M) in *. set (fr := tmp mod M) in *.
  assert (Hsplit : tmp = I * M + fr) by (unfold I, fr; div_mod_lia).
  set (N := I * M' + fr') in *.
  assert (HN : N * M = tmp * M') by (unfold N; nia).
  assert (Hpos : 0 < M' * D) by nia.
  assert (Hq : ret * (M' * D) <= N * F < ret * (M' * D) + M' * D).
  { rewrite Hret. clearbody N tmp I fr. div_mod_lia. }
  clearbody N tmp I fr. clear Hret Hsplit Hfr.
  assert (Hup : ret * (M' * D * M) <= (freq + 1) * (M' * D * M)).
  { assert (ret * (M' * D) * M <= N * F * M) by nia.
    assert (N * F * M = tmp * F * M') by nia.
    assert (tmp * F * M' <= (freq * D * M + d) * M') by nia.
    assert (d * M' <= M' * D * M) by nia.
    nia. }
  assert (Hlow : (freq - ret - 1) * (D * M) * M' < F * M').
  { assert (N * F * M < (ret + 1) * (M' * D) * M) by nia.
    assert (N * F * M = tmp * F * M') by nia.
    assert ((freq * D * M - F) * M' < tmp * F * M') by nia.
    nia. }
  assert (Hpos' : 0 < M' * D * M) by nia.
  split.
  { apply (Z.mul_le_mono_pos_r _ _ (M' * D * M)); done. }
  assert (Hlow' : (freq - ret - 1) * (D * M) < F).
  { apply (Z.mul_lt_mono_pos_r M'); lia. }
  destruct (Z_lt_le_dec (freq - ret - 1) 0) as [Hneg|Hnn]; [nia|].
  assert ((freq - ret - 1) * (M' * D) <= (freq - ret - 1) * (D * M)); [|lia].
  apply Z.mul_le_mono_nonneg_l; [done|]. nia.
Qed.

(** X10: How close a successful call comes to the request.  For a request of
    at least 1 Hz, with ADF4350_MIN_VCO_FREQ at most 2^63 and
    ADF4350_MAX_FREQ_PFD below 2^31, when [adf4350_set_freq] returns a
    value that is not negative and nothing wrapped on the way (the
    product of line 233 fits 64 bits, the integer part fits 32 bits, the
    32-bit sum of line 300 does not wrap, the divider selection is below
    32), the value returned is at most 1 Hz above the request, and below
    it by less than one PFD frequency divided by [MOD * 2^rf_div_sel],
    plus 1 Hz. *)
Theorem set_freq_accuracy fuel st freq bus ret st' bus' tr :
  0 < freq ->
  ADF4350_MIN_VCO_FREQ <= 2 ^ 63 ->
  ADF4350_MAX_FREQ_PFD < 2 ^ 31 ->
  adf4350_set_freq fuel st freq bus = Done (ret, st', bus', tr) ->
  0 <= ret ->
  r4_rf_div_sel st' < 32 ->
  freq * 2 ^ r4_rf_div_sel st' * ADF4350_MAX_MODULUS < 2 ^ 63 ->
  freq * 2 ^ r4_rf_div_sel st' + 1 < 2 ^ 32 * fpfd st' ->
  r0_int st' * r1_mod st' + r0_fract st' < 2 ^ 32 ->
  ret <= freq + 1
  /\ (freq - ret - 1) * (r1_mod st' * 2 ^ r4_rf_div_sel st') < fpfd st'.
Proof.
  intros Hfreq Hmin Hmax Hrun Hret Hsel Hprod Hfit Hsum.
  apply set_freq_final in Hrun
    as (k & freq1 & v & st2 & Hk & Hrf & Hsearch & Hreduce & Hfr & Hfrac
        & Hfr2 & Hplan & Hplat & Hden & Hval & _); [|done].
  assert (Hreach : ADF4350_MIN_VCO_FREQ <= freq * 2 ^ 63) by nia.
  apply (rf_div_loop_first fuel st 0 freq 63) in Hrf
    as (k' & Hk' & Hst & -> & _); [|done|done|lia|done|lia|lia].
  apply (f_equal r4_rf_div_sel) in Hst. cbn in Hst.
  assert (k' = k) as -> by lia. clear Hst.
  apply search_outer_inv in Hsearch
    as (_ & _ & _ & Hpfd & Hmod & Hmod32 & Hint & Hfract & Hint').
  apply reduce_fraction_inv in Hreduce
    as (_ & Hpfd2 & Hint2 & Hmod2 & Hfr0 & Hsame); [|done..].
  pose proof (plan_of_eq _ _ Hplan) as (Ef & Er & Ei & Em & Es).
  apply search_frame_eq in Hfr2 as (_ & Hs2 & _).
  apply search_frame_eq in Hfr as (_ & Hs1 & _).
  cbn [sv_st r4_rf_div_sel set_r4_rf_div_sel] in Hs1.
  assert (Ek : r4_rf_div_sel st' = k) by (by rewrite Es, Hs2, Hs1).
  rewrite Ek in *.
  assert (Hexact : ret = achieved_freq_of st').
  { rewrite Hval. apply achieved_freq_exact.
    - rewrite Ei, Hint2. destruct (freq >? ADF4350_MAX_FREQ_45_PRESC); lia.
    - by rewrite Er.
    - rewrite Em. lia.
    - done.
    - rewrite Ef, Hpfd2. lia.
    - lia. }
  clear Hval Hden.
  set (F := fpfd (sv_st v)) in *. set (M := r1_mod (sv_st v)) in *.
  set (D := 2 ^ k) in *.
  assert (HD : 1 <= D) by (unfold D; nia).
  set (d := if F >? 1 then 1 else 0) in *.
  assert (Hd : 0 <= d <= 1) by (unfold d; destruct (F >? 1); lia).
  assert (Hratio : div_ratio (freq * D) M F = (freq * D * M + d) / F).
  { unfold div_ratio. fold d.
    assert (0 <= freq * D * M /\ freq * D * M + d < 2 ^ 64) as [? ?] by nia.
    unfold u64. rewrite (Z.mod_small (freq * D * M)) by lia.
    by rewrite Z.mod_small by lia. }
  rewrite Hratio in Hfract, Hint'.
  assert (Hnowrap : r0_int (sv_st v) = (freq * D * M + d) / F / M).
  { rewrite Hint'. apply u32_small.
    rewrite Ef, Hpfd2 in Hfit. fold F in Hfit.
    split; [apply Z.div_pos; [apply Z.div_pos|]; nia|].
    apply Z.div_lt_upper_bound; [lia|].
    apply Z.div_lt_upper_bound; [lia|]. nia. }
  rewrite Ef, Em, Hpfd2. fold F.
  apply (plan_accuracy freq D M F (r1_mod st2) (r0_fract st2) d ret);
    [lia|lia|lia|lia| |].
  - by rewrite <- Hfract.
  - rewrite Hexact. unfold achieved_freq_of.
    by rewrite Ef, Er, Ei, Em, Ek, Hpfd2, Hint2, Hnowrap.
Qed.

(** *** The same request again *)

(** The state is its views. *)
Lemma state_ext st1 st2 :
  platform_of st1 = platform_of st2 ->
  plan_of st1 = plan_of st2 ->
  bookkeeping_of st1 = bookkeeping_of st2 ->
  regs st1 = regs st2 ->
  st1 = st2.
Proof.
  destruct st1, st2. unfold platform_of, plan_of, bookkeeping_of. cbn.
  intros Hplat Hplan Hbook ->. by inversion Hplat; inversion Hplan;
    inversion Hbook; subst.
Qed.

Lemma search_frame_book st st' :
  search_frame st' = search_frame st ->
  bookkeeping_of st' = bookkeeping_of st.
Proof.
  unfold search_frame, bookkeeping_of. intros Heq. by inversion Heq.
Qed.

Lemma search_frame_pdata st st' :
  search_frame st' = search_frame st -> pdata st' = pdata st.
Proof. unfold search_frame. intros Heq. by inversion Heq. Qed.

Lemma pack_registers_book p r b st :
  bookkeeping_of (pack_registers p r b st) = bookkeeping_of st.
Proof. done. Qed.

(** The output divider does not depend on the state. *)
Lemma rf_div_loop_state fuel s1 s2 freq s1' f1 :
  r4_rf_div_sel s1 = r4_rf_div_sel s2 ->
  rf_div_loop fuel s1 freq = Done (s1', f1) ->
  rf_div_loop fuel s2 freq = Done (set_r4_rf_div_sel (r4_rf_div_sel s1') s2, f1).
Proof.
  revert s1 s2 freq.
  induction fuel as [|fuel IH]; intros s1 s2 freq Hsel Hrun; [done|].
  cbn [rf_div_loop] in *.
  destruct (freq <? ADF4350_MIN_VCO_FREQ).
  - rewrite <- Hsel.
    exact (IH (set_r4_rf_div_sel (u32 (r4_rf_div_sel s1 + 1)) s1)
              (set_r4_rf_div_sel (u32 (r4_rf_div_sel s1 + 1)) s2) _
              eq_refl Hrun).
  - inversion Hrun; subst. rewrite Hsel. by destruct s2.
Qed.

(** The counter search depends on the platform only. *)
Lemma tune_fpfd_platform st1 st2 c :
  platform_of st1 = platform_of st2 -> tune_fpfd st1 c = tune_fpfd st2 c.
Proof.
  unfold platform_of, tune_fpfd. intros Heq.
  inversion Heq as [[Hp Hc Hs]]. by rewrite Hp, Hc.
Qed.

Lemma tune_r_cnt_platform fuel st1 st2 r c s1 :
  platform_of st1 = platform_of st2 ->
  adf4350_tune_r_cnt fuel st1 r = Done (c, s1) ->
  adf4350_tune_r_cnt fuel st2 r = Done (c, set_fpfd (fpfd s1) st2).
Proof.
  revert st1 st2 r.
  induction fuel as [|fuel IH]; intros st1 st2 r Hplat Hrun; [done|].
  cbn [adf4350_tune_r_cnt] in *.
  rewrite <- (tune_fpfd_platform st1 st2) by done.
  assert (Hp : pdata st2 = pdata st1).
  { unfold platform_of in Hplat. by inversion Hplat. }
  rewrite Hp.
  destruct (_ =? 0); [done|].
  cbn [fpfd set_fpfd] in *.
  destruct (_ >? ADF4350_MAX_FREQ_PFD).
  - exact (IH (set_fpfd _ st1) (set_fpfd _ st2) _ Hplat Hrun).
  - inversion Hrun; subst. done.
Qed.

Lemma search_inputs_eq v1 v2 :
  search_inputs v1 = search_inputs v2 ->
  sv_r_cnt v1 = sv_r_cnt v2 /\ sv_chspc v1 = sv_chspc v2
  /\ platform_of (sv_st v1) = platform_of (sv_st v2).
Proof.
  intros Heq. split; [exact (f_equal (fun t => t.1.1) Heq)|].
  split; [exact (f_equal (fun t => t.1.2) Heq)|exact (f_equal snd Heq)].
Qed.

(** The divider search on two states of the same platform: it takes the
    same steps and leaves the same PFD frequency and modulus. *)
Lemma search_body_platform n v1 v2 v1' :
  search_inputs v1 = search_inputs v2 ->
  search_body n v1 = Done v1' ->
  exists v2',
    search_body n v2 = Done v2'
    /\ search_inputs v1' = search_inputs v2'
    /\ fpfd (sv_st v1') = fpfd (sv_st v2')
    /\ r1_mod (sv_st v1') = r1_mod (sv_st v2').
Proof.
  unfold search_body. intros Hin Hrun.
  apply search_inputs_eq in Hin as (Hcnt & Hsp & Hplat).
  apply bind_Done_inv in Hrun as ([c s1] & Htune & Hrun).
  rewrite <- Hcnt, <- Hsp.
  rewrite (tune_r_cnt_platform _ _ _ _ _ _ Hplat Htune).
  apply tune_r_cnt_inv in Htune as (_ & -> & _).
  cbn [mbind outcome_bind fpfd set_fpfd] in *.
  destruct (sv_chspc v1 =? 0); [done|].
  assert (Hset : forall a b s,
            platform_of (set_r1_mod a (set_fpfd b s)) = platform_of s)
    by done.
  destruct (c >? ADF4350_MAX_R_CNT); inversion Hrun; subst;
    (eexists; split; [reflexivity|]); unfold search_inputs;
    cbn [sv_st sv_r_cnt sv_chspc]; by rewrite !Hset, Hplat.
Qed.

Lemma search_inner_platform n fuel v1 v2 v1' :
  search_inputs v1 = search_inputs v2 ->
  search_inner n fuel v1 = Done v1' ->
  exists v2',
    search_inner n fuel v2 = Done v2'
    /\ search_inputs v1' = search_inputs v2'
    /\ fpfd (sv_st v1') = fpfd (sv_st v2')
    /\ r1_mod (sv_st v1') = r1_mod (sv_st v2').
Proof.
  revert v1 v2.
  induction fuel as [|fuel IH]; intros v1 v2 Hin Hrun; [done|].
  cbn [search_inner] in *.
  apply bind_Done_inv in Hrun as (w1 & Hbody & Hrun).
  destruct (search_body_platform _ _ _ _ Hin Hbody)
    as (w2 & -> & Hin' & Hpfd & Hmod).
  cbn [mbind outcome_bind].
  pose proof (search_inputs_eq _ _ Hin') as (Hcnt & _).
  rewrite <- Hmod, <- Hcnt.
  destruct (_ && _).
  - by apply (IH w1).
  - inversion Hrun; subst. by exists w2.
Qed.

Lemma search_middle_platform n fuel v1 v2 v1' :
  search_inputs v1 = search_inputs v2 ->
  search_middle n fuel v1 = Done v1' ->
  exists v2',
    search_middle n fuel v2 = Done v2'
    /\ search_inputs v1' = search_inputs v2'
    /\ fpfd (sv_st v1') = fpfd (sv_st v2')
    /\ r1_mod (sv_st v1') = r1_mod (sv_st v2').
Proof.
  revert v1 v2.
  induction fuel as [|fuel IH]; intros v1 v2 Hin Hrun; [done|].
  cbn [search_middle] in *.
  apply bind_Done_inv in Hrun as (w1 & Hinner & Hrun).
  destruct (search_inner_platform _ _ _ _ _ Hin Hinner)
    as (w2 & -> & Hin' & Hpfd & Hmod).
  cbn [mbind outcome_bind].
  pose proof (search_inputs_eq _ _ Hin') as (Hcnt & _).
  rewrite <- Hcnt.
  destruct (sv_r_cnt w1 =? 0).
  - by apply (IH w1).
  - inversion Hrun; subst. by exists w2.
Qed.

Lemma search_outer_platform n fuel freq mdiv v1 v2 v1' :
  search_inputs v1 = search_inputs v2 ->
  search_outer n fuel freq mdiv v1 = Done v1' ->
  exists v2',
    search_outer n fuel freq mdiv v2 = Done v2'
    /\ sv_r_cnt v1' = sv_r_cnt v2'
    /\ fpfd (sv_st v1') = fpfd (sv_st v2')
    /\ r1_mod (sv_st v1') = r1_mod (sv_st v2')
    /\ r0_int (sv_st v1') = r0_int (sv_st v2')
    /\ r0_fract (sv_st v1') = r0_fract (sv_st v2').
Proof.
  revert v1 v2.
  induction fuel as [|fuel IH]; intros v1 v2 Hin Hrun; [done|].
  cbn [search_outer] in *.
  apply bind_Done_inv in Hrun as (w1 & Hmiddle & Hrun).
  destruct (search_middle_platform _ _ _ _ _ Hin Hmiddle)
    as (w2 & -> & Hin' & Hpfd & Hmod).
  cbn [mbind outcome_bind].
  apply search_inputs_eq in Hin' as (Hcnt & Hsp & Hplat).
  cbn [r1_mod set_r0_fract r0_int set_r0_int] in *.
  rewrite <- Hpfd, <- Hmod, <- Hcnt, <- Hsp.
  destruct (fpfd (sv_st w1) =? 0); [done|].
  destruct (r1_mod (sv_st w1) =? 0); [done|].
  destruct (mdiv >? _).
  - refine (IH _ _ _ Hrun). unfold search_inputs.
    cbn [sv_st sv_r_cnt sv_chspc]. f_equal. exact Hplat.
  - inversion Hrun; subst. eexists. split; [reflexivity|]. done.
Qed.

(** The reduction depends on the fraction only. *)
Lemma reduce_fraction_state fuel st1 st2 st1' :
  r0_fract st1 = r0_fract st2 -> r1_mod st1 = r1_mod st2 ->
  reduce_fraction fuel st1 = Done st1' ->
  reduce_fraction fuel st2
  = Done (set_r1_mod (r1_mod st1') (set_r0_fract (r0_fract st1') st2)).
Proof.
  unfold reduce_fraction. intros Hf Hm Hrun. rewrite <- Hf, <- Hm.
  destruct (_ && _).
  - apply bind_Done_inv in Hrun as (g & -> & Hrun).
    cbn [mbind outcome_bind r1_mod set_r1_mod r0_fract set_r0_fract] in *.
    rewrite <- ?Hf, <- ?Hm. inversion Hrun; subst. done.
  - inversion Hrun; subst. done.
Qed.

(** With six registers, the packing computes all of them from the plan
    and the platform data. *)
Lemma pack_registers_regs p r b sa sb :
  length (regs sa) = 6%nat -> length (regs sb) = 6%nat ->
  pdata sa = pdata sb ->
  plan_of sa = plan_of sb ->
  regs (pack_registers p r b sa) = regs (pack_registers p r b sb).
Proof.
  intros Ha Hb Hp Hplan. apply plan_of_eq in Hplan as (_ & Hf & Hi & Hm & Hs).
  unfold pack_registers. cbn [regs set_regs pdata r0_int r0_fract r1_mod
    r4_rf_div_sel]. rewrite Hp, Hf, Hi, Hm, Hs.
  destruct (regs sa) as [|a0 [|a1 [|a2 [|a3 [|a4 [|a5 [|]]]]]]];
    try discriminate Ha.
  destruct (regs sb) as [|b0 [|b1 [|b2 [|b3 [|b4 [|b5 [|]]]]]]];
    try discriminate Hb.
  reflexivity.
Qed.

(** The registers after the packed state is synchronised. *)
Lemma pack_sync_shadow p r b st2 bus st' bus' tr :
  length (regs st2) = 6%nat -> length (regs_hw st2) = 6%nat ->
  adf4350_sync_config (pack_registers p r b st2) bus = (0, st', bus', tr) ->
  regs_hw st' = regs st'
  /\ regs st' = regs (pack_registers p r b st2)
  /\ length (regs st') = 6%nat.
Proof.
  intros Hlr Hlh Hsync.
  pose proof (pack_registers_inv p r b st2) as (_ & _ & Hph & Hpl).
  pose proof (sync_config_plan _ _ _ _ _ _ Hsync) as (_ & _ & Hregs & Hlen).
  assert (Hl' : length (regs st') = 6%nat) by (by rewrite Hregs, Hpl).
  split; [|done].
  apply (list_eq_total _ _ 6); [by rewrite Hlen, Hph|done|].
  apply (sync_config_shadow _ _ _ _ _ _ Hsync); [lia|].
  rewrite Hph, Hlh. lia.
Qed.

(** X11: The same request again.  With six targets and six shadow entries,
    after a call of [adf4350_set_freq] that returned a value that is not
    negative, the same request on the state and the bus that the call
    left returns the same value and issues no transfer, and the state and
    the bus are as they were. *)
Theorem set_freq_repeat_silent fuel st freq bus ret st' bus' tr :
  length (regs st) = 6%nat ->
  length (regs_hw st) = 6%nat ->
  adf4350_set_freq fuel st freq bus = Done (ret, st', bus', tr) ->
  0 <= ret ->
  adf4350_set_freq fuel st' freq bus' = Done (ret, st', bus', []).
Proof.
  intros Hlr Hlh Hrun Hret.
  pose proof (set_freq_final _ _ _ _ _ _ _ _ Hrun Hret)
    as (k & freq1 & v & st2 & Hk & Hrf & Hsearch & Hreduce & Hfr & Hfrac
        & Hfr2 & Hplan & Hplat & Hden & Hval & Hsync).
  assert (Hrange : (freq >? ADF4350_MAX_OUT_FREQ)
                   || (freq <? ADF4350_MIN_OUT_FREQ) = false).
  { unfold adf4350_set_freq in Hrun. destruct (_ || _); [|done].
    exfalso. inversion Hrun. lia. }
  clear Hrun.
  (* the first run *)
  pose proof (search_frame_eq _ _ Hfr2) as (_ & Hs2 & Hr2 & Hh2).
  pose proof (search_frame_eq _ _ Hfr) as (_ & Hs1 & Hr1 & Hh1).
  cbn [sv_st r4_rf_div_sel regs regs_hw set_r4_rf_div_sel] in Hs1, Hr1, Hh1.
  pose proof (search_outer_inv _ _ _ _ _ _ Hsearch)
    as (_ & _ & _ & _ & _ & Hmod32 & _).
  pose proof (reduce_fraction_inv _ _ _ Hfrac Hmod32 Hreduce)
    as (_ & Hpfd2 & Hint2 & _).
  destruct (pack_sync_shadow _ _ _ _ _ _ _ _
              ltac:(by rewrite Hr2, Hr1) ltac:(by rewrite Hh2, Hh1) Hsync)
    as (Hshadow & Hregs & Hlen').
  pose proof (plan_of_eq _ _ Hplan) as (Ef & Er & Ei & Em & Es).
  assert (pdata st' = pdata st /\ chspc st' = chspc st) as [Hpd Hch].
  { unfold platform_of in Hplat. by inversion Hplat. }
  (* the second run *)
  unfold adf4350_set_freq. rewrite Hrange.
  pose proof (rf_div_loop_state fuel (set_r4_rf_div_sel 0 st)
                (set_r4_rf_div_sel 0 st') _ _ _ eq_refl Hrf) as Hrf'.
  cbn [r4_rf_div_sel set_r4_rf_div_sel] in Hrf'.
  change (set_r4_rf_div_sel k (set_r4_rf_div_sel 0 st'))
    with (set_r4_rf_div_sel k st') in Hrf'.
  set (start := if ref_div_factor (pdata st) =? 0 then 0
                else u16 (ref_div_factor (pdata st) - 1)) in *.
  assert (Hx : search_inputs
                 {| sv_st := set_r4_rf_div_sel k st; sv_r_cnt := start;
                    sv_chspc := chspc st |}
               = search_inputs
                   {| sv_st := set_r4_rf_div_sel k st'; sv_r_cnt := start;
                      sv_chspc := chspc st |}).
  { unfold search_inputs. cbn [sv_st sv_r_cnt sv_chspc]. f_equal.
    symmetry. exact Hplat. }
  assert (Hsearch' : exists v',
            search_outer fuel fuel freq1
              (if freq >? ADF4350_MAX_FREQ_45_PRESC then 75 else 23)
              {| sv_st := set_r4_rf_div_sel k st'; sv_r_cnt := start;
                 sv_chspc := chspc st |} = Done v'
            /\ sv_r_cnt v = sv_r_cnt v'
            /\ fpfd (sv_st v) = fpfd (sv_st v')
            /\ r1_mod (sv_st v) = r1_mod (sv_st v')
            /\ r0_int (sv_st v) = r0_int (sv_st v')
            /\ r0_fract (sv_st v) = r0_fract (sv_st v')).
  { apply (search_outer_platform _ _ _ _ _ _ v Hx Hsearch). }
  destruct Hsearch' as (v' & Hsearch' & Hc' & Hf' & Hm' & Hi' & Hfr').
  pose proof (search_outer_inv _ _ _ _ _ _ Hsearch') as (Hframe' & _).
  cbn [sv_st] in Hframe'.
  pose proof (reduce_fraction_state _ _ _ _ Hfr' Hm' Hreduce) as Hreduce'.
  pose proof (search_frame_eq _ _ Hframe') as (Hp' & Hs' & Hr' & Hh').
  cbn [r4_rf_div_sel regs regs_hw set_r4_rf_div_sel] in Hs', Hr', Hh'.
  assert (Hplan' : plan_of (set_r1_mod (r1_mod st2)
                              (set_r0_fract (r0_fract st2) (sv_st v')))
                   = plan_of st2).
  { unfold plan_of. cbn [fpfd r0_fract r0_int r1_mod r4_rf_div_sel
      set_r1_mod set_r0_fract].
    by rewrite Hs', <- Hf', <- Hi', Hpfd2, Hint2, Hs2, Hs1. }
  assert (Hsame :
            pack_registers
              (if freq >? ADF4350_MAX_FREQ_45_PRESC
               then ADF4350_REG1_PRESCALER else 0)
              (sv_r_cnt v') (band_sel_div (fpfd (sv_st v')))
              (set_r1_mod (r1_mod st2)
                 (set_r0_fract (r0_fract st2) (sv_st v'))) = st').
  { apply state_ext.
    - rewrite (proj1 (proj2 (pack_registers_inv _ _ _ _))). exact Hp'.
    - by rewrite (proj1 (pack_registers_inv _ _ _ _)), Hplan.
    - rewrite pack_registers_book. apply search_frame_book in Hframe'.
      exact Hframe'.
    - rewrite Hregs, <- Hc', <- Hf'.
      apply pack_registers_regs; [| |  |done].
      + cbn [regs set_r1_mod set_r0_fract]. by rewrite Hr'.
      + by rewrite Hr2, Hr1.
      + cbn [pdata set_r1_mod set_r0_fract].
        pose proof (search_frame_pdata _ _ Hframe') as Ha.
        pose proof (search_frame_pdata _ _ Hfr2) as Hb.
        pose proof (search_frame_pdata _ _ Hfr) as Hc.
        cbn [pdata set_r4_rf_div_sel] in Ha, Hc.
        by rewrite Ha, Hb, Hc. }
  destruct (freq >? ADF4350_MAX_FREQ_45_PRESC); rewrite Hrf';
    cbn [mbind outcome_bind pdata chspc set_r4_rf_div_sel];
    rewrite Hpd, Hch; fold start; rewrite Hsearch';
    cbn [mbind outcome_bind]; rewrite Hreduce';
    cbn [mbind outcome_bind]; rewrite Hsame.
  all: unfold sync_and_return, adf4350_sync_config.
  all: rewrite sync_loop_noop by (intros j _; by rewrite Hshadow).
  all: cbn [Z.ltb Z.compare].
  all: destruct (Z.eqb_spec (achieved_den st') 0) as [?|_]; [done|].
  all: by rewrite Hval.
Qed.

(** X12: The plan does not depend on what the driver did before.  Two calls
    of [adf4350_set_freq] with the same request, on two states with the
    same platform data, reference and channel spacing, each on a bus of
    its own, that both return a value that is not negative, return the
    same value and leave the same plan; and the same targets, when both
    states have six of them. *)
Theorem set_freq_memoryless fuel freq sta busa reta sta' busa' tra
    stb busb retb stb' busb' trb :
  platform_of sta = platform_of stb ->
  adf4350_set_freq fuel sta freq busa = Done (reta, sta', busa', tra) ->
  adf4350_set_freq fuel stb freq busb = Done (retb, stb', busb', trb) ->
  0 <= reta -> 0 <= retb ->
  reta = retb
  /\ plan_of sta' = plan_of stb'
  /\ (length (regs sta) = 6%nat -> length (regs stb) = 6%nat ->
      regs sta' = regs stb').
Proof.
  intros Hsame Hruna Hrunb Hreta Hretb.
  apply set_freq_final in Hruna
    as (ka & fa & va & sa & _ & Hrfa & Hsa & Hreda & Hfra & Hfraca
        & Hfra2 & Hplana & Hplata & _ & Hvala & Hsynca); [|done].
  apply set_freq_final in Hrunb
    as (kb & fb & vb & sb & _ & Hrfb & Hsb & Hredb & Hfrb & Hfracb
        & Hfrb2 & Hplanb & Hplatb & _ & Hvalb & Hsyncb); [|done].
  (* the output divider *)
  pose proof (rf_div_loop_state fuel (set_r4_rf_div_sel 0 sta)
                (set_r4_rf_div_sel 0 stb) _ _ _ eq_refl Hrfa) as Hrf.
  rewrite Hrfb in Hrf.
  assert (Hk : kb = ka).
  { exact (f_equal (fun o => match o with
                             | Done (s, _) => r4_rf_div_sel s
                             | _ => 0
                             end) Hrf). }
  assert (Hf : fb = fa).
  { exact (f_equal (fun o => match o with
                             | Done (_, f) => f
                             | _ => 0
                             end) Hrf). }
  subst kb fb. clear Hrf.
  (* the search *)
  assert (pdata sta = pdata stb /\ chspc sta = chspc stb) as [Hpd Hch].
  { unfold platform_of in Hsame. by inversion Hsame. }
  rewrite <- Hpd, <- Hch in Hsb.
  set (start := if ref_div_factor (pdata sta) =? 0 then 0
                else u16 (ref_div_factor (pdata sta) - 1)) in *.
  assert (Hin : search_inputs
                  {| sv_st := set_r4_rf_div_sel ka sta; sv_r_cnt := start;
                     sv_chspc := chspc sta |}
                = search_inputs
                    {| sv_st := set_r4_rf_div_sel ka stb; sv_r_cnt := start;
                       sv_chspc := chspc sta |}).
  { unfold search_inputs. cbn [sv_st sv_r_cnt sv_chspc]. f_equal.
    exact Hsame. }
  destruct (search_outer_platform _ _ _ _ _ _ _ Hin Hsa)
    as (v' & Hsb' & Hc & Hf & Hm & Hi & Hfr).
  rewrite Hsb in Hsb'. assert (v' = vb) as -> by congruence. clear Hsb'.
  (* the reduction *)
  pose proof (reduce_fraction_state _ _ _ _ Hfr Hm Hreda) as Hred.
  rewrite Hredb in Hred.
  assert (Hsb2 : sb = set_r1_mod (r1_mod sa) (set_r0_fract (r0_fract sa)
                                                (sv_st vb)))
    by congruence.
  clear Hred.
  pose proof (search_outer_inv _ _ _ _ _ _ Hsa)
    as (_ & _ & _ & _ & _ & Hmod32a & _).
  pose proof (search_outer_inv _ _ _ _ _ _ Hsb)
    as (_ & _ & _ & _ & _ & Hmod32b & _).
  pose proof (reduce_fraction_inv _ _ _ Hfraca Hmod32a Hreda)
    as (_ & Hpfda & Hinta & _).
  pose proof (search_frame_eq _ _ Hfra2) as (_ & Hsa2 & Hra2 & _).
  pose proof (search_frame_eq _ _ Hfra) as (_ & Hsa1 & Hra1 & _).
  pose proof (search_frame_eq _ _ Hfrb) as (_ & Hsb1 & Hrb1 & _).
  cbn [sv_st r4_rf_div_sel regs set_r4_rf_div_sel] in Hsa1, Hra1, Hsb1, Hrb1.
  assert (Hplan : plan_of sa = plan_of sb).
  { rewrite Hsb2. unfold plan_of.
    cbn [fpfd r0_fract r0_int r1_mod r4_rf_div_sel set_r1_mod set_r0_fract].
    by rewrite Hpfda, Hinta, Hsa2, Hsa1, Hsb1, Hf, Hi. }
  assert (Hplan' : plan_of sta' = plan_of stb')
    by (by rewrite Hplana, Hplanb).
  split.
  { rewrite Hvala, Hvalb. unfold achieved_num, achieved_den.
    apply plan_of_eq in Hplan' as (-> & -> & -> & -> & ->). done. }
  split; [done|].
  intros Hla Hlb.
  pose proof (sync_config_plan _ _ _ _ _ _ Hsynca) as (_ & _ & -> & _).
  pose proof (sync_config_plan _ _ _ _ _ _ Hsyncb) as (_ & _ & -> & _).
  rewrite <- Hc, <- Hf.
  apply pack_registers_regs; [by rewrite Hra2, Hra1| |  |done].
  - rewrite Hsb2. cbn [regs set_r1_mod set_r0_fract]. by rewrite Hrb1.
  - rewrite Hsb2. cbn [pdata set_r1_mod set_r0_fract].
    pose proof (search_frame_pdata _ _ Hfra2) as Ha.
    pose proof (search_frame_pdata _ _ Hfra) as Hb.
    pose proof (search_frame_pdata _ _ Hfrb) as Hc'.
    cbn [sv_st pdata set_r4_rf_div_sel] in Hb, Hc'.
    by rewrite Ha, Hb, Hc'.
Qed.

(** *** Where the planner divides by zero *)

(** A fault of the first pass of the innermost loop is the fault of the
    search. *)
Lemma search_outer_first_fault n fuel freq mdiv v f :
  (0 < n)%nat -> (0 < fuel)%nat ->
  search_body n v = Fault f ->
  search_outer n fuel freq mdiv v = Fault f.
Proof.
  intros Hn Hfuel Hbody.
  destruct n as [|n']; [lia|]. destruct fuel as [|fuel']; [lia|].
  cbn [search_outer search_middle search_inner]. by rewrite Hbody.
Qed.

(** The request after the output divider is chosen, and the state. *)
Lemma rf_div_loop_total fuel st freq :
  0 < freq -> ADF4350_MIN_VCO_FREQ <= 2 ^ 63 -> (64 <= fuel)%nat ->
  exists k freq1,
    rf_div_loop fuel (set_r4_rf_div_sel 0 st) freq
    = Done (set_r4_rf_div_sel k st, freq1).
Proof.
  intros Hfreq Hmin Hfuel.
  assert (Hreach : ADF4350_MIN_VCO_FREQ <= freq * 2 ^ 63) by nia.
  destruct (rf_div_loop_returns fuel (set_r4_rf_div_sel 0 st) freq 63)
    as ([st1 f1] & Hrun); [done|done|lia|done|lia|].
  pose proof Hrun as Hrun'.
  apply rf_div_loop_inv in Hrun' as (k & _ & ->); [|lia].
  by exists k, f1.
Qed.

(** X13: A channel spacing of 0, which
    [adf4350_out_altvoltage0_frequency_resolution] stores as any other,
    makes the next request in range divide by zero at line 222,
    [st->r1_mod = st->fpfd / chspc]: with ADF4350_MAX_FREQ_PFD at least
    65537 Hz and a reference division factor that fits 16 bits, the
    counter search returns and the division that follows it faults. *)
Theorem set_freq_zero_spacing fuel st freq bus :
  ADF4350_MIN_OUT_FREQ <= freq <= ADF4350_MAX_OUT_FREQ ->
  0 < freq ->
  ADF4350_MIN_VCO_FREQ <= 2 ^ 63 ->
  65537 <= ADF4350_MAX_FREQ_PFD ->
  0 <= ref_div_factor (pdata st) < 65536 ->
  chspc st = 0 ->
  (Z.to_nat 65535 <= fuel)%nat ->
  adf4350_set_freq fuel st freq bus = Fault DivByZero_chspc.
Proof.
  intros Hrange Hfreq Hmin Hmax Hrdf Hzero Hfuel.
  unfold adf4350_set_freq.
  destruct (Z.gtb_spec freq ADF4350_MAX_OUT_FREQ) as [?|_]; [exfalso; lia|].
  destruct (Z.ltb_spec freq ADF4350_MIN_OUT_FREQ) as [?|_]; [exfalso; lia|].
  cbn [orb].
  destruct (rf_div_loop_total fuel st freq) as (k & freq1 & Hrf);
    [done|done|lia|].
  destruct (freq >? ADF4350_MAX_FREQ_45_PRESC); rewrite Hrf;
    cbn [mbind outcome_bind pdata chspc set_r4_rf_div_sel].
  all: rewrite search_outer_first_fault with (f := DivByZero_chspc);
    [done|lia|lia|].
  all: unfold search_body; cbn [sv_st sv_r_cnt sv_chspc].
  all: set (start := if ref_div_factor (pdata st) =? 0 then 0
                     else u16 (ref_div_factor (pdata st) - 1)).
  all: assert (Hstart : 0 <= start < 65535)
         by (unfold start, u16;
             destruct (Z.eqb_spec (ref_div_factor (pdata st)) 0);
             [lia|rewrite Z.mod_small; lia]).
  all: destruct (tune_r_cnt_terminates fuel (set_r4_rf_div_sel k st) start)
         as (c & -> & _); [done|done|lia|].
  all: cbn [mbind outcome_bind]; by rewrite Hzero.
Qed.

(** X14: A PFD frequency below the channel spacing makes the request divide
    by zero.  When the first counter value that the search tries (1, or
    the reference division factor when the platform gives one) is at
    most ADF4350_MAX_R_CNT and gives a PFD frequency that is in range but
    below the channel spacing (a reference below the spacing does), the
    modulus [fpfd / chspc] is 0, the three loops are left at their first
    pass, and a request in range faults: at line 235, [tmp / st->fpfd],
    when that PFD frequency is 0, and at line 237, [tmp % st->r1_mod],
    otherwise. *)
Theorem set_freq_low_reference fuel st freq bus :
  ADF4350_MIN_OUT_FREQ <= freq <= ADF4350_MAX_OUT_FREQ ->
  0 < freq ->
  ADF4350_MIN_VCO_FREQ <= 2 ^ 63 ->
  0 <= ADF4350_MAX_MODULUS ->
  1 <= ADF4350_MAX_R_CNT < 65536 ->
  0 <= ref_div_factor (pdata st) <= ADF4350_MAX_R_CNT ->
  let c := if ref_div_factor (pdata st) =? 0 then 1
           else ref_div_factor (pdata st) in
  tune_fpfd st c <= ADF4350_MAX_FREQ_PFD ->
  0 <= tune_fpfd st c < chspc st ->
  (64 <= fuel)%nat ->
  adf4350_set_freq fuel st freq bus
  = Fault (if tune_fpfd st c =? 0 then DivByZero_fpfd else DivByZero_mod).
Proof.
  intros Hrange Hfreq Hmin Hmod Hcnt Hrdf c Hpfd Hlow Hfuel.
  unfold adf4350_set_freq.
  destruct (Z.gtb_spec freq ADF4350_MAX_OUT_FREQ) as [?|_]; [exfalso; lia|].
  destruct (Z.ltb_spec freq ADF4350_MIN_OUT_FREQ) as [?|_]; [exfalso; lia|].
  cbn [orb].
  destruct (rf_div_loop_total fuel st freq) as (k & freq1 & Hrf);
    [done|done|lia|].
  set (start := if ref_div_factor (pdata st) =? 0 then 0
                else u16 (ref_div_factor (pdata st) - 1)).
  assert (Hc : u16 (start + 1) = c).
  { unfold start, c, u16.
    destruct (Z.eqb_spec (ref_div_factor (pdata st)) 0); [done|].
    rewrite (Z.mod_small (_ - 1)) by lia. rewrite Z.mod_small by lia. lia. }
  assert (Hc1 : 1 <= c <= ADF4350_MAX_R_CNT).
  { unfold c. destruct (Z.eqb_spec (ref_div_factor (pdata st)) 0); lia. }
  set (st1 := set_r4_rf_div_sel k st).
  assert (Htune : tune_fpfd st1 c = tune_fpfd st c) by done.
  assert (Hbody : forall n, (0 < n)%nat ->
            search_body n {| sv_st := st1; sv_r_cnt := start;
                             sv_chspc := chspc st |}
            = Done {| sv_st := set_r1_mod 0 (set_fpfd (tune_fpfd st c) st1);
                      sv_r_cnt := c; sv_chspc := chspc st |}).
  { intros n Hn. destruct n as [|n']; [lia|].
    unfold search_body. cbn [sv_st sv_r_cnt sv_chspc adf4350_tune_r_cnt].
    rewrite Hc.
    destruct (Z.eqb_spec (c * (if ref_div2_en (pdata st1) then 2 else 1)) 0)
      as [Hz|_]; [destruct (ref_div2_en (pdata st1)); lia|].
    cbn [fpfd set_fpfd]. rewrite Htune.
    destruct (Z.gtb_spec (tune_fpfd st c) ADF4350_MAX_FREQ_PFD) as [?|_];
      [lia|].
    cbn [mbind outcome_bind mret outcome_ret].
    destruct (Z.eqb_spec (chspc st) 0) as [?|_]; [lia|].
    cbn [fpfd set_fpfd]. rewrite Z.div_small by lia.
    destruct (Z.gtb_spec c ADF4350_MAX_R_CNT) as [?|_]; [lia|]. done. }
  assert (Hsearch : forall mdiv,
            search_outer fuel fuel freq1 mdiv
              {| sv_st := st1; sv_r_cnt := start; sv_chspc := chspc st |}
            = Fault (if tune_fpfd st c =? 0
                     then DivByZero_fpfd else DivByZero_mod)).
  { intros mdiv. destruct fuel as [|n']; [lia|].
    cbn [search_outer search_middle search_inner].
    rewrite Hbody by lia. cbn [mbind outcome_bind mret outcome_ret].
    cbn [sv_st sv_r_cnt r1_mod set_r1_mod fpfd set_fpfd].
    destruct (Z.gtb_spec 0 ADF4350_MAX_MODULUS) as [?|_]; [lia|].
    cbn [andb mbind outcome_bind mret outcome_ret sv_r_cnt].
    destruct (Z.eqb_spec c 0) as [?|_]; [lia|].
    cbn [mbind outcome_bind mret outcome_ret sv_st fpfd set_r1_mod
         set_fpfd r1_mod].
    by destruct (tune_fpfd st c =? 0). }
  destruct (freq >? ADF4350_MAX_FREQ_45_PRESC); rewrite Hrf;
    cbn [mbind outcome_bind pdata chspc set_r4_rf_div_sel].
  all: fold start; fold st1.
  all: change (pdata st) with (pdata st1) in Hsearch.
  all: by rewrite Hsearch.
Qed.

(** *** The operations on the device state *)



(** X17: A negative request: with ADF4350_MAX_OUT_FREQ below 2^63, a negative
    [int64_t] handed to [adf4350_out_altvoltage0_frequency] is seen by
    [adf4350_set_freq] as a frequency of 2^63 Hz or more, and is
    rejected: -1 is returned, the state is as it was and nothing is
    written. *)
Theorem frequency_negative_rejected fuel Hz st bus :
  ADF4350_MAX_OUT_FREQ < 2 ^ 63 ->
  - 2 ^ 63 <= Hz < 0 ->
  adf4350_out_altvoltage0_frequency fuel Hz st bus = Done (-1, st, bus, []).
Proof.
  intros Hmax Hneg.
  unfold adf4350_out_altvoltage0_frequency, adf4350_set_freq.
  assert (Hbig : 2 ^ 63 <= u64 Hz).
  { unfold u64. change (2 ^ 64) with 18446744073709551616 in *.
    change (2 ^ 63) with 9223372036854775808 in *. div_mod_lia. }
  destruct (Z.gtb_spec (u64 Hz) ADF4350_MAX_OUT_FREQ) as [_|Hle];
    [reflexivity|].
  exfalso. lia.
Qed.

(** The bits of a 32-bit conversion. *)
Lemma u32_testbit x n :
  0 <= n -> Z.testbit (u32 x) n = (n <? 32) && Z.testbit x n.
Proof.
  intros Hn. unfold u32. rewrite <- Z.land_ones by lia.
  rewrite Z.land_spec, Z.testbit_ones_nonneg by lia.
  apply andb_comm.
Qed.

Lemma land_u32_lor r pd :
  0 <= pd < 2 ^ 32 -> Z.land (u32 (Z.lor r pd)) pd = pd.
Proof.
  intros Hpd. apply Z.bits_inj'. intros n Hn.
  rewrite Z.land_spec, u32_testbit, Z.lor_spec by done.
  rewrite <- (u32_small pd) at 2 3 by done.
  rewrite !u32_testbit by done.
  destruct (n <? 32), (Z.testbit r n), (Z.testbit pd n); done.
Qed.

Lemma land_u32_land_lnot r pd :
  Z.land (u32 (Z.land r (Z.lnot pd))) pd = 0.
Proof.
  apply Z.bits_inj'. intros n Hn.
  rewrite Z.land_spec, u32_testbit, Z.land_spec, Z.lnot_spec by done.
  rewrite Z.bits_0.
  destruct (n <? 32), (Z.testbit r n), (Z.testbit pd n); done.
Qed.

Lemma land_bound r pd : 0 <= pd < 2 ^ 31 -> 0 <= Z.land r pd < 2 ^ 31.
Proof.
  intros Hpd.
  assert (E : Z.land r pd = Z.land r pd mod 2 ^ 31).
  { rewrite <- Z.land_ones by lia. rewrite <- Z.land_assoc. f_equal.
    rewrite Z.land_ones by lia. symmetry. by apply Z.mod_small. }
  rewrite E. apply Z.mod_pos_bound. lia.
Qed.

Lemma s32_small x : 0 <= x < 2 ^ 31 -> s32 x = x.
Proof.
  intros Hx. unfold s32. change (2 ^ 32) with 4294967296 in *.
  change (2 ^ 31) with 2147483648 in *. div_mod_lia.
Qed.

(** A run on a state whose shadow differs from the targets at most at
    one index, which is not one of the double-buffered registers 1 and
    4: the register of that index is written when it differs, and no
    other register is. *)
Lemma sync_loop_single n st bus tr j :
  j <> ADF4350_REG1 -> j <> ADF4350_REG4 ->
  (forall i, (i < n)%nat -> i <> j -> regs_hw st !!! i = regs st !!! i) ->
  (sync_loop n false st bus tr).2
  = tr ++ (if decide ((j < n)%nat /\ regs_hw st !!! j <> regs st !!! j)
           then [(j, u32 (Z.lor (regs st !!! j) (Z.of_nat j)))] else []).
Proof.
  intros Hj1 Hj4.
  induction n as [|i IH]; intros Hsame.
  - cbn. rewrite decide_False by lia. by rewrite app_nil_r.
  - cbn [sync_loop]. rewrite andb_false_r, orb_false_r.
    destruct (decide (i = j)) as [->|Hne].
    + destruct (Z.eqb_spec (regs_hw st !!! j) (regs st !!! j)) as [Heq|Hdiff];
        cbn [negb].
      * rewrite sync_loop_noop.
        -- cbn. rewrite decide_False by tauto. by rewrite app_nil_r.
        -- intros k Hk. apply Hsame; lia.
      * rewrite decide_True by (split; [lia|done]).
        cbn [val set_val regs].
        destruct (adf4350_write _ bus) as [ret bus1].
        destruct (ret <? 0); [done|].
        replace (Nat.eqb j ADF4350_REG1 || Nat.eqb j ADF4350_REG4)
          with false.
        2:{ symmetry. apply orb_false_iff.
            split; by apply Nat.eqb_neq. }
        rewrite sync_loop_noop; [done|].
        intros k Hk. cbn [regs_hw set_regs_hw set_val regs].
        rewrite list_lookup_total_insert_ne by lia. apply Hsame; lia.
    + rewrite (Hsame i) by (done || lia). rewrite Z.eqb_refl. cbn [negb].
      rewrite IH by (intros k Hk ?; apply Hsame; [lia|done]).
      f_equal. destruct (decide ((j < i)%nat /\ _)) as [[? ?]|Hn].
      * rewrite decide_True; [done|]. split; [lia|done].
      * rewrite decide_False; [done|]. intros [? ?]. apply Hn.
        split; [lia|done].
Qed.

Lemma sync_config_single st bus j :
  j <> ADF4350_REG1 -> j <> ADF4350_REG4 ->
  (forall i, (i < 6)%nat -> i <> j -> regs_hw st !!! i = regs st !!! i) ->
  (adf4350_sync_config st bus).2
  = if decide ((j < 6)%nat /\ regs_hw st !!! j <> regs st !!! j)
    then [(j, u32 (Z.lor (regs st !!! j) (Z.of_nat j)))] else [].
Proof.
  intros Hj1 Hj4 Hsame. unfold adf4350_sync_config.
  by rewrite (sync_loop_single 6 st bus [] j).
Qed.

(** X20: The initialisation reports success also when nothing was
    programmed.  When the power-up frequency of the configuration, as
    [adf4350_set_freq] receives it, is outside the output range,
    [adf4350_setup] installs the platform data, the reference and the
    channel spacing, the request is rejected with no transfer, and 0 is
    returned all the same; the targets and their shadow are as they
    were. *)
Theorem setup_rejected_power_up {C : adf4350_cfg_h} fuel base ss st bus :
  u64 (s64 (power_up_frequency adf4350_pdata_lpc)) > ADF4350_MAX_OUT_FREQ
  \/ u64 (s64 (power_up_frequency adf4350_pdata_lpc)) < ADF4350_MIN_OUT_FREQ ->
  exists st',
    adf4350_setup fuel base ss st bus = Done (0, st', bus, [])
    /\ pdata st' = adf4350_pdata_lpc
    /\ (s64 (pd_clkin adf4350_pdata_lpc) <> INT32_MAX ->
        clkin st' = u32 (s64 (pd_clkin adf4350_pdata_lpc)))
    /\ (s32 (channel_spacing adf4350_pdata_lpc) <> INT32_MAX ->
        chspc st' = u32 (s32 (channel_spacing adf4350_pdata_lpc)))
    /\ plan_of st' = plan_of st
    /\ regs st' = regs st /\ regs_hw st' = regs_hw st.
Proof.
  intros Hout. unfold adf4350_setup.
  cbn [pdata set_pdata].
  unfold adf4350_out_altvoltage0_refin_frequency,
    adf4350_out_altvoltage0_frequency_resolution,
    adf4350_out_altvoltage0_frequency, adf4350_set_freq.
  set (st1 := if s64 (pd_clkin adf4350_pdata_lpc) =? INT32_MAX
              then set_pdata adf4350_pdata_lpc st
              else set_clkin (u32 (s64 (pd_clkin adf4350_pdata_lpc)))
                     (set_pdata adf4350_pdata_lpc st)).
  assert (Hp1 : pdata st1 = adf4350_pdata_lpc)
    by (unfold st1; by destruct (_ =? INT32_MAX)).
  rewrite Hp1.
  set (st2 := if s32 (channel_spacing adf4350_pdata_lpc) =? INT32_MAX
              then st1
              else set_chspc (u32 (s32 (channel_spacing adf4350_pdata_lpc)))
                     st1).
  assert (Hp2 : pdata st2 = adf4350_pdata_lpc)
    by (unfold st2;
        destruct (s32 (channel_spacing adf4350_pdata_lpc) =? INT32_MAX);
        exact Hp1).
  rewrite Hp2.
  assert (Hrange : (u64 (s64 (power_up_frequency adf4350_pdata_lpc))
                    >? ADF4350_MAX_OUT_FREQ)
                   || (u64 (s64 (power_up_frequency adf4350_pdata_lpc))
                       <? ADF4350_MIN_OUT_FREQ) = true).
  { apply orb_true_iff. destruct Hout as [?|?]; [left|right]; lia. }
  rewrite Hrange. cbn [mbind outcome_bind mret outcome_ret].
  exists st2. split; [done|]. split; [done|].
  unfold st2, st1.
  destruct (Z.eqb_spec (s64 (pd_clkin adf4350_pdata_lpc)) INT32_MAX);
    destruct (Z.eqb_spec (s32 (channel_spacing adf4350_pdata_lpc)) INT32_MAX);
    done.
Qed.

Section Powerdown.

Context {HP : adf4350_h_powerdown}.

(** X18: The status that the power-down returns.  With at least three target
    registers and a power-down mask that is one or more of the low 31
    bits, [adf4350_out_altvoltage0_powerdown] returns the mask for the
    option 1, 0 for the option 0, and the power-down bits of register 2
    as they are for any other option; for the options 1 and 0 this is so
    on every bus, also one whose transfers fail: the status of the
    synchronisation is not reported. *)
Theorem powerdown_status pwd st bus :
  (2 < length (regs st))%nat ->
  0 <= ADF4350_REG2_POWER_DOWN_EN < 2 ^ 31 ->
  (adf4350_out_altvoltage0_powerdown pwd st bus).1.1.1
  = if pwd =? 1 then ADF4350_REG2_POWER_DOWN_EN
    else if pwd =? 0 then 0
    else Z.land (regs st !!! ADF4350_REG2) ADF4350_REG2_POWER_DOWN_EN.
Proof.
  intros Hlen Hpd. unfold adf4350_out_altvoltage0_powerdown.
  destruct (Z.eqb_spec pwd 1) as [->|Hn1].
  - cbn [Z.eqb].
    destruct (adf4350_sync_config _ bus) as [[[r s] b] t] eqn:Hsync.
    apply sync_config_plan in Hsync as (_ & _ & Hregs & _).
    cbn [fst]. rewrite Hregs. cbn [regs set_regs].
    rewrite list_lookup_total_insert_eq by (unfold ADF4350_REG2; lia).
    rewrite land_u32_lor by lia. by apply s32_small.
  - destruct (Z.eqb_spec pwd 0) as [->|Hn0].
    + destruct (adf4350_sync_config _ bus) as [[[r s] b] t] eqn:Hsync.
      apply sync_config_plan in Hsync as (_ & _ & Hregs & _).
      cbn [fst]. rewrite Hregs. cbn [regs set_regs].
      rewrite list_lookup_total_insert_eq by (unfold ADF4350_REG2; lia).
      by rewrite land_u32_land_lnot.
    + cbn [fst]. by apply s32_small, land_bound.
Qed.

(** X19: The writes of the power-down.  On a state with six registers whose
    shadow is equal to the targets, [adf4350_out_altvoltage0_powerdown]
    leaves every target but the one of register 2 as it is, and issues
    one write, of register 2, when the option changes the value of that
    target, and no write otherwise; register 0 is not written. *)
Theorem powerdown_single_write pwd st bus :
  length (regs st) = 6%nat ->
  regs_hw st = regs st ->
  let st' := (adf4350_out_altvoltage0_powerdown pwd st bus).1.1.2 in
  (forall i, i <> ADF4350_REG2 -> regs st' !!! i = regs st !!! i)
  /\ (adf4350_out_altvoltage0_powerdown pwd st bus).2
     = if decide (regs st' !!! ADF4350_REG2 = regs st !!! ADF4350_REG2)
       then []
       else [(ADF4350_REG2,
              u32 (Z.lor (regs st' !!! ADF4350_REG2)
                         (Z.of_nat ADF4350_REG2)))].
Proof.
  intros Hlen Hsync. unfold adf4350_out_altvoltage0_powerdown.
  assert (Hone : forall w,
            let st0 := set_regs (<[ADF4350_REG2 := w]> (regs st)) st in
            (forall i, i <> ADF4350_REG2 ->
                       regs (adf4350_sync_config st0 bus).1.1.2 !!! i
                       = regs st !!! i)
            /\ regs (adf4350_sync_config st0 bus).1.1.2 !!! ADF4350_REG2 = w
            /\ (adf4350_sync_config st0 bus).2
               = if decide (w = regs st !!! ADF4350_REG2) then []
                 else [(ADF4350_REG2,
                        u32 (Z.lor w (Z.of_nat ADF4350_REG2)))]).
  { intros w st0.
    assert (Hregs : regs (adf4350_sync_config st0 bus).1.1.2 = regs st0).
    { destruct (adf4350_sync_config st0 bus) as [[[r s] b] t] eqn:Hrun.
      by apply sync_config_plan in Hrun as (_ & _ & ? & _). }
    rewrite Hregs. unfold st0. cbn [regs set_regs].
    split.
    { intros i Hi. by rewrite list_lookup_total_insert_ne. }
    split.
    { apply list_lookup_total_insert_eq. unfold ADF4350_REG2. lia. }
    rewrite (sync_config_single _ bus ADF4350_REG2); [|done|done|].
    - cbn [regs regs_hw set_regs]. rewrite Hsync.
      rewrite list_lookup_total_insert_eq by (unfold ADF4350_REG2; lia).
      destruct (decide (w = regs st !!! ADF4350_REG2)) as [Heq|Hne].
      + rewrite decide_False; [done|]. intros [_ ?]. done.
      + rewrite decide_True; [done|].
        split; [unfold ADF4350_REG2; lia|done].
    - intros i _ Hi. cbn [regs regs_hw set_regs]. rewrite Hsync.
      by rewrite list_lookup_total_insert_ne. }
  destruct (Z.eqb_spec pwd 1) as [->|Hn1].
  - cbn [Z.eqb].
    specialize (Hone (u32 (Z.lor (regs st !!! ADF4350_REG2)
                                ADF4350_REG2_POWER_DOWN_EN))).
    cbn zeta in Hone. destruct Hone as (Hother & Hsame & Htr).
    destruct (adf4350_sync_config _ bus) as [[[r s] b] t].
    cbn [fst snd] in *. split; [done|]. rewrite Hsame, Htr. done.
  - destruct (Z.eqb_spec pwd 0) as [->|Hn0].
    + specialize (Hone (u32 (Z.land (regs st !!! ADF4350_REG2)
                                    (Z.lnot ADF4350_REG2_POWER_DOWN_EN)))).
      cbn zeta in Hone. destruct Hone as (Hother & Hsame & Htr).
      destruct (adf4350_sync_config _ bus) as [[[r s] b] t].
      cbn [fst snd app] in *. split; [done|]. rewrite Hsame, Htr. done.
    + cbn [fst snd]. split; [done|]. by rewrite decide_True.
Qed.

End Powerdown.

End Properties.

(** * The driver on concrete inputs *)

(** A closed fact about numbers, by computation. *)
Ltac by_computation :=
  vm_compute; repeat split; first [reflexivity | discriminate | lia].

(** ** Register synchronisation *)

(** C1 on a state where only register 4 changed: register 0 equals its
    shadow, and the run, which succeeds, writes register 4 and then
    register 0; the bus has received the two words, high byte first. *)
Lemma sync_config_latches_reg0_witness :
  regs_hw st_reg4_changed !!! ADF4350_REG0 = regs st_reg4_changed !!! ADF4350_REG0
  /\ (run_sync_config st_reg4_changed).2 = [(4%nat, 9207844); (0%nat, 3145728)]
  /\ (run_sync_config st_reg4_changed).1.2 = [[0; 140; 128; 36]; [0; 48; 0; 0]]
  /\ last (run_sync_config st_reg4_changed).2
     = Some (ADF4350_REG0,
             u32 (Z.lor (regs st_reg4_changed !!! ADF4350_REG0) 0)).
Proof.
  split; [reflexivity|]. split; [reflexivity|]. split; [reflexivity|].
  eapply (sync_config_latches_reg0 (P := spi_ok) st_reg4_changed []).
  - right. vm_compute. discriminate.
  - reflexivity.
  - vm_compute. discriminate.
Defined.

(** C9 on the same state: the second run writes nothing. *)
Lemma sync_config_idempotent_witness :
  exists st1 bus1 tr1,
    run_sync_config st_reg4_changed = (0, st1, bus1, tr1)
    /\ regs st1 = regs st_reg4_changed
    /\ adf4350_sync_config (P := spi_ok) st1 bus1 = (0, st1, bus1, []).
Proof.
  do 3 eexists. split; [reflexivity|].
  eapply (sync_config_idempotent (P := spi_ok) st_reg4_changed []).
  - reflexivity.
  - reflexivity.
  - lia.
Defined.

(** ** Rational reducer *)

(** C5 on 1500/2500: the fraction becomes 3/5. *)
Lemma reduce_fraction_lowest_terms_witness :
  exists st',
    reduce_fraction 1500 st_fraction = Done st'
    /\ r0_fract st' = 3 /\ r1_mod st' = 5
    /\ gcd 1500 2500 1500 = Done 500.
Proof.
  destruct (reduce_fraction_lowest_terms 1500 st_fraction)
    as (st' & Hrun & _ & Hpos).
  - by_computation.
  - by_computation.
  - by_computation.
  - exists st'. split; [exact Hrun|].
    destruct Hpos as (Hgcd & Hf & Hm & _); [reflexivity..|].
    split; [exact Hf|]. split; [exact Hm|]. exact Hgcd.
Defined.

(** ** Divider search *)

(** C7 as stated fails at both ends of the 32-bit and 16-bit ranges.
    From the start 65535 the 16-bit counter wraps to 0 and the loop
    divides by zero, whatever the fuel: no counter value above the start
    is returned.  With the doubler on and a reference of 2^31 Hz the
    product wraps to 0: the search returns 1, where the PFD frequency
    over the integers is 2^32 Hz, above the limit of 32 MHz. *)
Lemma tune_r_cnt_every_start_counterexample :
  (forall fuel,
     adf4350_tune_r_cnt (H := ADF4350_h_device) (S fuel)
       (state_of 25000000 10000) 65535 = Fault DivByZero_tune)
  /\ adf4350_tune_r_cnt (H := ADF4350_h_device) 1 st_doubler 0
     = Done (1, set_fpfd 0 st_doubler)
  /\ pfd_of st_doubler 1 = 4294967296
  /\ ADF4350_MAX_FREQ_PFD (adf4350_h := ADF4350_h_device) < pfd_of st_doubler 1.
Proof.
  split; [intros fuel; reflexivity|].
  split; [reflexivity|]. split; [reflexivity|]. reflexivity.
Qed.

(** C7 as amended, on a 100 MHz reference from the start 0: the search
    returns 4, with a PFD frequency of 25 MHz. *)
Lemma tune_r_cnt_smallest_witness :
  exists c,
    adf4350_tune_r_cnt (H := ADF4350_h_device) 4
      (state_of 100000000 10000) 0
    = Done (c, set_fpfd (pfd_of (state_of 100000000 10000) c)
                 (state_of 100000000 10000))
    /\ c = 4.
Proof.
  destruct (tune_r_cnt_smallest (H := ADF4350_h_device) 4
              (state_of 100000000 10000) 0 4)
    as (c & Hrun & Hc & Hok & Hmin).
  - by_computation.
  - lia.
  - lia.
  - by_computation.
  - by_computation.
  - exists c. split; [exact Hrun|].
    destruct (decide (c = 4)) as [|Hne]; [done|]. exfalso.
    assert (Hcase : c = 1 \/ c = 2 \/ c = 3) by lia.
    destruct Hcase as [-> | [-> | ->]]; vm_compute in Hok; by apply Hok.
Defined.

(** ** Band-select divider *)

(** C2 as stated fails at the tie: a PFD frequency of 62500 Hz is
    exactly half of ADF4350_MAX_BANDSEL_CLK = 125000 Hz above a multiple
    of it, and the divider is the truncated quotient 0, not 0 + 1. *)
Lemma band_sel_div_tie_counterexample :
  62500 mod ADF4350_MAX_BANDSEL_CLK (adf4350_h := ADF4350_h_device)
    = ADF4350_MAX_BANDSEL_CLK (adf4350_h := ADF4350_h_device) / 2
  /\ band_sel_div (H := ADF4350_h_device) 62500 = 0
  /\ 62500 / ADF4350_MAX_BANDSEL_CLK (adf4350_h := ADF4350_h_device) + 1 = 1
  /\ div_round_half_up 62500
       (ADF4350_MAX_BANDSEL_CLK (adf4350_h := ADF4350_h_device)) = 1.
Proof. repeat split; reflexivity. Qed.

(** C2 as amended, at the same tie. *)
Lemma band_sel_div_nearest_tie_down_witness :
  band_sel_div (H := ADF4350_h_device) 62500 = 0.
Proof.
  destruct (band_sel_div_nearest_tie_down (H := ADF4350_h_device) 62500)
    as (_ & _ & Htie).
  - reflexivity.
  - discriminate.
  - discriminate.
  - rewrite Htie; reflexivity.
Defined.

(** ** Frequency planner *)

(** C8 on a request of 5 GHz. *)
Lemma set_freq_out_of_range_witness :
  run_set_freq 0 (state_of 25000000 10000) 5000000000
  = Done (-1, state_of 25000000 10000, [], []).
Proof.
  apply (set_freq_out_of_range (H := ADF4350_h_device) (P := spi_ok)).
  left. reflexivity.
Defined.

(** C6 on a request of 2400.01 MHz with a 25 MHz reference and 10 kHz
    channels: the call returns the request, with the fraction 1/2500. *)
Lemma set_freq_fraction_invariant_witness :
  exists ret st' bus' tr,
    run_set_freq 10 (state_of 25000000 10000) 2400010000
      = Done (ret, st', bus', tr)
    /\ ret = 2400010000
    /\ 1 <= r1_mod st'
    /\ 0 <= r0_fract st' < r1_mod st'
    /\ (r0_fract st' = 0 -> r1_mod st' = 1).
Proof.
  do 4 eexists. split; [vm_compute; reflexivity|].
  split; [reflexivity|].
  eapply (set_freq_fraction_invariant (H := ADF4350_h_device) (P := spi_ok)
            10 (state_of 25000000 10000) 2400010000 []).
  - vm_compute; reflexivity.
  - discriminate.
Defined.

(** C3: the code adds [fpfd > 1], that is 1, where its comment and the
    specification have half of [fpfd].  With a 25 MHz reference and 10 kHz
    channels a request of 2400.007 MHz leaves a PFD frequency of 25 MHz
    and a modulus of 2500; the divide ratio of the code is 240000 (integer
    division 96, numerator 0), and the ratio rounded to the nearest, a tie
    going up, is 240001. *)
Theorem div_ratio_truncates :
  search_result
    (search_outer (H := ADF4350_h_device) 10 10 2400007000 23
       {| sv_st := state_of 25000000 10000; sv_r_cnt := 0;
          sv_chspc := 10000 |})
  = Some (25000000, 2500, 96, 0)
  /\ div_ratio 2400007000 2500 25000000 = 240000
  /\ div_round_half_up (2400007000 * 2500) 25000000 = 240001
  /\ returned (run_set_freq 10 (state_of 25000000 10000) 2400007000)
     = Some 2400000000.
Proof. repeat split; vm_compute; reflexivity. Qed.

(** C4: the sum [r0_int * r1_mod + r0_fract] is computed in 32 bits.
    With a reference of 4000 Hz and channels of 1 Hz a request of
    4399996001 Hz leaves the integer division 1099999, the numerator 1
    and the modulus 4000: the achieved frequency over the integers is the
    request, 4399996001 Hz, and the call returns 105028705, which is
    4399996001 - 2^32. *)
Theorem achieved_freq_wraps :
  returned (run_set_freq 10 (state_of 4000 1) 4399996001)
  = Some 105028705
  /\ achieved_freq_of
       <$> final_state (run_set_freq 10 (state_of 4000 1) 4399996001)
     = Some 4399996001
  /\ (fun st => (r0_int st, r1_mod st, r0_fract st, fpfd st, r4_rf_div_sel st))
       <$> final_state (run_set_freq 10 (state_of 4000 1) 4399996001)
     = Some (1099999, 4000, 1, 4000, 0)
  /\ 2 ^ 32 <= 1099999 * 4000
  /\ 4399996001 - 2 ^ 32 = 105028705.
Proof. repeat split; vm_compute; (reflexivity || discriminate). Qed.

(** * More of the driver on concrete inputs *)

(** ** Register synchronisation and serial writer *)

(** X2 on a concrete input. On the state where only register 4 changed, a
    run on the bus that succeeds writes register 0 and does not write
    register 3. *)
Lemma sync_config_writes_exactly_witness :
  ADF4350_REG0 ∈ (run_sync_config st_reg4_changed).2.*1
  /\ ADF4350_REG3 ∉ (run_sync_config st_reg4_changed).2.*1.
Proof.
  set (r := run_sync_config st_reg4_changed).
  assert (Hrun : adf4350_sync_config (P := spi_ok) st_reg4_changed []
                 = (r.1.1.1, r.1.1.2, r.1.2, r.2)) by reflexivity.
  assert (Hret : 0 <= r.1.1.1) by (vm_compute; discriminate).
  split.
  - apply (sync_config_writes_exactly _ _ _ _ _ _ _ Hrun Hret).
    split; [unfold ADF4350_REG0; lia|]. right. split; [reflexivity|].
    right. vm_compute. discriminate.
  - intros Hin.
    apply (sync_config_writes_exactly _ _ _ _ _ _ _ Hrun Hret)
      in Hin as (_ & [Hdiff | (Hzero & _)]).
    + apply Hdiff. reflexivity.
    + discriminate Hzero.
Defined.


(** X4 on a concrete input. The word of register 4 above, 0x008C8024, is
    sent as the bytes 00, 8C, 80, 24. *)
Lemma adf4350_write_big_endian_witness :
  exists b0 b1 b2 b3,
    adf4350_write (P := spi_ok) 9207844 [] = (0, [[b0; b1; b2; b3]])
    /\ 9207844 = b0 * 2 ^ 24 + b1 * 2 ^ 16 + b2 * 2 ^ 8 + b3.
Proof.
  destruct (adf4350_write_big_endian (P := spi_ok) 9207844 [])
    as (b0 & b1 & b2 & b3 & Hw & _ & _ & _ & _ & Hd); [lia|].
  exists b0, b1, b2, b3. split; [exact Hw|exact Hd].
Defined.

(** ** Output divider *)

(** X5 on a concrete input. For the lowest output of the device, 137.5 MHz,
    the loop returns a number of doublings of at most 63. *)
Lemma rf_div_loop_smallest_witness :
  exists k,
    0 <= k <= 63
    /\ rf_div_loop (H := ADF4350_h_device) 64
         (set_r4_rf_div_sel 0 (state_of 25000000 10000)) 137500000
       = Done (set_r4_rf_div_sel k (state_of 25000000 10000),
               137500000 * 2 ^ k).
Proof.
  destruct (rf_div_loop_smallest (H := ADF4350_h_device) 64
              (state_of 25000000 10000) 137500000)
    as (k & Hk & Hrun & _).
  - lia.
  - by_computation.
  - lia.
  - exists k. split; [exact Hk|exact Hrun].
Defined.

(** ** Frequency planner *)

(** X6 on a concrete input. The plan for 2400.01 MHz with a 25 MHz reference
    and 10 kHz channels. *)
Lemma set_freq_plan_bounds_witness :
  exists ret st' bus' tr,
    run_set_freq 10 (state_of 25000000 10000) 2400010000
      = Done (ret, st', bus', tr)
    /\ platform_of st' = platform_of (state_of 25000000 10000)
    /\ (exists r_cnt,
          1 <= r_cnt <= ADF4350_MAX_R_CNT (adf4350_h := ADF4350_h_device)
          /\ fpfd st' = tune_fpfd (state_of 25000000 10000) r_cnt)
    /\ 1 <= fpfd st' <= ADF4350_MAX_FREQ_PFD (adf4350_h := ADF4350_h_device)
    /\ (if 2400010000
           >? ADF4350_MAX_FREQ_45_PRESC (adf4350_h := ADF4350_h_device)
        then 75 else 23) <= r0_int st'
    /\ 1 <= r1_mod st' <= ADF4350_MAX_MODULUS (adf4350_h := ADF4350_h_device).
Proof.
  do 4 eexists. split; [vm_compute; reflexivity|].
  eapply (set_freq_plan_bounds (H := ADF4350_h_device) (P := spi_ok)
            10 (state_of 25000000 10000) 2400010000 []).
  - vm_compute; reflexivity.
  - discriminate.
Defined.

(** X7 on a concrete input. The output divider for 150 MHz: four doublings
    reach the VCO range, at 2400 MHz. *)
Lemma set_freq_rf_divider_witness :
  exists ret st' bus' tr,
    run_set_freq 10 (state_of 25000000 10000) 150000000
      = Done (ret, st', bus', tr)
    /\ r4_rf_div_sel st' = 4
    /\ 0 <= r4_rf_div_sel st' <= 63
    /\ ADF4350_MIN_VCO_FREQ (adf4350_h := ADF4350_h_device)
       <= 150000000 * 2 ^ r4_rf_div_sel st'
    /\ forall j, 0 <= j < r4_rf_div_sel st' ->
                 150000000 * 2 ^ j
                 < ADF4350_MIN_VCO_FREQ (adf4350_h := ADF4350_h_device).
Proof.
  do 4 eexists. split; [vm_compute; reflexivity|].
  split; [reflexivity|].
  eapply (set_freq_rf_divider (H := ADF4350_h_device) (P := spi_ok)
            10 (state_of 25000000 10000) 150000000 []).
  - lia.
  - by_computation.
  - vm_compute; reflexivity.
  - discriminate.
Defined.

(** X8 on a concrete input. After the call for 2400.01 MHz the shadow is the
    targets. *)
Lemma set_freq_shadow_in_sync_witness :
  exists ret st' bus' tr,
    run_set_freq 10 (state_of 25000000 10000) 2400010000
      = Done (ret, st', bus', tr)
    /\ regs_hw st' = regs st' /\ length (regs st') = 6%nat.
Proof.
  do 4 eexists. split; [vm_compute; reflexivity|].
  eapply (set_freq_shadow_in_sync (H := ADF4350_h_device) (P := spi_ok)
            10 (state_of 25000000 10000) 2400010000 []).
  - reflexivity.
  - reflexivity.
  - vm_compute; reflexivity.
  - discriminate.
Defined.

(** X9 on a concrete input. The value returned for 2400.01 MHz is the
    achieved frequency of the final state, which is the request. *)
Lemma set_freq_returns_achieved_witness :
  exists ret st' bus' tr,
    run_set_freq 10 (state_of 25000000 10000) 2400010000
      = Done (ret, st', bus', tr)
    /\ achieved_freq_of st' = 2400010000
    /\ ret = achieved_freq_of st'.
Proof.
  do 4 eexists. split; [vm_compute; reflexivity|].
  split; [reflexivity|].
  eapply (set_freq_returns_achieved (H := ADF4350_h_device) (P := spi_ok)
            10 (state_of 25000000 10000) 2400010000 []).
  - by_computation.
  - vm_compute; reflexivity.
  - discriminate.
  - by_computation.
  - by_computation.
Defined.

(** X10 on a concrete input. A request of 2400.007 MHz, between two
    channels, returns 2400 MHz: 7 kHz below, less than the step of 10 kHz
    (and 1 Hz). *)
Lemma set_freq_accuracy_witness :
  exists ret st' bus' tr,
    run_set_freq 10 (state_of 25000000 10000) 2400007000
      = Done (ret, st', bus', tr)
    /\ ret = 2400000000
    /\ ret <= 2400007000 + 1
    /\ (2400007000 - ret - 1) * (r1_mod st' * 2 ^ r4_rf_div_sel st')
       < fpfd st'.
Proof.
  do 4 eexists. split; [vm_compute; reflexivity|].
  split; [reflexivity|].
  eapply (set_freq_accuracy (H := ADF4350_h_device) (P := spi_ok)
            10 (state_of 25000000 10000) 2400007000 []).
  - lia.
  - by_computation.
  - by_computation.
  - vm_compute; reflexivity.
  - discriminate.
  - by_computation.
  - by_computation.
  - by_computation.
  - by_computation.
Defined.

(** X11 on a concrete input. The request for 2400.01 MHz a second time: the
    same value, and no transfer. *)
Lemma set_freq_repeat_silent_witness :
  exists ret st' bus' tr,
    run_set_freq 10 (state_of 25000000 10000) 2400010000
      = Done (ret, st', bus', tr)
    /\ tr <> []
    /\ adf4350_set_freq (H := ADF4350_h_device) (P := spi_ok)
         10 st' 2400010000 bus'
       = Done (ret, st', bus', []).
Proof.
  do 4 eexists. split; [vm_compute; reflexivity|].
  split; [discriminate|].
  eapply (set_freq_repeat_silent (H := ADF4350_h_device) (P := spi_ok)
            10 (state_of 25000000 10000) 2400010000 []).
  - reflexivity.
  - reflexivity.
  - vm_compute; reflexivity.
  - discriminate.
Defined.

(** X12 on a concrete input. The request for 2400.01 MHz on a fresh state
    and on the state where register 4 had changed: the same value and the
    same plan. *)
Lemma set_freq_memoryless_witness :
  exists reta sta' busa' tra retb stb' busb' trb,
    run_set_freq 10 (state_of 25000000 10000) 2400010000
      = Done (reta, sta', busa', tra)
    /\ run_set_freq 10 st_reg4_changed 2400010000
       = Done (retb, stb', busb', trb)
    /\ tra <> trb
    /\ reta = retb
    /\ plan_of sta' = plan_of stb'
    /\ (length (regs (state_of 25000000 10000)) = 6%nat ->
        length (regs st_reg4_changed) = 6%nat ->
        regs sta' = regs stb').
Proof.
  do 8 eexists. split; [vm_compute; reflexivity|].
  split; [vm_compute; reflexivity|].
  split; [discriminate|].
  eapply (set_freq_memoryless (H := ADF4350_h_device) (P := spi_ok)
            10 2400010000 (state_of 25000000 10000) [] _ _ _ _
            st_reg4_changed []).
  - reflexivity.
  - vm_compute; reflexivity.
  - vm_compute; reflexivity.
  - discriminate.
  - discriminate.
Defined.

(** X13 on a concrete input. With a channel spacing of 0 a request of 2400
    MHz divides by zero. *)
Lemma set_freq_zero_spacing_witness :
  adf4350_set_freq (H := ADF4350_h_device) (P := spi_ok)
    (Z.to_nat 65535) (state_of 25000000 0) 2400000000 []
  = Fault DivByZero_chspc.
Proof.
  apply (set_freq_zero_spacing (H := ADF4350_h_device) (P := spi_ok)).
  - by_computation.
  - lia.
  - by_computation.
  - by_computation.
  - by_computation.
  - reflexivity.
  - lia.
Defined.

(** X14 on a concrete input. With a reference of 4 kHz and channels of 10
    kHz a request of 2400 MHz divides by zero at the modulus. *)
Lemma set_freq_low_reference_witness :
  adf4350_set_freq (H := ADF4350_h_device) (P := spi_ok)
    64 (state_of 4000 10000) 2400000000 []
  = Fault DivByZero_mod.
Proof.
  apply (set_freq_low_reference (H := ADF4350_h_device) (P := spi_ok)
           64 (state_of 4000 10000) 2400000000 []).
  - by_computation.
  - lia.
  - by_computation.
  - by_computation.
  - by_computation.
  - by_computation.
  - by_computation.
  - by_computation.
  - lia.
Defined.

(** ** The operations on the device state *)



(** X17 on a concrete input. A request of -1 Hz is rejected. *)
Lemma frequency_negative_rejected_witness :
  adf4350_out_altvoltage0_frequency (H := ADF4350_h_device) (P := spi_ok)
    10 (-1) (state_of 25000000 10000) []
  = Done (-1, state_of 25000000 10000, [], []).
Proof.
  apply (frequency_negative_rejected (H := ADF4350_h_device) (P := spi_ok)).
  - by_computation.
  - lia.
Defined.

(** X18 on a concrete input. The power-down on a bus whose transfers all
    fail: the status returned is the power-down bit all the same. *)
Lemma powerdown_status_witness :
  (adf4350_out_altvoltage0_powerdown (P := spi_fail_after 0)
     (HP := ADF4350_h_powerdown_device) 1 (state_of 25000000 10000) []).1.1.1
  = 32.
Proof.
  apply (powerdown_status (P := spi_fail_after 0)
           (HP := ADF4350_h_powerdown_device) 1 (state_of 25000000 10000) []).
  - vm_compute. lia.
  - by_computation.
Defined.

(** X19 on a concrete input. The power-down on a state in sync: one write,
    of register 2, with the power-down bit and the index 2. *)
Lemma powerdown_single_write_witness :
  (adf4350_out_altvoltage0_powerdown (P := spi_ok)
     (HP := ADF4350_h_powerdown_device) 1 (state_of 25000000 10000) []).2
  = [(ADF4350_REG2, 34)].
Proof.
  exact (proj2 (powerdown_single_write (P := spi_ok)
                  (HP := ADF4350_h_powerdown_device) 1
                  (state_of 25000000 10000) [] eq_refl eq_refl)).
Defined.

(** X20 on a concrete input. A configuration with a power-up frequency
    of 5 GHz: the initialisation returns 0 and nothing is sent. *)
Lemma setup_rejected_power_up_witness :
  exists st',
    adf4350_setup (H := ADF4350_h_device) (P := spi_ok)
      (C := ADF4350_cfg_h_overrange) 10 0 0 (state_of 0 0) []
    = Done (0, st', [], [])
    /\ clkin st' = 25000000 /\ chspc st' = 10000.
Proof.
  destruct (setup_rejected_power_up (H := ADF4350_h_device) (P := spi_ok)
              (C := ADF4350_cfg_h_overrange) 10 0 0 (state_of 0 0) [])
    as (st' & Hrun & _ & Hclk & Hsp & _).
  - left. reflexivity.
  - exists st'. split; [exact Hrun|].
    split; [apply Hclk|apply Hsp]; discriminate.
Defined.
